(** * hilaliqo: crescent-visibility evaluation, result cache, worker batch
      and antimeridian-safe cell polygons

    A shallow embedding of
      - [calculate] and [getCellColor] of the evaluation module (imported
        as [./calculate.js]; its text is in [src/utils/moonNow.js]),
      - [initDB], [getCachedResults] and [cacheResults] of [src/utils/db.js],
      - [self.onmessage] of [src/utils/worker.js] and its own [getCellColor],
      - [getAntimeridianSafeFeature], [updateH3Grid], [updateMapWithResults],
        the handler of the worker's reply and [getDaysUntilRamadan] of the
        application component,
      - [getYearId] and [getMoonImageURLs] of [src/utils/moonNow.js],
    followed by the properties established about them.

    JavaScript numbers are IEEE-754 binary64 values and are modelled by
    Rocq's primitive [float]: comparisons involving NaN are [false], and a
    decimal literal denotes the nearest binary64 value, as in the source. *)

From Stdlib Require Import Floats ZArith Ascii String.
From stdpp Require Import base option list gmap strings pretty.

Set Warnings "-inexact-float".

(** ** Exceptions

    A JavaScript call either returns or throws.  [result] is the error
    monad threading a thrown exception through the rest of a function
    body; stdpp's [x ← c; k] notation is used for sequencing. *)

Inductive exn : Type :=
  | TypeError (msg : string)
  | Thrown (msg : string).

Inductive result (T : Type) : Type :=
  | Ok (x : T)
  | Throw (e : exn).
Arguments Ok {T} x.
Arguments Throw {T} e.

#[global] Instance result_ret : MRet result := λ T x, Ok x.
#[global] Instance result_bind : MBind result := λ A B f m,
  match m with
  | Ok x => f x
  | Throw e => Throw e
  end.
#[global] Instance result_fmap : FMap result := λ A B f m,
  match m with
  | Ok x => Ok (f x)
  | Throw e => Throw e
  end.

(** ** The astronomy-engine interface

    The ephemeris library is an external collaborator.  Its objects and
    functions are taken as an interface: the types of the objects it hands
    out, the property reads the source performs on them, and the calls the
    source makes, each of which may throw. *)

Module Astronomy.

Inductive Body : Type := Sun | Moon.

(** A [FlexibleDateTime] argument: a JavaScript [Date] or a library time
    object. *)
Inductive Flex (D T : Type) : Type :=
  | FlexDate (d : D)
  | FlexTime (t : T).
Arguments FlexDate {D T} d.
Arguments FlexTime {D T} t.

Record EquatorialCoordinates (V : Type) : Type := {
  ra : float;
  dec : float;
  vec : V
}.
Arguments ra {V} _.
Arguments dec {V} _.
Arguments vec {V} _.

Record HorizontalCoordinates : Type := {
  azimuth : float;
  altitude : float;
  hor_ra : float;
  hor_dec : float
}.

Record Lib : Type := {
  AstroTime : Type;
  Date : Type;
  Observer : Type;
  Vector : Type;
  RotationMatrix : Type;
  DEG2RAD : float;
  RAD2DEG : float;
  (* property reads *)
  ut : AstroTime → float;                (* t.ut *)
  date : AstroTime → Date;               (* t.date *)
  date_ut : Date → float;                (* d.ut, read off a [.date] value *)
  longitude : Observer → float;          (* observer.longitude *)
  (* calls *)
  MakeTime : Flex Date AstroTime → result AstroTime;
  newObserver : float → float → float → result Observer;
  AddDays : AstroTime → float → result AstroTime;
  SearchRiseSet :
    Body → Observer → float → AstroTime → float → result (option AstroTime);
  SearchMoonPhase : float → Date → float → result (option AstroTime);
  Equator :
    Body → Flex Date AstroTime → Observer → bool → bool →
    result (EquatorialCoordinates Vector);
  Horizon :
    Flex Date AstroTime → Observer → float → float → option string →
    result HorizontalCoordinates;
  Libration_diam_deg : Flex Date AstroTime → result float;
  Elongation_elongation : Body → Flex Date AstroTime → result float;
  AngleBetween : Vector → Vector → result float;   (* a number of degrees *)
  GeoVector : Body → Flex Date AstroTime → bool → result Vector;
  Rotation_EQJ_EQD : Flex Date AstroTime → result RotationMatrix;
  RotateVector : RotationMatrix → Vector → result Vector;
  EquatorFromVector : Vector → result (EquatorialCoordinates Vector)
}.

End Astronomy.

(** The functions of JavaScript's [Math] object used by the source.  Their
    results are implementation-approximated, so they are an interface too. *)
Record JsMath : Type := {
  Math_sin : float → float;
  Math_cos : float → float;
  Math_acos : float → float;
  Math_pow : float → float → float
}.

(** ** src/utils/calculate.js *)

Module Calculate.
Import Astronomy.

(** The [options] argument: either property may be absent, in which case
    the destructuring default [true] applies. *)
Record Options : Type := {
  opt_evening : option bool;
  opt_yallop : option bool
}.

Definition no_options : Options :=
  {| opt_evening := None; opt_yallop := None |}.

Section WithLibrary.
Context (A : Lib) (M : JsMath).

Local Open Scope float_scope.

(** Values stored in the [details] object. *)
Inductive value : Type :=
  | VNum (x : float)
  | VStr (s : string)
  | VDate (d : Date A)
  | VTime (t : AstroTime A)
  | VUndefined.

(** A number that may be [undefined]: as a stored value, and as an operand
    of arithmetic, where [undefined] converts to NaN. *)
Definition number_or_undefined (x : option float) : value :=
  match x with
  | Some x => VNum x
  | None => VUndefined
  end.

Definition to_number (x : option float) : float := default nan x.

Definition flex_value (t : Flex (Date A) (AstroTime A)) : value :=
  match t with
  | FlexDate d => VDate d
  | FlexTime t => VTime t
  end.

(** [t.ut] for a value that is a [Date] or a time object. *)
Definition flex_ut (t : Flex (Date A) (AstroTime A)) : float :=
  match t with
  | FlexDate d => date_ut A d
  | FlexTime t => ut A t
  end.

(** [evening ? 1 : -1] *)
Definition sign (evening : bool) : float := if evening then 1 else -1.

(** [const lagTime = (moonsetMoonrise.ut - sunsetSunrise.ut) * (evening ? 1 : -1)] *)
Definition lagTime (evening : bool) (sunsetSunrise moonsetMoonrise : AstroTime A)
    : float :=
  (ut A moonsetMoonrise - ut A sunsetSunrise) * sign evening.

(** [const bestTime = lagTime < 0 ? sunsetSunrise.date : sunsetSunrise.AddDays(...)] *)
Definition bestTime (evening : bool) (sunsetSunrise : AstroTime A) (lagTime : float)
    : result (Flex (Date A) (AstroTime A)) :=
  if lagTime <? 0 then Ok (FlexDate (date A sunsetSunrise))
  else FlexTime <$> AddDays A sunsetSunrise (((lagTime * 4) / 9) * sign evening).

(** [Astronomy.SearchMoonPhase(0, sunsetSunrise.date, limit).date]: reading
    [.date] off [null] is a TypeError. *)
Definition searchNewMoon (sunsetSunrise : AstroTime A) (limit : float)
    : result (Date A) :=
  r ← SearchMoonPhase A 0 (date A sunsetSunrise) limit;
  match r with
  | Some t => Ok (date A t)
  | None => Throw (TypeError "Cannot read properties of null (reading 'date')")
  end.

(** [const newMoonNearest = ... <= ... ? newMoonPrev : newMoonNext] *)
Definition newMoonNearest (sunsetSunrise : AstroTime A) (newMoonPrev newMoonNext : Date A)
    : Date A :=
  if ut A sunsetSunrise - date_ut A newMoonPrev
       <=? date_ut A newMoonNext - ut A sunsetSunrise
  then newMoonPrev else newMoonNext.

(** [const beforeNewMoon = (sunsetSunrise.ut - newMoonNearest.ut) * (evening ? 1 : -1) < 0] *)
Definition beforeNewMoon (evening : bool) (sunsetSunrise : AstroTime A)
    (newMoonNearest : Date A) : bool :=
  (ut A sunsetSunrise - date_ut A newMoonNearest) * sign evening <? 0.

(** The cubic in [WTopo] shared by both criteria, with constant term [c]. *)
Definition threshold (c WTopo : float) : float :=
  c - 6.3226 * WTopo + 0.7319 * Math_pow M WTopo 2 - 0.1018 * Math_pow M WTopo 3.

(** [value], as computed in either branch of [if (yallop)]. *)
Definition geometric_value (yallop : bool) (ARCV WTopo : float) : float :=
  if yallop then (ARCV - threshold 11.8371 WTopo) / 10
  else ARCV - threshold 7.1651 WTopo.

(** [result], the letter chosen by the if-chain of either branch. *)
Definition geometric_result (yallop : bool) (value : float) : string :=
  if yallop then
    if 0.216 <? value then "A"
    else if -0.014 <? value then "B"
    else if -0.16 <? value then "C"
    else if -0.232 <? value then "D"
    else if -0.293 <? value then "E"
    else "F"
  else
    if 5.65 <=? value then "A"
    else if 2.0 <=? value then "C"
    else if -0.96 <=? value then "E"
    else "F".

(** [ARCV] in the [else] branch: the cosine argument is clamped to
    [-1, 1] before [Math.acos]. *)
Definition arcv_from_arcl (ARCL DAZ : float) : float :=
  let COSARCV := Math_cos M (ARCL * DEG2RAD A) / Math_cos M (DAZ * DEG2RAD A) in
  let COSARCV :=
    if COSARCV <? -1 then -1
    else if 1 <? COSARCV then 1
    else COSARCV in
  Math_acos M COSARCV * RAD2DEG A.

(** [ARCV] in the [if (yallop)] branch. *)
Definition arcv_topocentric (bestTime : Flex (Date A) (AstroTime A))
    (observer : Observer A) : result float :=
  geoMoon ← GeoVector A Moon bestTime true;
  geoSun ← GeoVector A Sun bestTime true;
  rot ← Rotation_EQJ_EQD A bestTime;
  rotMoon ← RotateVector A rot geoMoon;
  rotSun ← RotateVector A rot geoSun;
  meq ← EquatorFromVector A rotMoon;
  seq ← EquatorFromVector A rotSun;
  mhor ← Horizon A bestTime observer (ra meq) (dec meq) None;
  shor ← Horizon A bestTime observer (ra seq) (dec seq) None;
  Ok (altitude mhor - altitude shor).

Definition calculate (latitude longitude : float) (altitude_arg : option float)
    (baseTime : Date A) (options : option Options)
    : result (gmap string value) :=
  let altitude_arg := default 0 altitude_arg in
  let options := default no_options options in
  let evening := default true (opt_evening options) in
  let yallop := default true (opt_yallop options) in
  let details : gmap string value := ∅ in
  baseTime ← MakeTime A (FlexDate baseTime);
  observer ← newObserver A latitude longitude altitude_arg;
  time ← AddDays A baseTime (- Astronomy.longitude A observer / 360);
  let direction := if evening then -1 else 1 in
  sunsetSunrise ← SearchRiseSet A Sun observer direction time 1;
  moonsetMoonrise ← SearchRiseSet A Moon observer direction time 1;
  match sunsetSunrise, moonsetMoonrise with
  | Some sunsetSunrise, Some moonsetMoonrise =>
    let lagTime := lagTime evening sunsetSunrise moonsetMoonrise in
    bestTime ← bestTime evening sunsetSunrise lagTime;
    let details := <["lagTime" := VNum lagTime]> details in
    let details := <["moonsetMoonrise" := VDate (date A moonsetMoonrise)]> details in
    let details := <["sunsetSunrise" := VDate (date A sunsetSunrise)]> details in
    newMoonPrev ← searchNewMoon sunsetSunrise (-35);
    newMoonNext ← searchNewMoon sunsetSunrise 35;
    let newMoonNearest := newMoonNearest sunsetSunrise newMoonPrev newMoonNext in
    let details := <["newMoonPrev" := VDate newMoonPrev]> details in
    let details := <["newMoonNext" := VDate newMoonNext]> details in
    let details :=
      <["moonAgePrev" := VNum (flex_ut bestTime - date_ut A newMoonPrev)]> details in
    let details :=
      <["moonAgeNext" := VNum (flex_ut bestTime - date_ut A newMoonNext)]> details in
    let beforeNewMoon := beforeNewMoon evening sunsetSunrise newMoonNearest in
    let details :=
      if (lagTime <? 0) && beforeNewMoon then <["qcode" := VStr "J"]> details
      else details in
    let details :=
      if lagTime <? 0 then <["qcode" := VStr "I"]> details else details in
    let details :=
      if beforeNewMoon then <["qcode" := VStr "G"]> details else details in
    sunEquator ← Equator A Sun bestTime observer true true;
    sunHorizon ← Horizon A bestTime observer (ra sunEquator) (dec sunEquator) None;
    moonEquator ← Equator A Moon bestTime observer true true;
    moonHorizon ← Horizon A bestTime observer (ra moonEquator) (dec moonEquator) None;
    diam_deg ← Libration_diam_deg A bestTime;
    let SD := (diam_deg * 60) / 2 in
    let lunarParallax := SD / 0.27245 in
    let SDTopo :=
      SD * (1 + Math_sin M (altitude moonHorizon * DEG2RAD A)
                * Math_sin M ((lunarParallax / 60) * DEG2RAD A)) in
    (* [AngleBetween] returns a number, and the [.angle] read off a number
       is [undefined] *)
    ARCL ← (if yallop then Some <$> Elongation_elongation A Moon bestTime
            else _ ← AngleBetween A (vec sunEquator) (vec moonEquator); Ok None);
    let DAZ := azimuth sunHorizon - azimuth moonHorizon in
    ARCV ← (if yallop then arcv_topocentric bestTime observer
            else Ok (arcv_from_arcl (to_number ARCL) DAZ));
    let WTopo := SDTopo * (1 - Math_cos M (to_number ARCL * DEG2RAD A)) in
    let value := geometric_value yallop ARCV WTopo in
    let result := geometric_result yallop value in
    let details := <["qcode" := VStr result]> details in
    let details := <["bestTime" := flex_value bestTime]> details in
    let details := <["sd" := VNum SD]> details in
    let details := <["lunarParallax" := VNum lunarParallax]> details in
    let details := <["arcl" := number_or_undefined ARCL]> details in
    let details := <["arcv" := VNum ARCV]> details in
    let details := <["daz" := VNum DAZ]> details in
    let details := <["wTopo" := VNum WTopo]> details in
    let details := <["sdTopo" := VNum SDTopo]> details in
    let details := <["value" := VNum value]> details in
    let details := <["moonAzimuth" := VNum (azimuth moonHorizon)]> details in
    let details := <["moonAltitude" := VNum (altitude moonHorizon)]> details in
    let details := <["moonRa" := VNum (hor_ra moonHorizon)]> details in
    let details := <["moonDec" := VNum (hor_dec moonHorizon)]> details in
    let details := <["sunAzimuth" := VNum (azimuth sunHorizon)]> details in
    let details := <["sunAltitude" := VNum (altitude sunHorizon)]> details in
    let details := <["sunRa" := VNum (hor_ra sunHorizon)]> details in
    let details := <["sunDec" := VNum (hor_dec sunHorizon)]> details in
    Ok details
  | _, _ =>
    Ok (<["qcode" := VStr "H"]> details)
  end.

(** The opening of [calculate], up to and including the two rise/set
    searches: the observer built and what each search returned, [None]
    standing for [null].  It names the point at which "a rise/set pair
    is found" or "a search finds no event" is decided. *)
Definition rise_set_search (latitude longitude : float) (altitude_arg : option float)
    (baseTime : Date A) (options : option Options)
    : result (Observer A * option (AstroTime A) * option (AstroTime A)) :=
  let altitude_arg := default 0 altitude_arg in
  let options := default no_options options in
  let evening := default true (opt_evening options) in
  baseTime ← MakeTime A (FlexDate baseTime);
  observer ← newObserver A latitude longitude altitude_arg;
  time ← AddDays A baseTime (- Astronomy.longitude A observer / 360);
  let direction := if evening then -1 else 1 in
  sunsetSunrise ← SearchRiseSet A Sun observer direction time 1;
  moonsetMoonrise ← SearchRiseSet A Moon observer direction time 1;
  Ok (observer, sunsetSunrise, moonsetMoonrise).

(** [evening] and [yallop] after the destructuring defaults. *)
Definition evening_of (options : option Options) : bool :=
  default true (opt_evening (default no_options options)).

Definition yallop_of (options : option Options) : bool :=
  default true (opt_yallop (default no_options options)).

(** [getCellColor] of calculate.js; [null] is [None]. *)
Definition getCellColor (qcode : option value) : option string :=
  match qcode with
  | Some (VStr "A") => Some "#22c55e"
  | Some (VStr "B") => Some "#84cc16"
  | Some (VStr "C") => Some "#2dd4bf"
  | Some (VStr "D") => Some "#facc15"
  | Some (VStr "E") => Some "#fb923c"
  | Some (VStr "F") => Some "rgba(0, 0, 0, 0)"
  | Some (VStr "G") => Some "#a855f7"
  | Some (VStr "H") => Some "#3b82f6"
  | Some (VStr "I") => Some "#ef4444"
  | Some (VStr "J") => Some "rgba(0, 0, 0, 0)"
  | _ => None
  end.

End WithLibrary.

Arguments VNum {A} x.
Arguments VStr {A} s.
Arguments VDate {A} d.
Arguments VTime {A} t.
Arguments VUndefined {A}.
End Calculate.

(** ** The threshold ladders as the specification words them

    Each criterion is a table of cut points read top to bottom; the first
    band whose cut point the value clears gives the letter, and [F] is what
    is left.  The Yallop bands are cleared strictly, the alternate ones
    weakly. *)

Module Ladder.

Local Open Scope float_scope.

Definition yallop_bands : list (float * string) :=
  [ (0.216, "A"); (-0.014, "B"); (-0.16, "C"); (-0.232, "D"); (-0.293, "E") ].

Definition alternate_bands : list (float * string) :=
  [ (5.65, "A"); (2.0, "C"); (-0.96, "E") ].

Definition first_band (clears : float → float → bool) (bands : list (float * string))
    (value : float) : string :=
  match List.find (λ band, clears value band.1) bands with
  | Some band => band.2
  | None => "F"
  end.

Definition letter (useYallop : bool) (value : float) : string :=
  if useYallop then first_band (λ v cut, cut <? v) yallop_bands value
  else first_band (λ v cut, cut <=? v) alternate_bands value.

End Ladder.

(** ** src/utils/worker.js *)

Module Worker.
Import Astronomy.

(** One entry of [points]: [{ id, lat, lng }]. *)
Record Point : Type := {
  pt_id : string;
  pt_lat : float;
  pt_lng : float
}.

Section WithLibrary.
Context (A : Lib) (M : JsMath).

(** [e.data]; [elevation] and [options] are [undefined] when the sender
    left them out. *)
Record Message : Type := {
  points : list Point;
  elevation : option float;
  date : Date A;
  options : option Calculate.Options
}.

(** One entry of the posted array: [{ id, qcode, color }]. *)
Record CellResult : Type := {
  id : string;
  qcode : option (Calculate.value A);
  color : string
}.

(** The worker's own [getCellColor], whose fall-through is a colour. *)
Definition getCellColor (qcode : option (Calculate.value A)) : string :=
  match qcode with
  | Some (Calculate.VStr "A") => "#22c55e"
  | Some (Calculate.VStr "B") => "#84cc16"
  | Some (Calculate.VStr "C") => "#2dd4bf"
  | Some (Calculate.VStr "D") => "#facc15"
  | Some (Calculate.VStr "E") => "#fb923c"
  | Some (Calculate.VStr "F") => "rgba(0, 0, 0, 0)"
  | Some (Calculate.VStr "G") => "#a855f7"
  | Some (Calculate.VStr "H") => "#3b82f6"
  | Some (Calculate.VStr "I") => "#ef4444"
  | Some (Calculate.VStr "J") => "rgba(0, 0, 0, 0)"
  | _ => "rgba(0,0,0,0)"
  end.

(** The callback of [points.map]. *)
Definition evaluate (msg : Message) (p : Point) : result CellResult :=
  res ← Calculate.calculate A M (pt_lat p) (pt_lng p) (elevation msg) (date msg)
          (options msg);
  Ok {| id := pt_id p;
        qcode := res !! "qcode";
        color := getCellColor (res !! "qcode") |}.

(** [self.onmessage]: [Ok results] is the array handed to
    [self.postMessage]; [Throw e] is an exception leaving the handler,
    in which case nothing is posted. *)
Definition onmessage (msg : Message) : result (list CellResult) :=
  results ← mapM (evaluate msg) (points msg);
  Ok results.

End WithLibrary.

Arguments points {A} _.
Arguments elevation {A} _.
Arguments date {A} _.
Arguments options {A} _.
Arguments id {A} _.
Arguments qcode {A} _.
Arguments color {A} _.
Arguments Build_CellResult {A} _ _ _.
End Worker.

(** ** src/utils/db.js

    The DuckDB connection is an external collaborator.  The three statements
    the source sends are modelled by their meaning on the [results] table:
    [CREATE TABLE IF NOT EXISTS] with primary key [(id, date, elevation)],
    [SELECT * ... WHERE id IN (...) AND date = ... AND elevation = ...], and
    [INSERT OR IGNORE ... VALUES ...].  The statements are built by pasting
    values into the statement text, so the model speaks for identifiers,
    codes and colours free of quote characters ([sql_plain]) and for
    elevations that are finite numbers. *)

Module Db.

Local Open Scope float_scope.

(** A row of [results]. *)
Record Row : Type := {
  row_id : string;
  row_date : string;
  row_elevation : float;
  row_qcode : string;
  row_color : string
}.

(** One element of the arrays the module takes and returns:
    [{ id, qcode, color }]. *)
Record Cached : Type := {
  id : string;
  qcode : string;
  color : string
}.

(** The module-level [conn]: [None] while it is [null], otherwise the
    contents of the [results] table, in insertion order. *)
Definition State : Type := option (list Row).

Definition chunkSize : nat := 500.

(** A text that can be pasted between single quotes unchanged. *)
Fixpoint sql_plain (s : string) : bool :=
  match s with
  | EmptyString => true
  | String c s' => negb (Ascii.eqb c "'"%char) && sql_plain s'
  end.

Definition plain_result (r : Cached) : bool :=
  sql_plain (id r) && sql_plain (qcode r) && sql_plain (color r).

(** [s.split('T')[0]] *)
Fixpoint split_T_head (s : string) : string :=
  match s with
  | EmptyString => EmptyString
  | String c s' => if Ascii.eqb c "T"%char then EmptyString else String c (split_T_head s')
  end.

(** Equality of two primary keys, as the engine compares them: text
    equality on [id] and [date], numeric equality on the DOUBLE. *)
Definition key_matches (r : Row) (id date : string) (elevation : float) : bool :=
  String.eqb (row_id r) id && String.eqb (row_date r) date
    && (row_elevation r =? elevation).

(** The row [('${res.id}', '${dateStr}', ${elevation}, '${res.qcode}',
    '${res.color}')] of a VALUES list. *)
Definition row_of (res : Cached) (dateStr : string) (elevation : float) : Row :=
  {| row_id := id res; row_date := dateStr; row_elevation := elevation;
     row_qcode := qcode res; row_color := color res |}.

(** [{ id: row.id, qcode: row.qcode, color: row.color }] *)
Definition project (row : Row) : Cached :=
  {| id := row_id row; qcode := row_qcode row; color := row_color row |}.

(** [INSERT OR IGNORE] of one row. *)
Definition insert_or_ignore (table : list Row) (r : Row) : list Row :=
  if existsb (λ r', key_matches r' (row_id r) (row_date r) (row_elevation r)) table
  then table
  else table ++ [r].

(** [SELECT * FROM results WHERE id IN (chunk) AND date = dateStr AND
    elevation = elevation], followed by the projection to
    [{ id, qcode, color }]. *)
Definition select_chunk (table : list Row) (chunk : list string) (dateStr : string)
    (elevation : float) : list Cached :=
  map project
    (filter
       (λ row, existsb (String.eqb (row_id row)) chunk = true
               ∧ String.eqb (row_date row) dateStr = true
               ∧ (row_elevation row =? elevation) = true)
       table).

(** [ids.slice(i, i + chunkSize)] *)
Definition slice {T : Type} (l : list T) (i j : nat) : list T :=
  take (j - i) (drop i l).

(** The values of [i] visited by [for (let i = 0; i < n; i += chunkSize)]. *)
Definition chunk_starts (n : nat) : list nat :=
  map (λ k, (k * chunkSize)%nat) (seq 0 ((n + chunkSize - 1) `div` chunkSize)).

(** [holds table id date elevation o]: the rows of [table] under the key
    are exactly those in [o], that is none or one. *)
Definition holds (table : list Row) (id date : string) (elevation : float)
    (o : option Row) : Prop :=
  ∀ row, (row ∈ table ∧ key_matches row id date elevation = true) ↔ o = Some row.

Section WithDate.
Context {Date : Type}.
(** [date.toISOString()], which throws a RangeError on an invalid date. *)
Context (toISOString : Date → result string).

Definition initDB (st : State) : State :=
  match st with
  | Some table => Some table
  | None => Some []
  end.

(** The table behind [conn] once [if (!conn) await initDB()] has run. *)
Definition connected (st : State) : list Row := default [] (initDB st).

Definition getCachedResults (ids : list string) (date : Date) (elevation : float)
    (st : State) : result (list Cached) * State :=
  let st := initDB st in
  let table := connected st in
  (iso ← toISOString date;
   let dateStr := split_T_head iso in
   let allResults :=
     foldl
       (λ allResults i,
          let chunk := slice ids i (i + chunkSize) in
          allResults ++ select_chunk table chunk dateStr elevation)
       [] (chunk_starts (length ids)) in
   Ok allResults,
   st).

Definition cacheResults (results : list Cached) (date : Date) (elevation : float)
    (st : State) : result unit * State :=
  let st := initDB st in
  let table := connected st in
  match toISOString date with
  | Throw e => (Throw e, st)
  | Ok iso =>
    let dateStr := split_T_head iso in
    if (length results =? 0)%nat then (Ok (), st)
    else
      let values := map (λ res, row_of res dateStr elevation) results in
      (Ok (), Some (foldl insert_or_ignore table values))
  end.

(** *** Histories of inserts

    The states the module can be in are those reached from the initial
    [conn = null] by calls of [cacheResults].  A history lists these calls;
    [first_inserted] is the first of the rows they submitted under a key,
    as a lookup returns it. *)

Record Insert : Type := {
  ins_results : list Cached;
  ins_date : Date;
  ins_elevation : float
}.

Definition replay (history : list Insert) (st : State) : State :=
  foldl (λ st i, (cacheResults (ins_results i) (ins_date i) (ins_elevation i) st).2)
    st history.

(** The rows a call submits, none if its date has no ISO form. *)
Definition submitted (i : Insert) : list Row :=
  match toISOString (ins_date i) with
  | Ok iso => map (λ res, row_of res (split_T_head iso) (ins_elevation i)) (ins_results i)
  | Throw _ => []
  end.

Definition first_inserted (history : list Insert) (id dateStr : string)
    (elevation : float) : option Cached :=
  project <$> List.find (λ row, key_matches row id dateStr elevation)
                (concat (map submitted history)).

(** *** The cache as the specification reads it

    What has been written is a list of entries, oldest first, one for each
    result handed to [cacheResults] on a date with an ISO form: the result
    itself, with the day and the elevation it was written under.
    [first_written] is the result of the earliest entry under a key.  This
    reading follows the specification's words (a mapping from cell
    identifier, day and elevation to the result stored, the first writer
    winning); it knows nothing of rows, of the statements sent or of the
    object a lookup builds from a row. *)





(** Requests the model speaks for. *)
Definition plain_insert (i : Insert) : Prop :=
  Forall (λ r, plain_result r = true) (ins_results i)
  ∧ is_finite (ins_elevation i) = true.

End WithDate.
End Db.

(** ** src/App.jsx: cell polygons *)

Module App.

Local Open Scope float_scope.

(** A [[lng, lat]] pair of a GeoJSON ring, or the [undefined] that
    [coords.push(coords[0])] appends to an empty array. *)
Inductive Position : Type :=
  | Pos (lng lat : float)
  | Undefined.

Inductive Geometry : Type :=
  | Polygon (coordinates : list (list Position))
  | MultiPolygon (coordinates : list (list (list Position))).

(** [{ type: 'Feature', properties: { color }, geometry }] *)
Record Feature : Type := {
  properties_color : string;
  geometry : Geometry
}.

(** [a.push(a[0])] *)
Definition push_first (coords : list Position) : list Position :=
  coords ++ [default Undefined (head coords)].

(** The body of the loop at index [i]:
    [Math.abs(lngs[i] - lngs[(i + 1) % lngs.length]) > 180]. *)
Definition jumps (lngs : list float) (i : nat) : bool :=
  match lngs !! i, lngs !! ((i + 1) `mod` length lngs)%nat with
  | Some here, Some next => 180 <? abs (here - next)
  | _, _ => false
  end.

(** [crosses] after the loop, which stops at the first jump. *)
Definition crosses (lngs : list float) : bool :=
  existsb (jumps lngs) (seq 0 (length lngs)).

(** The longitudes of a ring, and the width of the interval they cover. *)
Definition ring_lngs (ring : list Position) : list float :=
  omap (λ p, match p with Pos lng _ => Some lng | Undefined => None end) ring.

Definition fmax (a b : float) : float := if a <? b then b else a.
Definition fmin (a b : float) : float := if b <? a then b else a.

Definition lng_span (ring : list Position) : float :=
  match ring_lngs ring with
  | [] => 0
  | x :: xs => foldl fmax x xs - foldl fmin x xs
  end.

(** A ring that copies a boundary vertex by vertex in (lng, lat) order,
    each longitude passed through [shift], and ends by repeating its first
    vertex. *)
Definition closed_copy (shift : float → float) (boundary : list (float * float))
    (ring : list Position) : Prop :=
  length ring = S (length boundary)
  ∧ (∀ i lat lng, boundary !! i = Some (lat, lng) → ring !! i = Some (Pos (shift lng) lat))
  ∧ ring !! length boundary = ring !! 0%nat.

Section WithGrid.
(** [h3.cellToBoundary], a ring of [[lat, lng]] pairs. *)
Context (cellToBoundary : string → list (float * float)).

Definition getAntimeridianSafeFeature (h3Id color : string) : Feature :=
  let boundary := cellToBoundary h3Id in
  let lngs := map (λ b, b.2) boundary in
  if negb (crosses lngs) then
    let coords := map (λ b, Pos b.2 b.1) boundary in
    let coords := push_first coords in
    {| properties_color := color; geometry := Polygon [coords] |}
  else
    let leftCoords :=
      map (λ b, Pos (if b.2 <? 0 then b.2 + 360 else b.2) b.1) boundary in
    let rightCoords :=
      map (λ b, Pos (if 0 <? b.2 then b.2 - 360 else b.2) b.1) boundary in
    let leftCoords := push_first leftCoords in
    let rightCoords := push_first rightCoords in
    {| properties_color := color;
       geometry := MultiPolygon [[leftCoords]; [rightCoords]] |}.

End WithGrid.
End App.

(** ** A sample library instance

    A small, fully computable instance of the two interfaces, used to run
    the model on concrete inputs.  The ephemeris answers are read off a
    [Scenario]; times and dates are identified with their [ut] value in
    days; the observer constructor validates its arguments the way the
    library documents it. *)

Module Sample.
Import Astronomy.

Local Open Scope float_scope.

Record Scenario : Type := {
  sun_event : option float;       (* ut of the sunset or sunrise found *)
  moon_event : option float;      (* ut of the moonset or moonrise found *)
  new_moon_before : float;        (* ut of the new moon searched backwards *)
  new_moon_after : float;         (* ut of the new moon searched forwards *)
  sun_azimuth : float;
  sun_altitude : float;
  moon_azimuth : float;
  moon_altitude : float;
  elongation : float;             (* degrees *)
  diam_deg : float                (* apparent lunar diameter, degrees *)
}.

Definition body_ra (b : Body) : float :=
  match b with Sun => 1 | Moon => 2 end.

Definition body_equator (b : Body) : EquatorialCoordinates Body :=
  {| ra := body_ra b; dec := 0; vec := b |}.

Definition body_horizon (s : Scenario) (ra : float) : HorizontalCoordinates :=
  if ra =? 1
  then {| azimuth := sun_azimuth s; altitude := sun_altitude s;
          hor_ra := ra; hor_dec := 0 |}
  else {| azimuth := moon_azimuth s; altitude := moon_altitude s;
          hor_ra := ra; hor_dec := 0 |}.

Definition sample_observer (latitude longitude height : float)
    : result (float * float * float) :=
  if is_finite latitude && is_finite longitude && is_finite height then
    if (latitude <? -90) || (90 <? latitude)
    then Throw (Thrown "Latitude is out of range. Must be -90..+90.")
    else Ok (latitude, longitude, height)
  else Throw (Thrown "Value is not a finite number")%string.

Definition library (s : Scenario) : Lib := {|
  AstroTime := float;
  Date := float;
  Observer := float * float * float;
  Vector := Body;
  RotationMatrix := unit;
  DEG2RAD := 0.017453292519943296;
  RAD2DEG := 57.29577951308232;
  ut := λ t, t;
  date := λ t, t;
  date_ut := λ d, d;
  longitude := λ o, o.1.2;
  MakeTime := λ t, match t with FlexDate d => Ok d | FlexTime t => Ok t end;
  newObserver := sample_observer;
  AddDays := λ t days, Ok (t + days);
  SearchRiseSet := λ body _ _ _ _,
    Ok (match body with Sun => sun_event s | Moon => moon_event s end);
  SearchMoonPhase := λ _ _ limit,
    Ok (Some (if limit <? 0 then new_moon_before s else new_moon_after s));
  Equator := λ body _ _ _ _, Ok (body_equator body);
  Horizon := λ _ _ ra _ _, Ok (body_horizon s ra);
  Libration_diam_deg := λ _, Ok (diam_deg s);
  Elongation_elongation := λ _ _, Ok (elongation s);
  AngleBetween := λ _ _, Ok (elongation s);
  GeoVector := λ body _ _, Ok body;
  Rotation_EQJ_EQD := λ _, Ok ();
  RotateVector := λ _ v, Ok v;
  EquatorFromVector := λ v, Ok (body_equator v)
|}.

(** Polynomial approximations, adequate for the small angles used here. *)
Definition math : JsMath := {|
  Math_sin := λ x, x - x * x * x / 6 + x * x * x * x * x / 120;
  Math_cos := λ x, 1 - x * x / 2 + x * x * x * x / 24 - x * x * x * x * x * x / 720;
  Math_acos := λ x, 1.5707963267948966 - (x + x * x * x / 6 + 3 * x * x * x * x * x / 40);
  Math_pow := λ x y,
    if y =? 2 then x * x else if y =? 3 then x * x * x else nan
|}.

(** A young crescent well placed after sunset. *)
Definition young_crescent : Scenario := {|
  sun_event := Some 100.75;
  moon_event := Some 100.80;
  new_moon_before := 99.3;
  new_moon_after := 128.8;
  sun_azimuth := 262;
  sun_altitude := -4;
  moon_azimuth := 258;
  moon_altitude := 12;
  elongation := 20;
  diam_deg := 0.52
|}.

(** The evening before a new moon: the Moon sets before the Sun, and
    the nearest new moon is still to come. *)
Definition evening_before_new_moon : Scenario := {|
  sun_event := Some 100.75;
  moon_event := Some 100.72;
  new_moon_before := 71.9;
  new_moon_after := 101.4;
  sun_azimuth := 262;
  sun_altitude := -0.8;
  moon_azimuth := 266;
  moon_altitude := -7;
  elongation := 8;
  diam_deg := 0.52
|}.

(** A few hours after a new moon, the Moon still setting before the Sun. *)
Definition moonset_before_sunset : Scenario := {|
  sun_event := Some 100.75;
  moon_event := Some 100.74;
  new_moon_before := 100.5;
  new_moon_after := 130.0;
  sun_azimuth := 262;
  sun_altitude := -0.8;
  moon_azimuth := 263;
  moon_altitude := -3;
  elongation := 3;
  diam_deg := 0.52
|}.

(** No moonset within the search window. *)
Definition no_moonset : Scenario := {|
  sun_event := Some 100.6;
  moon_event := None;
  new_moon_before := 99.3;
  new_moon_after := 128.8;
  sun_azimuth := 200;
  sun_altitude := -1;
  moon_azimuth := 190;
  moon_altitude := 5;
  elongation := 20;
  diam_deg := 0.52
|}.

Definition yallop_options : Calculate.Options :=
  {| Calculate.opt_evening := None; Calculate.opt_yallop := Some true |}.

Definition alternate_options : Calculate.Options :=
  {| Calculate.opt_evening := None; Calculate.opt_yallop := Some false |}.

(** Observations on an evaluation: whether it returned, and a field of
    the object it returned. *)
Definition returned {T : Type} (r : result T) : bool :=
  match r with Ok _ => true | Throw _ => false end.

Definition field {A : Lib} (r : result (gmap string (Calculate.value A))) (k : string)
    : option (Calculate.value A) :=
  match r with Ok d => d !! k | Throw _ => None end.

(** The names of the diagnostic fields of a full result. *)
Definition diagnostic_fields : list string :=
  [ "lagTime"; "moonsetMoonrise"; "sunsetSunrise"; "newMoonPrev"; "newMoonNext";
    "moonAgePrev"; "moonAgeNext"; "bestTime"; "sd"; "lunarParallax"; "arcl";
    "arcv"; "daz"; "wTopo"; "sdTopo"; "value"; "moonAzimuth"; "moonAltitude";
    "moonRa"; "moonDec"; "sunAzimuth"; "sunAltitude"; "sunRa"; "sunDec" ].

Definition good_point : Worker.Point :=
  {| Worker.pt_id := "8175bffffffffff"; Worker.pt_lat := 0; Worker.pt_lng := 0 |}.

(** A point whose latitude no observer has. *)
Definition bad_point : Worker.Point :=
  {| Worker.pt_id := "81033ffffffffff"; Worker.pt_lat := 91; Worker.pt_lng := 10 |}.

Definition batch (points : list Worker.Point) : Worker.Message (library young_crescent) :=
  Worker.Build_Message (library young_crescent) points (Some 100) 100.5
    (Some yallop_options).

(** The ring of a cell around the north pole, as [[lat, lng]] pairs: its
    longitudes go once around the globe. *)
Definition polar_boundary : list (float * float) :=
  [ (84, -150); (84, -90); (84, -30); (84, 30); (84, 90); (84, 150) ].

(** The ring of a small cell across the antimeridian. *)
Definition dateline_boundary : list (float * float) :=
  [ (10, 179.5); (10.4, -179.9); (10, -179.4); (9.4, -179.5); (9, -179.9); (9.4, 179.6) ].

(** The ring of a cell away from the antimeridian. *)
Definition inland_boundary : list (float * float) :=
  [ (10, 12); (10.4, 12.5); (10, 13); (9.4, 13); (9, 12.5); (9.4, 12) ].

Definition sample_grid (h3Id : string) : list (float * float) :=
  if String.eqb h3Id "8001fffffffffff" then polar_boundary
  else if String.eqb h3Id "817f3ffffffffff" then dateline_boundary
  else inland_boundary.

(** [Math.round(x) === n], for an integer [n]: rounding is to the nearest
    integer, halves upwards. *)
Definition rounds_to (x n : float) : bool := (n - 0.5 <=? x) && (x <? n + 0.5).

(** Dates given by their ISO text. *)
Definition iso_text (d : string) : result string := Ok d.

Definition noon : string := "2024-03-10T12:00:00.000Z".

Definition result_A : Db.Cached :=
  {| Db.id := "8175bffffffffff"; Db.qcode := "A"; Db.color := "#22c55e" |}.

Definition result_B : Db.Cached :=
  {| Db.id := "8175bffffffffff"; Db.qcode := "B"; Db.color := "#84cc16" |}.

(** 550 identifiers of cells that are not cached. *)
Definition many_ids : list string := replicate 550 "81033ffffffffff".

(** Two inserts under one key, [result_A] first. *)
Definition two_inserts : list (Db.Insert (Date:=string)) :=
  [ {| Db.ins_results := [result_A]; Db.ins_date := noon; Db.ins_elevation := 100 |};
    {| Db.ins_results := [result_B]; Db.ins_date := noon; Db.ins_elevation := 100 |} ].

End Sample.

(** ** The order of binary64 values

    Every value other than NaN has a place on the number line, given here
    as a class (negative infinity, negative, zero, positive, positive
    infinity) followed by exponent and mantissa; comparisons of floats are
    comparisons of these keys. *)

Module FloatKey.

Local Open Scope Z_scope.

Definition sf_key (f : spec_float) : option (Z * Z * Z) :=
  match f with
  | S754_nan => None
  | S754_zero _ => Some (0, 0, 0)
  | S754_infinity false => Some (2, 0, 0)
  | S754_infinity true => Some (-2, 0, 0)
  | S754_finite false m e => Some (1, e, Zpos m)
  | S754_finite true m e => Some (-1, - e, Zneg m)
  end.

Definition key_compare (a b : Z * Z * Z) : comparison :=
  match a.1.1 ?= b.1.1 with
  | Eq => match a.1.2 ?= b.1.2 with
          | Eq => a.2 ?= b.2
          | c => c
          end
  | c => c
  end.

End FloatKey.

(** ** The shape of a result of [calculate] *)

Module Shape.

(** The fields of a full result that hold numbers whatever the options,
    and those that hold dates; [bestTime] holds a date or a time object,
    and [arcl] a number or [undefined]. *)
Definition number_fields : list string :=
  [ "lagTime"; "moonAgePrev"; "moonAgeNext"; "sd"; "lunarParallax"; "arcv";
    "daz"; "wTopo"; "sdTopo"; "value"; "moonAzimuth"; "moonAltitude"; "moonRa";
    "moonDec"; "sunAzimuth"; "sunAltitude"; "sunRa"; "sunDec" ].

Definition date_fields : list string :=
  [ "moonsetMoonrise"; "sunsetSunrise"; "newMoonPrev"; "newMoonNext" ].

Definition all_fields : list string :=
  "qcode" :: "bestTime" :: "arcl" :: number_fields ++ date_fields.

(** The place of a letter on the scale from A (best) to F. *)
Definition letter_rank (letter : string) : nat :=
  if String.eqb letter "A" then 0
  else if String.eqb letter "B" then 1
  else if String.eqb letter "C" then 2
  else if String.eqb letter "D" then 3
  else if String.eqb letter "E" then 4
  else 5.

End Shape.

(** ** Invariants of the [results] table *)

Module DbInvariant.
Import Db.

(** The primary key: no two positions of the table hold rows of one key. *)
Definition keys_unique (table : list Row) : Prop :=
  ∀ i j ri rj,
    table !! i = Some ri → table !! j = Some rj →
    key_matches ri (row_id rj) (row_date rj) (row_elevation rj) = true →
    i = j.

End DbInvariant.

(** ** The application component: the grid on the map

    [updateH3Grid], [updateMapWithResults] and the handler of the worker's
    reply, with the React state and refs they read and write made an
    explicit state.  The awaited cache calls are taken as one step each.
    The map and grid libraries are interfaces: the readings of the map
    ([getZoom], the corners of [getBounds]) are part of the environment,
    [h3.polygonToCells] and [h3.cellToLatLng] are functions that may
    throw. *)

Module Grid.
Import Astronomy.

Local Open Scope float_scope.

(** [res], as the block under [if (res === null)] leaves it. *)
Definition auto_resolution (zoom : float) : float :=
  let res := 1 in
  let res := if 3 <? zoom then 2 else res in
  let res := if 4.5 <? zoom then 3 else res in
  let res := if 6 <? zoom then 4 else res in
  let res := if 8 <? zoom then 5 else res in
  res.

(** [let res = manualRes; if (res === null) { ... }] *)
Definition resolution (manualRes : option float) (zoom : float) : float :=
  match manualRes with
  | Some res => res
  | None => auto_resolution zoom
  end.

(** [hexes.filter(h => !cachedIds.has(h))] with
    [cachedIds = new Set(cached.map(c => c.id))]. *)
Definition missing (hexes : list string) (cached : list Db.Cached) : list string :=
  List.filter (λ h, negb (existsb (String.eqb h) (map Db.id cached))) hexes.

(** No row of the table is under the key of cell [h]. *)
Definition uncached (table : list Db.Row) (day : string) (e : float) (h : string) : bool :=
  negb (existsb (λ row, Db.key_matches row h day e) table).

Section WithLibrary.
Context (A : Lib) (M : JsMath).
Context (toISOString : Date A → result string).
(** [`${v}`] for a value that is not a string. *)
Context (text_of : Calculate.value A → string).
Context (polygonToCells : list (float * float) → float → result (list string)).
Context (cellToLatLng : string → result (float * float)).
Context (cellToBoundary : string → list (float * float)).

(** A value of the [displayedResults] map: an object read from the cache
    or one computed by the worker. *)
Inductive Entry : Type :=
  | FromCache (c : Db.Cached)
  | FromWorker (r : Worker.CellResult A).

Definition entry_id (x : Entry) : string :=
  match x with
  | FromCache c => Db.id c
  | FromWorker r => Worker.id r
  end.

Definition entry_color (x : Entry) : string :=
  match x with
  | FromCache c => Db.color c
  | FromWorker r => Worker.color r
  end.

(** [map.set(key, value)] on a JavaScript [Map], kept in insertion order:
    an existing key keeps its place. *)
Fixpoint map_set (key : string) (value : Entry) (m : list (string * Entry))
    : list (string * Entry) :=
  match m with
  | [] => [(key, value)]
  | (k, v) :: m' =>
    if String.eqb k key then (key, value) :: m' else (k, v) :: map_set key value m'
  end.

(** [map.get(key)] *)
Fixpoint map_get (key : string) (m : list (string * Entry)) : option Entry :=
  match m with
  | [] => None
  | (k, v) :: m' => if String.eqb k key then Some v else map_get key m'
  end.

(** What the callbacks close over or read off the map. *)
Record Env : Type := {
  mapRef_current : bool;
  mapLoaded : bool;
  dbReady : bool;
  manualRes : option float;
  zoom : float;
  northWest : float * float;
  northEast : float * float;
  southEast : float * float;
  southWest : float * float;
  date : Date A;
  elevation : float
}.

Record AppState : Type := {
  displayedResults : list (string * Entry);
  currentResolution : float;
  conn : Db.State;
  (** the data of the source 'moonsighting-grid', [None] before it is added *)
  grid_source : option (list App.Feature);
  recalculating : bool;
  (** the messages handed to [workerRef.current.postMessage], oldest first *)
  posted : list (Worker.Message A);
  (** the arguments of [console.error] *)
  console_errors : list exn
}.

Definition with_displayed (m : list (string * Entry)) (st : AppState) : AppState :=
  {| displayedResults := m; currentResolution := currentResolution st;
     conn := conn st; grid_source := grid_source st;
     recalculating := recalculating st; posted := posted st;
     console_errors := console_errors st |}.

Definition with_resolution (res : float) (st : AppState) : AppState :=
  {| displayedResults := displayedResults st; currentResolution := res;
     conn := conn st; grid_source := grid_source st;
     recalculating := recalculating st; posted := posted st;
     console_errors := console_errors st |}.

Definition with_conn (c : Db.State) (st : AppState) : AppState :=
  {| displayedResults := displayedResults st;
     currentResolution := currentResolution st;
     conn := c; grid_source := grid_source st;
     recalculating := recalculating st; posted := posted st;
     console_errors := console_errors st |}.

Definition with_source (features : list App.Feature) (st : AppState) : AppState :=
  {| displayedResults := displayedResults st;
     currentResolution := currentResolution st;
     conn := conn st; grid_source := Some features;
     recalculating := recalculating st; posted := posted st;
     console_errors := console_errors st |}.

Definition with_recalculating (b : bool) (st : AppState) : AppState :=
  {| displayedResults := displayedResults st;
     currentResolution := currentResolution st;
     conn := conn st; grid_source := grid_source st;
     recalculating := b; posted := posted st;
     console_errors := console_errors st |}.

Definition post (msg : Worker.Message A) (st : AppState) : AppState :=
  {| displayedResults := displayedResults st;
     currentResolution := currentResolution st;
     conn := conn st; grid_source := grid_source st;
     recalculating := recalculating st; posted := posted st ++ [msg];
     console_errors := console_errors st |}.

Definition console_error (e : exn) (st : AppState) : AppState :=
  {| displayedResults := displayedResults st;
     currentResolution := currentResolution st;
     conn := conn st; grid_source := grid_source st;
     recalculating := recalculating st; posted := posted st;
     console_errors := console_errors st ++ [e] |}.

(** [Array.from(displayedResults.current.values())] *)
Definition values (m : list (string * Entry)) : list Entry := map snd m.

(** [results.map(res => getAntimeridianSafeFeature(res.id, res.color))] *)
Definition features (results : list Entry) : list App.Feature :=
  map (λ res, App.getAntimeridianSafeFeature cellToBoundary (entry_id res)
                (entry_color res))
    results.

(** [updateMapWithResults]: both branches leave the source holding the
    features, the second one after adding source and layer. *)
Definition updateMapWithResults (env : Env) (results : list Entry) (st : AppState)
    : AppState :=
  if negb (mapRef_current env) || negb (mapLoaded env) then st
  else with_source (features results) st.

(** The ring handed to [h3.polygonToCells]. *)
Definition polygon (env : Env) : list (float * float) :=
  [ northWest env; northEast env; southEast env; southWest env; northWest env ].

(** [missingHexes.map(h => { const [lat, lng] = h3.cellToLatLng(h); return
    { id: h, lat, lng } })] *)
Definition points_of (missingHexes : list string) : result (list Worker.Point) :=
  mapM (λ h, p ← cellToLatLng h;
             Ok {| Worker.pt_id := h; Worker.pt_lat := p.1; Worker.pt_lng := p.2 |})
    missingHexes.

Definition updateH3Grid (env : Env) (st : AppState) : AppState :=
  if negb (mapRef_current env) || negb (mapLoaded env) || negb (dbReady env) then st
  else
    let res := resolution (manualRes env) (zoom env) in
    let st :=
      if negb (currentResolution st =? res)
      then with_resolution res (with_displayed [] st)
      else st in
    match polygonToCells (polygon env) res with
    | Throw e => console_error e st
    | Ok hexes =>
      let lookup := Db.getCachedResults toISOString hexes (date env) (elevation env)
                      (conn st) in
      let st := with_conn lookup.2 st in
      match lookup.1 with
      | Throw e => console_error e st
      | Ok cached =>
        let missingHexes := missing hexes cached in
        let st :=
          with_displayed
            (foldl (λ m c, map_set (Db.id c) (FromCache c) m) (displayedResults st)
               cached)
            st in
        if (0 <? length missingHexes)%nat then
          let st := with_recalculating true st in
          match points_of missingHexes with
          | Throw e => console_error e st
          | Ok points =>
            post {| Worker.points := points;
                    Worker.elevation := Some (elevation env);
                    Worker.date := date env;
                    Worker.options :=
                      Some {| Calculate.opt_evening := None;
                              Calculate.opt_yallop := Some true |} |}
              st
          end
        else updateMapWithResults env (values (displayedResults st)) st
      end
    end.

(** [`${res.qcode}`] *)
Definition template (q : option (Calculate.value A)) : string :=
  match q with
  | Some (Calculate.VStr s) => s
  | Some Calculate.VUndefined => "undefined"
  | Some v => text_of v
  | None => "undefined"
  end.

(** A worker result as [cacheResults] reads it: its [id], the text of its
    [qcode], its [color]. *)
Definition as_cached (res : Worker.CellResult A) : Db.Cached :=
  {| Db.id := Worker.id res; Db.qcode := template (Worker.qcode res);
     Db.color := Worker.color res |}.

(** [workerRef.current.onmessage]: when [cacheResults] rejects, the rest
    of the handler does not run. *)
Definition onWorkerMessage (env : Env) (results : list (Worker.CellResult A))
    (st : AppState) : AppState :=
  let insert := Db.cacheResults toISOString (map as_cached results) (date env)
                  (elevation env) (conn st) in
  let st := with_conn insert.2 st in
  match insert.1 with
  | Throw _ => st
  | Ok _ =>
    let st :=
      with_displayed
        (foldl (λ m res, map_set (Worker.id res) (FromWorker res) m)
           (displayedResults st) results)
        st in
    let st :=
      if mapRef_current env && mapLoaded env
      then updateMapWithResults env (values (displayedResults st)) st
      else st in
    with_recalculating false st
  end.

(** The guard of [updateH3Grid] lets it run. *)
Definition ready (env : Env) : Prop :=
  mapRef_current env = true ∧ mapLoaded env = true ∧ dbReady env = true.

End WithLibrary.

Arguments FromCache {A} c.
Arguments FromWorker {A} r.
End Grid.

(** ** src/utils/moonNow.js

    Years, identifiers, frame numbers and times in milliseconds are
    integer-valued numbers far below 2^53, on which JavaScript arithmetic
    is exact; they are modelled by [Z], and NaN by [None].  The one
    division, by 3600000.0, is followed at once by [Math.round] and the
    clamp to [1, nimages], and the integer computation gives the same
    clamped frame number.  [String(n)] is decimal notation, stdpp's
    [pretty]. *)

Module MoonNow.

Local Open Scope Z_scope.

Record YearInfo : Type := {
  id_north : Z;
  id_south : Z;
  nimages : Z
}.

(** [MOON_YEAR_INFO[year]], [None] when the table has no such key. *)
Definition MOON_YEAR_INFO (year : Z) : option YearInfo :=
  if year =? 2022 then Some {| id_north := 4955; id_south := 4956; nimages := 8760 |}
  else if year =? 2023 then Some {| id_north := 5048; id_south := 5049; nimages := 8760 |}
  else if year =? 2024 then Some {| id_north := 5187; id_south := 5188; nimages := 8760 |}
  else if year =? 2025 then Some {| id_north := 5415; id_south := 5416; nimages := 8760 |}
  else if year =? 2026 then Some {| id_north := 5587; id_south := 5588; nimages := 8760 |}
  else None.

(** [getYearId]; the year of an invalid date is NaN, here [None], for
    which the table has no entry and [year >= 2027] is false. *)
Definition getYearId (year : option Z) : option YearInfo :=
  match year with
  | None => None
  | Some year =>
    match MOON_YEAR_INFO year with
    | Some info => Some info
    | None =>
      if 2027 <=? year then
        let baseId := 5587 + (year - 2026) * 130 in
        Some {| id_north := baseId; id_south := baseId + 1; nimages := 8760 |}
      else None
    end
  end.

(** A valid [Date], as the function reads it. *)
Record DateReading : Type := {
  getFullYear : Z;      (* in the local time zone *)
  getUTCFullYear : Z;
  getTime : Z           (* milliseconds since the epoch *)
}.

(** [Date.UTC(year, 0, 1, 0, 0, 0)]: the first instant of a year, years 0
    to 99 standing for 1900 to 1999, NaN outside the range of times. *)
Definition Date_UTC_jan1 (year : Z) : option Z :=
  let y := if (0 <=? year) && (year <=? 99) then 1900 + year else year in
  let days :=
    365 * (y - 1970) + (y - 1969) / 4 - (y - 1901) / 100 + (y - 1601) / 400 in
  let t := days * 86400000 in
  if (-8640000000000000 <=? t) && (t <=? 8640000000000000) then Some t else None.

(** [Math.round(n / d)] for integers [n] and [d > 0]: halves go up. *)
Definition round_div (n d : Z) : Z := (2 * n + d) / (2 * d).

(** [String(n)], with NaN for [None]. *)
Definition String_of (n : option Z) : string :=
  match n with
  | Some n => pretty n
  | None => "NaN"
  end.

Fixpoint zeros (n : nat) : string :=
  match n with
  | O => ""
  | S n => String "0" (zeros n)
  end.

(** [s.padStart(targetLength, "0")] *)
Definition padStart (s : string) (targetLength : nat) : string :=
  zeros (targetLength - String.length s) +:+ s.

(** [moon_imagenum] after the two clamps. *)
Definition moon_imagenum (date : DateReading) (moon_nimages : Z) : option Z :=
  let year := getUTCFullYear date in
  match Date_UTC_jan1 year with
  | None => None
  | Some janone =>
    let moon_imagenum := 1 + round_div (getTime date - janone) 3600000 in
    let moon_imagenum :=
      if moon_nimages <? moon_imagenum then moon_nimages else moon_imagenum in
    let moon_imagenum := if moon_imagenum <? 1 then 1 else moon_imagenum in
    Some moon_imagenum
  end.

(** Whether a frame number is written with four characters. *)
Definition four_digits (n : Z) : bool :=
  Nat.eqb (String.length (padStart (pretty n) 4)) 4.

Record MoonImageURLs : Type := {
  jpg : string;
  tif : string
}.

(** [getMoonImageURLs(date, southern)]; [date] is [None] for an invalid
    date, [southern] is [None] when the argument is left out. *)
Definition getMoonImageURLs (date : option DateReading) (southern : option bool)
    : result MoonImageURLs :=
  let southern := default false southern in
  let moon_domain := "https://svs.gsfc.nasa.gov" in
  let moon_year := getFullYear <$> date in
  match getYearId moon_year, date with
  | Some yearInfo, Some date =>
    let id := if southern then id_south yearInfo else id_north yearInfo in
    let idStr := padStart (pretty id) 6 in
    let hundreds := id / 100 * 100 in
    let hundredsStr := padStart (pretty hundreds) 6 in
    let pathPrefix := "/vis/a000000/a" +:+ hundredsStr +:+ "/a" +:+ idStr in
    let filename :=
      "moon." +:+ padStart (String_of (moon_imagenum date (nimages yearInfo))) 4 in
    Ok {| jpg := moon_domain +:+ pathPrefix +:+ "/frames/730x730_1x1_30p/"
                   +:+ filename +:+ ".jpg";
          tif := moon_domain +:+ pathPrefix +:+ "/frames/5760x3240_16x9_30p/plain/"
                   +:+ filename +:+ ".tif" |}
  | _, _ =>
    Throw (Thrown ("Moon images not available for year " +:+ String_of moon_year))
  end.

End MoonNow.

(** ** The application component: days until Ramadan

    [getIslamicNumeric] reads the Islamic calendar off [Intl], an external
    collaborator; its answer for a time is an interface, with NaN fields as
    [None] and the RangeError of an invalid date as a throw. *)

Module Calendar.

Local Open Scope Z_scope.

Record IslamicNumeric : Type := {
  day : option Z;
  month : option Z;
  year : option Z
}.

Definition oneDay : Z := 24 * 60 * 60 * 1000.

(** [new Date(t).getTime()]: a time beyond 8.64e15 ms on either side of
    the epoch makes an invalid date, as NaN does. *)
Definition new_Date (t : option Z) : option Z :=
  t ≫= λ t,
    if (-8640000000000000 <=? t) && (t <=? 8640000000000000) then Some t
    else None.

Section WithIntl.
(** [getIslamicNumeric(probe)], [probe] given by its time, [None] when it
    is an invalid date. *)
Context (getIslamicNumeric : option Z → result IslamicNumeric).

(** [islamic.month === 9 && islamic.day === 1] *)
Definition first_of_ramadan (islamic : IslamicNumeric) : bool :=
  bool_decide (month islamic = Some 9) && bool_decide (day islamic = Some 1).

(** The loop [for (let i = 0; i <= 420; i += 1)], over the values of [i]
    still to visit. *)
Fixpoint probe_from (time : option Z) (offsets : list Z) : result (option Z) :=
  match offsets with
  | [] => Ok None
  | i :: rest =>
    let probe := new_Date ((λ t, t + i * oneDay) <$> time) in
    islamic ← getIslamicNumeric probe;
    if first_of_ramadan islamic then Ok (Some i) else probe_from time rest
  end.

(** [getDaysUntilRamadan(date)], [time] being [date.getTime()]. *)
Definition getDaysUntilRamadan (time : option Z) : result (option Z) :=
  probe_from time (seqZ 0 421).

(** What the loop sees on day [i]. *)
Definition seen (time : option Z) (i : Z) : result IslamicNumeric :=
  getIslamicNumeric (new_Date ((λ t, t + i * oneDay) <$> time)).

Definition hit (time : option Z) (i : Z) : Prop :=
  ∃ islamic, seen time i = Ok islamic ∧
             month islamic = Some 9 ∧ day islamic = Some 1.

Definition miss (time : option Z) (i : Z) : Prop :=
  ∃ islamic, seen time i = Ok islamic ∧
             ¬ (month islamic = Some 9 ∧ day islamic = Some 1).

End WithIntl.
End Calendar.

(** ** Further sample data *)

Module Scenes.
Import Sample.

Local Open Scope float_scope.

(** Dates that may be invalid: a valid one is given by its ISO text. *)
Definition iso_of (d : option string) : result string :=
  match d with
  | Some text => Ok text
  | None => Throw (Thrown "Invalid time value")
  end.

Definition next_day : string := "2024-03-11T12:00:00.000Z".

Definition result_C : Db.Cached :=
  {| Db.id := "817f3ffffffffff"; Db.qcode := "F"; Db.color := "rgba(0, 0, 0, 0)" |}.

(** A later insert: another result under the identifier of [result_A],
    and a first result for another cell. *)
Definition later_inserts : list (Db.Insert (Date:=string)) :=
  [ {| Db.ins_results := [result_B; result_C]; Db.ins_date := noon;
       Db.ins_elevation := 100 |} ].

(** A viewport of two cells. *)
Definition viewport_cells : list string := [ "8175bffffffffff"; "817f3ffffffffff" ].

Definition cells_of (polygon : list (float * float)) (res : float)
    : result (list string) :=
  Ok viewport_cells.

Definition centre_of (h : string) : result (float * float) :=
  if String.eqb h "8175bffffffffff" then Ok (0, 0) else Ok (10, 179.9).

(** A grid library that knows no centre of any cell. *)
Definition no_centre (h : string) : result (float * float) :=
  Throw (Thrown "Cell argument was not valid").

Definition day_of (d : float) : result string := Ok noon.

Definition text (v : Calculate.value (library young_crescent)) : string :=
  "[object Object]".

Definition viewport : Grid.Env (library young_crescent) :=
  Grid.Build_Env (library young_crescent)
    true true true       (* the map, its load event, the database *)
    None 2               (* no manual resolution; zoom level 2 *)
    (20, 170) (20, -170) (-10, -170) (-10, 170)
    100.5 100.

(** The state after mounting: nothing displayed, nothing posted, the
    database not yet connected. *)
Definition mounted : Grid.AppState (library young_crescent) :=
  Grid.Build_AppState (library young_crescent) [] 1 None None false [] [].

(** States in which the cache holds a row for the first cell of the
    viewport, and for both, under the day and the elevation of [viewport]. *)
Definition row_A : Db.Row := Db.row_of result_A "2024-03-10" 100.

Definition row_C : Db.Row := Db.row_of result_C "2024-03-10" 100.

Definition half_cached : Grid.AppState (library young_crescent) :=
  Grid.Build_AppState (library young_crescent) [] 1 (Some [row_A]) None false [] [].

Definition all_cached : Grid.AppState (library young_crescent) :=
  Grid.Build_AppState (library young_crescent) [] 1 (Some [row_A; row_C]) None false
    [] [].

(** The message the first pass over [viewport] posts, and the worker's
    answer to it. *)
Definition first_message : Worker.Message (library young_crescent) :=
  Worker.Build_Message (library young_crescent)
    [ {| Worker.pt_id := "8175bffffffffff"; Worker.pt_lat := 0; Worker.pt_lng := 0 |};
      {| Worker.pt_id := "817f3ffffffffff"; Worker.pt_lat := 10;
         Worker.pt_lng := 179.9 |} ]
    (Some 100) 100.5 (Some yallop_options).

Definition first_answer : list (Worker.CellResult (library young_crescent)) :=
  [ {| Worker.id := "8175bffffffffff"; Worker.qcode := Some (Calculate.VStr "A");
       Worker.color := "#22c55e" |};
    {| Worker.id := "817f3ffffffffff"; Worker.qcode := Some (Calculate.VStr "A");
       Worker.color := "#22c55e" |} ].

Local Open Scope Z_scope.

(** 02:30 UTC on 5 January 2025, read in a zone where it is the same
    year. *)
Definition early_january : MoonNow.DateReading := {|
  MoonNow.getFullYear := 2025;
  MoonNow.getUTCFullYear := 2025;
  MoonNow.getTime := 1735689600000 + 98 * 3600000 + 1800000
|}.

(** Noon UTC on 31 December 2024, a leap year. *)
Definition leap_year_end : MoonNow.DateReading := {|
  MoonNow.getFullYear := 2024;
  MoonNow.getUTCFullYear := 2024;
  MoonNow.getTime := 1704067200000 + 365 * 86400000 + 12 * 3600000
|}.

Definition year_2021 : MoonNow.DateReading := {|
  MoonNow.getFullYear := 2021;
  MoonNow.getUTCFullYear := 2021;
  MoonNow.getTime := 1609459200000
|}.

(** A tabular calendar of twelve months of 30 and 29 days in turn, day 0
    of the epoch being 1 Muharram 1390. *)
Definition tabular (probe : option Z) : result Calendar.IslamicNumeric :=
  match probe with
  | None => Throw (Thrown "Invalid time value")
  | Some t =>
    let days := t / Calendar.oneDay in
    let of_year := days mod 354 in
    let pair := of_year / 59 in
    let rest := of_year mod 59 in
    Ok {| Calendar.day := Some (if rest <? 30 then rest + 1 else rest - 29);
          Calendar.month := Some (2 * pair + (if rest <? 30 then 1 else 2));
          Calendar.year := Some (1390 + days / 354) |}
  end.

(** A formatter that gives no day, month or year part: each is read as
    ['0']. *)
Definition no_parts (probe : option Z) : result Calendar.IslamicNumeric :=
  match probe with
  | None => Throw (Thrown "Invalid time value")
  | Some _ =>
    Ok {| Calendar.day := Some 0; Calendar.month := Some 0; Calendar.year := Some 0 |}
  end.

End Scenes.

(** * Properties *)

(** ** Evaluation *)

Module CalculateFacts.
Import Astronomy Calculate.

(** Case analysis on the next library call of a function body run to
    completion. *)
Ltac next_call H :=
  match type of H with
  | context [match ?c with Ok _ => _ | Throw _ => _ end] =>
    destruct c eqn:?; try discriminate H
  end.

(** Read a field off a literal chain of assignments. *)
Ltac read_field :=
  repeat first [ rewrite lookup_insert_eq | rewrite lookup_insert_ne by done ].

Section WithLibrary.
Context (A : Lib) (M : JsMath).

Local Open Scope float_scope.

Lemma geometric_result_ladder (yallop : bool) (v : float) :
  geometric_result yallop v = Ladder.letter yallop v.
Proof.
  unfold geometric_result, Ladder.letter, Ladder.first_band.
  destruct yallop; simpl.
  - repeat (match goal with |- context [?a <? v] => destruct (a <? v) end;
            try reflexivity).
  - repeat (match goal with |- context [?a <=? v] => destruct (a <=? v) end;
            try reflexivity).
Qed.

Lemma calculate_no_event latitude longitude altitude baseTime options observer s m :
  rise_set_search A latitude longitude altitude baseTime options = Ok (observer, s, m) →
  s = None ∨ m = None →
  calculate A M latitude longitude altitude baseTime options
    = Ok {[ "qcode" := VStr "H" ]}.
Proof.
  intros Hs Hnone.
  unfold rise_set_search, mbind, result_bind in Hs.
  unfold calculate, mbind, result_bind.
  cbv zeta in *.
  repeat next_call Hs.
  injection Hs as -> -> ->.
  destruct Hnone as [-> | ->]; [ reflexivity | destruct s; reflexivity ].
Qed.

(** What a completed evaluation holds once both searches found an
    event: the helper calls that succeeded and the fields the
    geometric step wrote. *)
Lemma calculate_found latitude longitude altitude baseTime options observer s m d :
  rise_set_search A latitude longitude altitude baseTime options
    = Ok (observer, Some s, Some m) →
  calculate A M latitude longitude altitude baseTime options = Ok d →
  ∃ best prev next ARCV WTopo,
    bestTime A (evening_of options) s (lagTime A (evening_of options) s m) = Ok best
    ∧ searchNewMoon A s (-35) = Ok prev
    ∧ searchNewMoon A s 35 = Ok next
    ∧ d !! "lagTime" = Some (VNum (lagTime A (evening_of options) s m))
    ∧ d !! "arcv" = Some (VNum ARCV)
    ∧ d !! "wTopo" = Some (VNum WTopo)
    ∧ d !! "value" = Some (VNum (geometric_value M (yallop_of options) ARCV WTopo))
    ∧ d !! "qcode"
      = Some (VStr (geometric_result (yallop_of options)
                      (geometric_value M (yallop_of options) ARCV WTopo))).
Proof.
  intros Hs Hd.
  unfold rise_set_search, mbind, result_bind in Hs.
  unfold calculate, mbind, result_bind in Hd.
  unfold evening_of, yallop_of.
  cbv zeta in *.
  repeat next_call Hs.
  injection Hs as -> -> ->.
  repeat next_call Hd.
  injection Hd as <-.
  eexists _, _, _, _, _.
  repeat split; try reflexivity.
  all: read_field; try reflexivity.
  repeat match goal with
         | |- context [if ?c then _ else _] => destruct c
         end; read_field; reflexivity.
Qed.

(** The geometric step only ever produces a letter from A to F. *)
Lemma geometric_result_range (yallop : bool) (v : float) :
  In (geometric_result yallop v) ["A"; "B"; "C"; "D"; "E"; "F"].
Proof.
  unfold geometric_result.
  repeat match goal with
         | |- context [if ?c then _ else _] => destruct c
         end; simpl; auto 7.
Qed.

Lemma geometric_result_not_short_circuit (yallop : bool) (v : float) :
  geometric_result yallop v ∉ ["G"; "I"; "J"].
Proof.
  rewrite list_elem_of_In. intros Hbad.
  pose proof (geometric_result_range yallop v) as Hr.
  set (l := geometric_result yallop v) in *. clearbody l.
  simpl in Hr, Hbad.
  repeat match goal with
         | H : _ ∨ _ |- _ => destruct H
         | H : False |- _ => destruct H
         end; subst; discriminate.
Qed.

(** C1.  Whenever both searches find an event and the evaluation
    completes, the code returned is the letter the threshold ladder
    gives for the returned [value], a letter from A to F; the codes
    G, I and J stored earlier in the body never survive, whatever the
    lag time and the position of the new moon are. *)
Theorem calculate_code_is_geometric_letter
    latitude longitude altitude baseTime options observer s m d :
  rise_set_search A latitude longitude altitude baseTime options
    = Ok (observer, Some s, Some m) →
  calculate A M latitude longitude altitude baseTime options = Ok d →
  ∃ v letter,
    d !! "value" = Some (VNum v)
    ∧ letter = geometric_result (yallop_of options) v
    ∧ d !! "qcode" = Some (VStr letter)
    ∧ letter ∉ ["G"; "I"; "J"].
Proof.
  intros Hs Hd.
  destruct (calculate_found _ _ _ _ _ _ _ _ _ Hs Hd)
    as (best & prev & next & ARCV & WTopo & _ & _ & _ & _ & _ & _ & Hv & Hq).
  eexists _, _. repeat split; [exact Hv | exact Hq |].
  apply geometric_result_not_short_circuit.
Qed.

(** C2.  With the Moon's event before the Sun's ([lagTime < 0]) and the
    Sun's event before the nearest new moon, a completed evaluation
    does not return J: it returns the letter of the threshold ladder. *)
Theorem calculate_both_conditions_not_J
    latitude longitude altitude baseTime options observer s m prev next d :
  rise_set_search A latitude longitude altitude baseTime options
    = Ok (observer, Some s, Some m) →
  searchNewMoon A s (-35) = Ok prev →
  searchNewMoon A s 35 = Ok next →
  (lagTime A (evening_of options) s m <? 0) = true →
  beforeNewMoon A (evening_of options) s (newMoonNearest A s prev next) = true →
  calculate A M latitude longitude altitude baseTime options = Ok d →
  d !! "qcode" ≠ Some (VStr "J")
  ∧ ∃ v, d !! "value" = Some (VNum v)
         ∧ d !! "qcode" = Some (VStr (geometric_result (yallop_of options) v)).
Proof.
  intros Hs _ _ _ _ Hd.
  destruct (calculate_found _ _ _ _ _ _ _ _ _ Hs Hd)
    as (best & prev' & next' & ARCV & WTopo & _ & _ & _ & _ & _ & _ & Hv & Hq).
  split; [| eauto].
  rewrite Hq. intros [= HJ].
  apply (geometric_result_not_short_circuit (yallop_of options)
           (geometric_value M (yallop_of options) ARCV WTopo)).
  rewrite HJ, list_elem_of_In. simpl. auto.
Qed.

(** C3.  In a completed evaluation that reached the geometric step,
    [value] is [ARCV] less the cubic in [WTopo], divided by 10 under the
    Yallop criterion, and the code is the letter of the first band of
    the criterion's table that [value] clears: above 0.216, -0.014,
    -0.16, -0.232, -0.293 for A to E under Yallop, at least 5.65, 2.0,
    -0.96 for A, C, E otherwise, and F when no band is cleared.  The
    alternate criterion never yields B or D. *)
Theorem calculate_letter_follows_ladder
    latitude longitude altitude baseTime options observer s m d :
  rise_set_search A latitude longitude altitude baseTime options
    = Ok (observer, Some s, Some m) →
  calculate A M latitude longitude altitude baseTime options = Ok d →
  ∃ ARCV WTopo v letter,
    d !! "arcv" = Some (VNum ARCV)
    ∧ d !! "wTopo" = Some (VNum WTopo)
    ∧ d !! "value" = Some (VNum v)
    ∧ d !! "qcode" = Some (VStr letter)
    ∧ v = (if yallop_of options
           then (ARCV - threshold M 11.8371 WTopo) / 10
           else ARCV - threshold M 7.1651 WTopo)
    ∧ letter = Ladder.letter (yallop_of options) v
    ∧ (yallop_of options = false → letter ≠ "B" ∧ letter ≠ "D").
Proof.
  intros Hs Hd.
  destruct (calculate_found _ _ _ _ _ _ _ _ _ Hs Hd)
    as (best & prev & next & ARCV & WTopo & _ & _ & _ & _ & Ha & Hw & Hv & Hq).
  exists ARCV, WTopo, (geometric_value M (yallop_of options) ARCV WTopo),
    (geometric_result (yallop_of options)
       (geometric_value M (yallop_of options) ARCV WTopo)).
  split; [ exact Ha |]. split; [ exact Hw |]. split; [ exact Hv |].
  split; [ exact Hq |]. split; [ reflexivity |].
  split; [ apply geometric_result_ladder |].
  intros Halt. rewrite Halt. unfold geometric_result.
  split;
    repeat match goal with
           | |- context [if ?c then _ else _] => destruct c
           end; discriminate.
Qed.

(** C6.  When the two searches have run and either of them found no
    event, the evaluation returns normally, with code H. *)
Theorem calculate_no_event_returns_H
    latitude longitude altitude baseTime options observer s m :
  rise_set_search A latitude longitude altitude baseTime options = Ok (observer, s, m) →
  s = None ∨ m = None →
  ∃ d, calculate A M latitude longitude altitude baseTime options = Ok d
       ∧ d !! "qcode" = Some (VStr "H").
Proof.
  intros Hs Hnone.
  exists {[ "qcode" := VStr "H" ]}.
  split; [ exact (calculate_no_event _ _ _ _ _ _ _ _ Hs Hnone) |].
  apply lookup_singleton_eq.
Qed.

(** C10.  In that case the object returned has [qcode] as its only
    property: every other name, and so each of the diagnostic fields,
    is absent from it. *)
Theorem calculate_no_event_only_qcode
    latitude longitude altitude baseTime options observer s m :
  rise_set_search A latitude longitude altitude baseTime options = Ok (observer, s, m) →
  s = None ∨ m = None →
  ∃ d, calculate A M latitude longitude altitude baseTime options = Ok d
       ∧ d !! "qcode" = Some (VStr "H")
       ∧ dom d = {[ "qcode" ]}
       ∧ (∀ k, k ≠ "qcode" → d !! k = None)
       ∧ Forall (λ k, d !! k = None) Sample.diagnostic_fields.
Proof.
  intros Hs Hnone.
  exists {[ "qcode" := VStr "H" ]}.
  split; [ exact (calculate_no_event _ _ _ _ _ _ _ _ Hs Hnone) |].
  split; [ apply lookup_singleton_eq |].
  split; [ apply dom_singleton_L |].
  assert (Hother : ∀ k : string,
             k ≠ "qcode" → ({[ "qcode" := VStr "H" ]} : gmap string (value A)) !! k = None).
  { intros k Hk. apply lookup_singleton_ne. congruence. }
  split; [ exact Hother |].
  unfold Sample.diagnostic_fields.
  repeat (apply Forall_cons; split; [ apply Hother; discriminate |]).
  apply Forall_nil. exact I.
Qed.

End WithLibrary.
End CalculateFacts.

Module CalculateExamples.
Import Astronomy Calculate Sample.

Local Open Scope float_scope.

(** Split on the outcome of a concrete evaluation, keeping the equation
    and discarding the outcome that does not happen. *)
Ltac run_to d Hd :=
  match goal with
  | |- context [calculate ?A ?M ?lat ?lng ?alt ?t ?o = Ok _] =>
    let r := constr:(calculate A M lat lng alt t o) in
    assert (Hran : returned r = true) by (vm_compute; reflexivity);
    destruct r as [d | ?] eqn:Hd; [ clear Hran | discriminate Hran ]
  end.

(** Read a field of a concrete evaluation that returned [d]. *)
Ltac field_is Hd :=
  match type of Hd with
  | ?r = Ok ?d =>
    match goal with
    | |- d !! ?k = ?v =>
      let Hf := fresh in
      assert (Hf : field r k = v) by (vm_compute; reflexivity);
      rewrite Hd in Hf; exact Hf
    end
  end.

Lemma calculate_code_is_geometric_letter_witness :
  let A := library moonset_before_sunset in
  let options := Some yallop_options in
  (lagTime A (evening_of options) 100.75 100.74 <? 0) = true
  ∧ ∃ d, calculate A math 0 0 (Some 0) 100.5 options = Ok d
         ∧ d !! "qcode" = Some (VStr "F")
         ∧ ∃ v letter,
             d !! "value" = Some (VNum v)
             ∧ letter = geometric_result (yallop_of options) v
             ∧ d !! "qcode" = Some (VStr letter)
             ∧ letter ∉ ["G"; "I"; "J"].
Proof.
  cbv zeta. split; [reflexivity |].
  run_to d Hd. exists d. split; [reflexivity |]. split; [field_is Hd |].
  apply (CalculateFacts.calculate_code_is_geometric_letter
           (library moonset_before_sunset) math 0 0 (Some 0) 100.5
           (Some yallop_options) (0, 0, 0) 100.75 100.74 d);
    [ vm_compute; reflexivity | exact Hd ].
Defined.

Lemma calculate_both_conditions_not_J_witness :
  let A := library evening_before_new_moon in
  let options := Some yallop_options in
  (lagTime A (evening_of options) 100.75 100.72 <? 0) = true
  ∧ beforeNewMoon A (evening_of options) 100.75 (newMoonNearest A 100.75 71.9 101.4) = true
  ∧ ∃ d, calculate A math 0 0 (Some 0) 100.5 options = Ok d
         ∧ d !! "qcode" = Some (VStr "F")
         ∧ d !! "qcode" ≠ Some (VStr "J").
Proof.
  cbv zeta. split; [reflexivity |]. split; [reflexivity |].
  run_to d Hd. exists d. split; [reflexivity |]. split; [field_is Hd |].
  apply (CalculateFacts.calculate_both_conditions_not_J
           (library evening_before_new_moon) math 0 0 (Some 0) 100.5
           (Some yallop_options) (0, 0, 0) 100.75 100.72 71.9 101.4 d);
    solve [ vm_compute; reflexivity | exact Hd ].
Defined.

Lemma calculate_letter_follows_ladder_witness :
  let A := library young_crescent in
  let options := Some yallop_options in
  ∃ d, calculate A math 0 0 (Some 0) 100.5 options = Ok d
       ∧ d !! "qcode" = Some (VStr "A")
       ∧ ∃ ARCV WTopo v letter,
           d !! "arcv" = Some (VNum ARCV)
           ∧ d !! "wTopo" = Some (VNum WTopo)
           ∧ d !! "value" = Some (VNum v)
           ∧ d !! "qcode" = Some (VStr letter)
           ∧ v = (if yallop_of options
                  then (ARCV - threshold math 11.8371 WTopo) / 10
                  else ARCV - threshold math 7.1651 WTopo)
           ∧ letter = Ladder.letter (yallop_of options) v
           ∧ (yallop_of options = false → letter ≠ "B" ∧ letter ≠ "D").
Proof.
  cbv zeta.
  run_to d Hd. exists d. split; [reflexivity |]. split; [field_is Hd |].
  apply (CalculateFacts.calculate_letter_follows_ladder
           (library young_crescent) math 0 0 (Some 0) 100.5
           (Some yallop_options) (0, 0, 0) 100.75 100.80 d);
    [ vm_compute; reflexivity | exact Hd ].
Defined.

Lemma calculate_no_event_returns_H_witness :
  let A := library no_moonset in
  ∃ d, calculate A math 70 20 (Some 0) 100.5 (Some yallop_options) = Ok d
       ∧ d !! "qcode" = Some (VStr "H").
Proof.
  cbv zeta.
  apply (CalculateFacts.calculate_no_event_returns_H
           (library no_moonset) math 70 20 (Some 0) 100.5
           (Some yallop_options) (70, 20, 0) (Some 100.6) None);
    [ vm_compute; reflexivity | right; reflexivity ].
Defined.

Lemma calculate_no_event_only_qcode_witness :
  let A := library no_moonset in
  ∃ d, calculate A math 70 20 (Some 0) 100.5 None = Ok d
       ∧ d !! "qcode" = Some (VStr "H")
       ∧ dom d = {[ "qcode" ]}
       ∧ (∀ k, k ≠ "qcode" → d !! k = None)
       ∧ Forall (λ k, d !! k = None) diagnostic_fields.
Proof.
  cbv zeta.
  apply (CalculateFacts.calculate_no_event_only_qcode
           (library no_moonset) math 70 20 (Some 0) 100.5
           None (70, 20, 0) (Some 100.6) None);
    [ vm_compute; reflexivity | right; reflexivity ].
Defined.

End CalculateExamples.

(** ** The worker *)

Module WorkerFacts.
Import Astronomy Worker.

Section MapM.
Context {X Y : Type} (f : X → result Y).

Lemma mapM_cons (x : X) (l : list X) :
  mapM f (x :: l)
  = match f x with
    | Ok y => match mapM f l with Ok k => Ok (y :: k) | Throw e => Throw e end
    | Throw e => Throw e
    end.
Proof. reflexivity. Qed.

(** The traversal returns exactly when every call returns, with the
    results in order. *)
Lemma mapM_Ok (l : list X) (rs : list Y) :
  mapM f l = Ok rs ↔ Forall2 (λ x r, f x = Ok r) l rs.
Proof.
  revert rs. induction l as [| x l IH]; intros rs.
  - split.
    + intros [= <-]. constructor.
    + intros Hall. inversion Hall. reflexivity.
  - rewrite mapM_cons. split.
    + destruct (f x) as [y |] eqn:Hx; [| discriminate].
      destruct (mapM f l) as [k |] eqn:Hl; [| discriminate].
      intros [= <-]. constructor; [ exact Hx | apply IH; reflexivity ].
    + intros Hall. inversion Hall as [| x' y l' k Hx Hrest]; subst.
      rewrite Hx. apply IH in Hrest. rewrite Hrest. reflexivity.
Qed.

(** It throws exactly the exception of the first call that throws. *)
Lemma mapM_Throw (l : list X) (e : exn) :
  mapM f l = Throw e
  ↔ ∃ before x after,
      l = before ++ x :: after
      ∧ Forall (λ q, ∃ r, f q = Ok r) before
      ∧ f x = Throw e.
Proof.
  induction l as [| x l IH].
  - split; [ discriminate |].
    intros (before & x & after & Hl & _). destruct before; discriminate.
  - rewrite mapM_cons. split.
    + destruct (f x) as [y |] eqn:Hx.
      * destruct (mapM f l) as [k |] eqn:Hl; [ discriminate |].
        intros [= ->].
        destruct (proj1 IH eq_refl) as (before & p & after & -> & Hbefore & Hp).
        exists (x :: before), p, after.
        split; [ reflexivity |]. split; [| exact Hp].
        constructor; [ eauto | exact Hbefore ].
      * intros [= ->]. exists [], x, l.
        split; [ reflexivity |]. split; [ constructor | exact Hx ].
    + intros (before & p & after & Hl & Hbefore & Hp).
      destruct before as [| q before]; simpl in Hl; injection Hl as -> ->.
      * rewrite Hp. reflexivity.
      * inversion Hbefore as [| ? ? [r Hq] Hrest]; subst.
        rewrite Hq.
        assert (Hthrow : mapM f (before ++ p :: after) = Throw e).
        { apply IH. eauto 6. }
        rewrite Hthrow. reflexivity.
Qed.

End MapM.

Section WithLibrary.
Context (A : Lib) (M : JsMath).

Lemma onmessage_mapM (msg : Message A) :
  onmessage A M msg = mapM (evaluate A M msg) (points msg).
Proof.
  unfold onmessage, mbind, result_bind.
  destruct (mapM (evaluate A M msg) (points msg)); reflexivity.
Qed.

(** C8, as the handler has it.  A batch is all or nothing.  The array is
    posted exactly when every point evaluates normally, and then it holds
    one entry per point, in order.  When the evaluation of a point
    throws, the handler throws the exception of the first such point and
    posts nothing, whatever the other points would have given. *)
Theorem onmessage_all_or_nothing (msg : Message A) :
  (∀ results,
     onmessage A M msg = Ok results
     ↔ Forall2 (λ p r, evaluate A M msg p = Ok r) (points msg) results)
  ∧ (∀ e,
       onmessage A M msg = Throw e
       ↔ ∃ before p after,
           points msg = before ++ p :: after
           ∧ Forall (λ q, ∃ r, evaluate A M msg q = Ok r) before
           ∧ evaluate A M msg p = Throw e)
  ∧ (∀ p e,
       p ∈ points msg → evaluate A M msg p = Throw e →
       ∃ e', onmessage A M msg = Throw e').
Proof.
  split; [| split].
  - intros results. rewrite onmessage_mapM. apply mapM_Ok.
  - intros e. rewrite onmessage_mapM. apply mapM_Throw.
  - intros p e Hp Hthrow. rewrite onmessage_mapM.
    destruct (mapM (evaluate A M msg) (points msg)) as [results | e'] eqn:Hrun;
      [| eauto].
    apply mapM_Ok in Hrun.
    apply list_elem_of_lookup in Hp as [i Hi].
    destruct (Forall2_lookup_l _ _ _ _ _ Hrun Hi) as (r & _ & Hr).
    congruence.
Qed.

(** What an entry of a posted array holds. *)
Lemma evaluate_Ok (msg : Message A) (p : Point) (r : CellResult A) :
  evaluate A M msg p = Ok r →
  ∃ d, Calculate.calculate A M (pt_lat p) (pt_lng p) (elevation msg) (date msg)
         (options msg) = Ok d
       ∧ id r = pt_id p
       ∧ qcode r = d !! "qcode"
       ∧ color r = getCellColor A (d !! "qcode").
Proof.
  unfold evaluate, mbind, result_bind.
  destruct (Calculate.calculate _ _ _ _ _ _ _) as [d |]; [| discriminate].
  intros [= <-]. exists d. repeat split; reflexivity.
Qed.

End WithLibrary.
End WorkerFacts.

Module WorkerExamples.
Import Astronomy Worker Sample.

Local Open Scope float_scope.

(** C8 as stated fails on a batch of two points of which the second has
    latitude 91: the first point evaluates normally on its own, yet the
    batch gives no array at all. *)
Lemma onmessage_bad_point_loses_batch :
  Worker.onmessage (library young_crescent) math (batch [good_point])
    = Ok [ {| id := "8175bffffffffff";
              qcode := Some (Calculate.VStr "A");
              color := "#22c55e" |} ]
  ∧ Worker.onmessage (library young_crescent) math (batch [good_point; bad_point])
    = Throw (Thrown "Latitude is out of range. Must be -90..+90.")
  ∧ ¬ ∃ results,
        Worker.onmessage (library young_crescent) math (batch [good_point; bad_point])
          = Ok results.
Proof.
  split; [ vm_compute; reflexivity |].
  assert (Hthrow :
            Worker.onmessage (library young_crescent) math (batch [good_point; bad_point])
            = Throw (Thrown "Latitude is out of range. Must be -90..+90."))
    by (vm_compute; reflexivity).
  split; [ exact Hthrow |].
  intros [results Hok]. rewrite Hthrow in Hok. discriminate Hok.
Qed.

Lemma onmessage_all_or_nothing_witness :
  bad_point ∈ points (batch [good_point; bad_point])
  ∧ evaluate (library young_crescent) math (batch [good_point; bad_point]) bad_point
    = Throw (Thrown "Latitude is out of range. Must be -90..+90.")
  ∧ ∃ e', Worker.onmessage (library young_crescent) math (batch [good_point; bad_point])
          = Throw e'.
Proof.
  assert (Hin : bad_point ∈ points (batch [good_point; bad_point])).
  { simpl. apply list_elem_of_In. simpl. auto. }
  assert (Hthrow :
            evaluate (library young_crescent) math (batch [good_point; bad_point]) bad_point
            = Throw (Thrown "Latitude is out of range. Must be -90..+90."))
    by (vm_compute; reflexivity).
  split; [ exact Hin |]. split; [ exact Hthrow |].
  exact (proj2 (proj2 (WorkerFacts.onmessage_all_or_nothing
                         (library young_crescent) math (batch [good_point; bad_point])))
           bad_point _ Hin Hthrow).
Defined.

End WorkerExamples.

(** ** Cell polygons *)

Module AppFacts.
Import App.

Local Open Scope float_scope.

Lemma jumps_spec (lngs : list float) (i : nat) :
  jumps lngs i = true
  ↔ ∃ here next,
      lngs !! i = Some here
      ∧ lngs !! ((i + 1) `mod` length lngs)%nat = Some next
      ∧ (180 <? abs (here - next)) = true.
Proof.
  unfold jumps. split.
  - destruct (lngs !! i) as [here |]; [| discriminate].
    destruct (lngs !! _) as [next |]; [| discriminate].
    intros Hj. exists here, next. auto.
  - intros (here & next & -> & -> & Hj). exact Hj.
Qed.

(** The loop finds a wrap exactly when two cyclically consecutive
    longitudes are more than 180 apart. *)
Lemma crosses_spec (lngs : list float) :
  crosses lngs = true
  ↔ ∃ i here next,
      lngs !! i = Some here
      ∧ lngs !! ((i + 1) `mod` length lngs)%nat = Some next
      ∧ (180 <? abs (here - next)) = true.
Proof.
  unfold crosses. rewrite existsb_exists. split.
  - intros (i & _ & Hj). apply jumps_spec in Hj as (here & next & H). eauto.
  - intros (i & here & next & Hi & Hn & Hj).
    exists i. split.
    + apply in_seq. apply lookup_lt_Some in Hi. lia.
    + apply jumps_spec. eauto.
Qed.

Lemma push_first_closed_copy (shift : float → float) (boundary : list (float * float)) :
  boundary ≠ [] →
  closed_copy shift boundary (push_first (map (λ b, Pos (shift b.2) b.1) boundary)).
Proof.
  intros Hne. unfold closed_copy, push_first.
  split; [| split].
  - rewrite length_app, length_map. simpl. lia.
  - intros i lat lng Hi.
    rewrite lookup_app_l by (rewrite length_map; eapply lookup_lt_Some; eauto).
    rewrite list_lookup_fmap, Hi. reflexivity.
  - destruct boundary as [| b boundary]; [ congruence |].
    rewrite lookup_app_r by (rewrite length_map; lia).
    rewrite length_map, Nat.sub_diag. reflexivity.
Qed.

Section WithGrid.
Context (cellToBoundary : string → list (float * float)).

(** C9, as the function has it.  For a boundary with at least one vertex:
    a wrap is detected exactly when two cyclically consecutive longitudes
    are more than 180 apart; without a wrap the geometry is one polygon
    copying the boundary in (lng, lat) order and closed by its first
    vertex; with a wrap it is a multi-polygon of exactly two such closed
    copies, the left one with negative longitudes moved up by 360, the
    right one with positive longitudes moved down by 360.  Nothing is
    promised about the width of a part. *)
Theorem getAntimeridianSafeFeature_parts (h3Id color : string)
    (b0 : float * float) (rest : list (float * float)) :
  cellToBoundary h3Id = b0 :: rest →
  let boundary := b0 :: rest in
  let lngs := map (λ b, b.2) boundary in
  let feature := getAntimeridianSafeFeature cellToBoundary h3Id color in
  properties_color feature = color
  ∧ (crosses lngs = true
     ↔ ∃ i here next,
         lngs !! i = Some here
         ∧ lngs !! ((i + 1) `mod` length boundary)%nat = Some next
         ∧ (180 <? abs (here - next)) = true)
  ∧ (crosses lngs = false →
     ∃ ring, geometry feature = Polygon [ring] ∧ closed_copy (λ lng, lng) boundary ring)
  ∧ (crosses lngs = true →
     ∃ left right,
       geometry feature = MultiPolygon [[left]; [right]]
       ∧ closed_copy (λ lng, if lng <? 0 then lng + 360 else lng) boundary left
       ∧ closed_copy (λ lng, if 0 <? lng then lng - 360 else lng) boundary right).
Proof.
  intros Hb boundary lngs feature.
  assert (Hne : boundary ≠ []) by discriminate.
  subst feature. unfold getAntimeridianSafeFeature. rewrite Hb.
  fold boundary. fold lngs.
  split; [ destruct (crosses lngs); reflexivity |].
  split.
  { rewrite crosses_spec. subst lngs. rewrite length_map. reflexivity. }
  split.
  - intros ->. simpl. eexists. split; [ reflexivity |].
    exact (push_first_closed_copy (λ lng, lng) boundary Hne).
  - intros ->. simpl. eexists _, _. split; [ reflexivity |].
    split.
    + exact (push_first_closed_copy (λ lng, if lng <? 0 then lng + 360 else lng)
               boundary Hne).
    + exact (push_first_closed_copy (λ lng, if 0 <? lng then lng - 360 else lng)
               boundary Hne).
Qed.

End WithGrid.
End AppFacts.

Module AppExamples.
Import App Sample.

Local Open Scope float_scope.

(** C9 as stated fails for the ring of a cell around a pole: its last and
    first longitudes are 300 apart, so a wrap is detected, and the left part
    runs from longitude 30 to longitude 330. *)
Lemma polar_cell_part_wider_than_180 :
  ∃ left right,
    geometry (getAntimeridianSafeFeature sample_grid "8001fffffffffff" "#22c55e")
      = MultiPolygon [[left]; [right]]
    ∧ lng_span left = 300
    ∧ (180 <? lng_span left) = true
    ∧ (180 <? lng_span right) = true.
Proof.
  eexists _, _.
  split; [ vm_compute; reflexivity |].
  repeat split; vm_compute; reflexivity.
Qed.

Lemma getAntimeridianSafeFeature_parts_witness :
  let boundary := dateline_boundary in
  let lngs := map (λ b, b.2) boundary in
  let feature := getAntimeridianSafeFeature sample_grid "817f3ffffffffff" "#22c55e" in
  properties_color feature = "#22c55e"
  ∧ (crosses lngs = true
     ↔ ∃ i here next,
         lngs !! i = Some here
         ∧ lngs !! ((i + 1) `mod` length boundary)%nat = Some next
         ∧ (180 <? abs (here - next)) = true)
  ∧ (crosses lngs = false →
     ∃ ring, geometry feature = Polygon [ring] ∧ closed_copy (λ lng, lng) boundary ring)
  ∧ (crosses lngs = true →
     ∃ left right,
       geometry feature = MultiPolygon [[left]; [right]]
       ∧ closed_copy (λ lng, if lng <? 0 then lng + 360 else lng) boundary left
       ∧ closed_copy (λ lng, if 0 <? lng then lng - 360 else lng) boundary right).
Proof.
  exact (AppFacts.getAntimeridianSafeFeature_parts sample_grid
           "817f3ffffffffff" "#22c55e" (10, 179.5)
           [ (10.4, -179.9); (10, -179.4); (9.4, -179.5); (9, -179.9); (9.4, 179.6) ]
           eq_refl).
Defined.

(** The two sample rings away from the pole: one part for the inland cell,
    two parts of width at most 1.1 for the cell across the antimeridian. *)
Example inland_cell_single_polygon :
  ∃ ring,
    geometry (getAntimeridianSafeFeature sample_grid "8175bffffffffff" "#22c55e")
      = Polygon [ring]
    ∧ lng_span ring = 1.
Proof. eexists. split; vm_compute; reflexivity. Qed.

End AppExamples.

(** ** The result cache *)

Module FloatFacts.
Local Open Scope float_scope.

Lemma SFeqb_finite s1 m1 e1 s2 m2 e2 :
  SFeqb (S754_finite s1 m1 e1) (S754_finite s2 m2 e2) = true
  ↔ s1 = s2 ∧ m1 = m2 ∧ e1 = e2.
Proof.
  unfold SFeqb, SFcompare. split.
  - destruct s1, s2; try discriminate.
    all: destruct (Z.compare e1 e2) eqn:He; try discriminate;
      apply Z.compare_eq in He; subst e2;
      rewrite Pos.compare_cont_spec; simpl;
      destruct (Pos.compare m1 m2) eqn:Hm; try discriminate;
      apply Pos.compare_eq in Hm; subst; auto.
  - intros (<- & <- & <-).
    destruct s1; rewrite Z.compare_refl, Pos.compare_cont_refl; reflexivity.
Qed.

Lemma SFeqb_sym f g : SFeqb f g = true → SFeqb g f = true.
Proof.
  destruct f as [sf | sf | | sf mf ef], g as [sg | sg | | sg mg eg];
    try (rewrite !SFeqb_finite; intros (-> & -> & ->); auto; fail);
    unfold SFeqb; simpl;
    repeat match goal with s : bool |- _ => destruct s end;
    simpl; auto.
Qed.

Lemma SFeqb_trans f g h : SFeqb f g = true → SFeqb g h = true → SFeqb f h = true.
Proof.
  destruct f as [sf | sf | | sf mf ef], g as [sg | sg | | sg mg eg];
    try (rewrite SFeqb_finite; intros (-> & -> & ->); exact id);
    unfold SFeqb at 1; simpl;
    repeat match goal with s : bool |- _ => destruct s end;
    simpl; try discriminate; intros _;
    destruct h as [sh | sh | | sh mh eh];
    unfold SFeqb; simpl;
    repeat match goal with s : bool |- _ => destruct s end;
    simpl; auto.
Qed.

(** Numeric equality of binary64 values is symmetric and transitive, and
    reflexive away from NaN. *)
Lemma eqb_sym (x y : float) : (x =? y) = true → (y =? x) = true.
Proof. rewrite !FloatAxioms.eqb_spec. apply SFeqb_sym. Qed.

Lemma eqb_trans (x y z : float) : (x =? y) = true → (y =? z) = true → (x =? z) = true.
Proof. rewrite !FloatAxioms.eqb_spec. apply SFeqb_trans. Qed.

Lemma eqb_refl_finite (x : float) : is_finite x = true → (x =? x) = true.
Proof.
  unfold is_finite, is_nan. destruct (x =? x); [ reflexivity | discriminate ].
Qed.

End FloatFacts.

Module DbFacts.
Import Db.

Local Open Scope float_scope.

Lemma key_matches_spec (r : Row) (i d : string) (e : float) :
  key_matches r i d e = true
  ↔ row_id r = i ∧ row_date r = d ∧ (row_elevation r =? e) = true.
Proof.
  unfold key_matches. rewrite !andb_true_iff, !String.eqb_eq. tauto.
Qed.

(** Two rows matching one key match each other's key. *)
Lemma key_matches_common (r r' : Row) (i d : string) (e : float) :
  key_matches r i d e = true →
  key_matches r' i d e = true →
  key_matches r (row_id r') (row_date r') (row_elevation r') = true.
Proof.
  rewrite !key_matches_spec. intros (-> & -> & He) (-> & -> & He').
  repeat split.
  eapply FloatFacts.eqb_trans; [ exact He | apply FloatFacts.eqb_sym; exact He' ].
Qed.

(** A row matching the key of a row that matches a key matches that key. *)
Lemma key_matches_trans (r r' : Row) (i d : string) (e : float) :
  key_matches r (row_id r') (row_date r') (row_elevation r') = true →
  key_matches r' i d e = true →
  key_matches r i d e = true.
Proof.
  rewrite !key_matches_spec. intros (-> & -> & He) (-> & -> & He').
  repeat split. eapply FloatFacts.eqb_trans; eassumption.
Qed.

Lemma existsb_false_elem {T : Type} (p : T → bool) (l : list T) :
  existsb p l = false ↔ ∀ x, x ∈ l → p x = false.
Proof.
  induction l as [| y l IH]; simpl.
  - split; [ intros _ x Hx; inversion Hx | reflexivity ].
  - rewrite orb_false_iff, IH. split.
    + intros [Hy Hl] x Hx. apply elem_of_cons in Hx as [-> | Hx]; auto.
    + intros Hall. split; [ apply Hall; left | intros x Hx; apply Hall; right; exact Hx ].
Qed.

Lemma existsb_true_elem {T : Type} (p : T → bool) (l : list T) :
  existsb p l = true ↔ ∃ x, x ∈ l ∧ p x = true.
Proof.
  rewrite existsb_exists. split; intros (x & Hx & Hp); exists x; split; auto;
    apply list_elem_of_In; exact Hx.
Qed.

Lemma existsb_eqb_elem (i : string) (chunk : list string) :
  existsb (String.eqb i) chunk = true ↔ i ∈ chunk.
Proof.
  rewrite existsb_true_elem. split.
  - intros (x & Hx & Heq). apply String.eqb_eq in Heq. subst. exact Hx.
  - intros Hi. exists i. split; [ exact Hi | apply String.eqb_refl ].
Qed.

(** *** The meaning of one SELECT *)

Lemma select_chunk_spec (table : list Row) (chunk : list string) (d : string)
    (e : float) (x : Cached) :
  x ∈ select_chunk table chunk d e
  ↔ ∃ row, row ∈ table ∧ row_id row ∈ chunk ∧ key_matches row (id x) d e = true
           ∧ x = project row.
Proof.
  unfold select_chunk. rewrite list_elem_of_fmap. split.
  - intros (row & -> & Hrow). apply list_elem_of_filter in Hrow as [(Hid & Hd & He) Hin].
    exists row. simpl. rewrite key_matches_spec.
    apply existsb_eqb_elem in Hid. apply String.eqb_eq in Hd. auto 8.
  - intros (row & Hin & Hid & Hkey & ->). simpl in Hkey.
    apply key_matches_spec in Hkey as (_ & Hd & He).
    exists row. split; [ reflexivity |].
    apply list_elem_of_filter. split; [| exact Hin].
    split; [ apply existsb_eqb_elem; exact Hid |].
    split; [ apply String.eqb_eq; exact Hd | exact He ].
Qed.

(** *** The chunks cover the identifiers *)

Lemma chunkSize_pos : (0 < chunkSize)%nat.
Proof. unfold chunkSize. lia. Qed.

Lemma slice_chunk {T : Type} (l : list T) (i : nat) (x : T) :
  x ∈ slice l i (i + chunkSize)
  ↔ ∃ t, (t < chunkSize)%nat ∧ l !! (i + t)%nat = Some x.
Proof.
  unfold slice. replace (i + chunkSize - i)%nat with chunkSize by lia.
  rewrite elem_of_take. split.
  - intros (t & Ht & Hlt). rewrite lookup_drop in Ht. eauto.
  - intros (t & Hlt & Ht). exists t. rewrite lookup_drop. auto.
Qed.

Lemma chunks_cover {T : Type} (l : list T) (x : T) :
  (∃ i, i ∈ chunk_starts (length l) ∧ x ∈ slice l i (i + chunkSize)) ↔ x ∈ l.
Proof.
  pose proof chunkSize_pos as Hpos.
  split.
  - intros (i & _ & Hx). apply slice_chunk in Hx as (t & _ & Ht).
    apply list_elem_of_lookup. eauto.
  - intros Hx. apply list_elem_of_lookup in Hx as [j Hj].
    pose proof (lookup_lt_Some _ _ _ Hj) as Hlt.
    pose proof (Nat.div_mod_eq j chunkSize) as Hdm.
    pose proof (Nat.mod_upper_bound j chunkSize ltac:(lia)) as Hmod.
    exists (j `div` chunkSize * chunkSize)%nat. split.
    + unfold chunk_starts. apply list_elem_of_fmap.
      exists (j `div` chunkSize)%nat. split; [ reflexivity |].
      apply elem_of_seq. split; [ lia |]. rewrite Nat.add_0_l.
      apply Nat.Div0.div_lt_upper_bound.
      pose proof (Nat.div_mod_eq (length l + chunkSize - 1) chunkSize) as Hdm'.
      pose proof (Nat.mod_upper_bound (length l + chunkSize - 1) chunkSize ltac:(lia)).
      nia.
    + apply slice_chunk. exists (j `mod` chunkSize)%nat. split; [ exact Hmod |].
      replace (j `div` chunkSize * chunkSize + j `mod` chunkSize)%nat with j by lia.
      exact Hj.
Qed.

Lemma foldl_append_elem {X Y : Type} (f : X → list Y) (l : list X) (acc : list Y) (y : Y) :
  y ∈ foldl (λ acc i, acc ++ f i) acc l ↔ y ∈ acc ∨ ∃ i, i ∈ l ∧ y ∈ f i.
Proof.
  revert acc. induction l as [| i l IH]; intros acc; simpl.
  - split; [ auto | intros [H | (i & Hi & _)]; [ exact H | inversion Hi ] ].
  - rewrite IH, elem_of_app. split.
    + intros [[H | H] | (j & Hj & H)]; [ auto | right; exists i | right; exists j ];
        (split; [| exact H]); [ left | right; exact Hj ].
    + intros [H | (j & Hj & H)]; [ auto |].
      apply elem_of_cons in Hj as [-> | Hj]; [ auto | right; eauto ].
Qed.

(** *** INSERT OR IGNORE keeps the first row of a key *)

Lemma insert_or_ignore_holds (table : list Row) (r : Row) (i d : string) (e : float)
    (o : option Row) :
  holds table i d e o →
  holds (insert_or_ignore table r) i d e
    (match o with
     | Some _ => o
     | None => if key_matches r i d e then Some r else None
     end).
Proof.
  intros Hold. unfold insert_or_ignore.
  destruct (existsb _ table) eqn:Hex.
  - (* the key of [r] is taken *)
    destruct o as [r0 |]; [ exact Hold |].
    destruct (key_matches r i d e) eqn:Hr; [| exact Hold].
    apply existsb_true_elem in Hex as (r' & Hin & Hr').
    pose proof (key_matches_trans _ _ _ _ _ Hr' Hr) as Hk.
    pose proof (proj1 (Hold r') (conj Hin Hk)). discriminate.
  - (* [r] is appended *)
    pose proof (proj1 (existsb_false_elem _ _) Hex) as Hfree.
    intros row. rewrite elem_of_app, list_elem_of_singleton.
    destruct o as [r0 |].
    + destruct (proj2 (Hold r0) eq_refl) as [Hin0 Hk0].
      split.
      * intros [[Hin | ->] Hk]; [ apply Hold; auto |].
        pose proof (key_matches_common _ _ _ _ _ Hk0 Hk) as Hc.
        rewrite (Hfree r0 Hin0) in Hc. discriminate.
      * intros Heq. apply Hold in Heq as [Hin Hk]. auto.
    + destruct (key_matches r i d e) eqn:Hr.
      * split.
        -- intros [[Hin | ->] Hk]; [| reflexivity ].
           pose proof (proj1 (Hold row) (conj Hin Hk)). discriminate.
        -- intros [= <-]. auto.
      * split.
        -- intros [[Hin | ->] Hk]; [ apply Hold; auto | congruence ].
        -- discriminate.
Qed.

Lemma foldl_insert_holds (rows : list Row) (table : list Row) (i d : string) (e : float)
    (o : option Row) :
  holds table i d e o →
  holds (foldl insert_or_ignore table rows) i d e
    (match o with
     | Some _ => o
     | None => List.find (λ row, key_matches row i d e) rows
     end).
Proof.
  revert table o. induction rows as [| r rows IH]; intros table o Hold; simpl.
  - destruct o; exact Hold.
  - pose proof (IH _ _ (insert_or_ignore_holds _ r _ _ _ _ Hold)) as Hnext.
    destruct o as [r0 |]; [ exact Hnext |].
    destruct (key_matches r i d e); exact Hnext.
Qed.

Section WithDate.
Context {Date : Type} (toISOString : Date → result string).

Lemma initDB_connected (st : State) : initDB st = Some (connected st).
Proof. destruct st; reflexivity. Qed.

Lemma connected_initDB (st : State) : connected (initDB st) = connected st.
Proof. destruct st; reflexivity. Qed.

(** The state after an insert, in terms of the rows it submits. *)
Lemma cacheResults_state (results : list Cached) (date : Date) (e : float) (st : State) :
  (cacheResults toISOString results date e st).2
  = Some (foldl insert_or_ignore (connected st)
            (submitted toISOString
               {| ins_results := results; ins_date := date; ins_elevation := e |})).
Proof.
  unfold cacheResults, submitted. simpl.
  rewrite connected_initDB.
  destruct (toISOString date) as [iso |]; simpl; [| apply initDB_connected ].
  destruct results as [| r results]; simpl; [ apply initDB_connected | reflexivity ].
Qed.

Lemma replay_connected (history : list (Insert (Date:=Date))) (st : State) :
  connected (replay toISOString history st)
  = foldl insert_or_ignore (connected st) (concat (map (submitted toISOString) history)).
Proof.
  revert st. induction history as [| i history IH]; intros st; simpl.
  - reflexivity.
  - unfold replay in *. simpl. rewrite IH, cacheResults_state, foldl_app.
    destruct i. reflexivity.
Qed.

(** A lookup never fails on a date with an ISO form, and what it returns
    is read off the table behind the connection. *)
Lemma getCachedResults_spec (ids : list string) (date : Date) (e : float) (st : State)
    (iso : string) :
  toISOString date = Ok iso →
  ∃ found,
    (getCachedResults toISOString ids date e st).1 = Ok found
    ∧ ∀ x, x ∈ found
           ↔ id x ∈ ids
             ∧ ∃ row, row ∈ connected st
                      ∧ key_matches row (id x) (split_T_head iso) e = true
                      ∧ x = project row.
Proof.
  intros Hiso. unfold getCachedResults. simpl.
  unfold mbind, result_bind. rewrite Hiso. rewrite connected_initDB.
  eexists. split; [ reflexivity |].
  intros x. rewrite foldl_append_elem. split.
  - intros [Hnil | (i & Hi & Hx)]; [ inversion Hnil |].
    apply select_chunk_spec in Hx as (row & Hin & Hid & Hkey & ->).
    split.
    + apply (chunks_cover ids). exists i. auto.
    + exists row. auto.
  - intros (Hid & row & Hin & Hkey & ->). right.
    apply (chunks_cover ids) in Hid as (i & Hi & Hslice).
    exists i. split; [ exact Hi |].
    apply select_chunk_spec. exists row. auto.
Qed.

Lemma filter_no_match (table : list Row) (chunk : list string) (d : string) (e : float) :
  (∀ row, row ∈ table → row_id row ∈ chunk → key_matches row (row_id row) d e = false) →
  select_chunk table chunk d e = [].
Proof.
  intros Hnone. unfold select_chunk.
  induction table as [| r table IH]; [ reflexivity |].
  rewrite filter_cons. destruct (decide _) as [(Hid & Hd & He) |].
  - apply existsb_eqb_elem in Hid. apply String.eqb_eq in Hd.
    pose proof (Hnone r ltac:(left) Hid) as Hk.
    assert (key_matches r (row_id r) d e = true)
      by (apply key_matches_spec; auto).
    congruence.
  - apply IH. intros row Hin. apply Hnone. right. exact Hin.
Qed.

Lemma select_chunk_app (table table' : list Row) (chunk : list string) (d : string)
    (e : float) :
  select_chunk (table ++ table') chunk d e
  = select_chunk table chunk d e ++ select_chunk table' chunk d e.
Proof. unfold select_chunk. rewrite filter_app. apply map_app. Qed.

Lemma select_chunk_one (r : Row) (d : string) (e : float) :
  select_chunk [r] [row_id r] d e
  = if String.eqb (row_date r) d && (row_elevation r =? e) then [project r] else [].
Proof.
  unfold select_chunk. rewrite filter_cons. simpl.
  destruct (decide _) as [(Hid & Hd & He) | Hno].
  - rewrite Hd, He. reflexivity.
  - destruct (String.eqb (row_date r) d) eqn:Hd; [| reflexivity ].
    destruct (row_elevation r =? e) eqn:He; [| reflexivity ].
    exfalso. apply Hno. rewrite String.eqb_refl. auto.
Qed.

Lemma getCachedResults_one (i : string) (date : Date) (e : float) (st : State)
    (iso : string) :
  toISOString date = Ok iso →
  (getCachedResults toISOString [i] date e st).1
  = Ok (select_chunk (connected st) [i] (split_T_head iso) e).
Proof.
  intros Hiso. unfold getCachedResults. simpl fst.
  unfold mbind, result_bind. rewrite Hiso, connected_initDB.
  change (chunk_starts (length [i])) with [0%nat].
  reflexivity.
Qed.

Lemma cacheResults_one (r : Cached) (date : Date) (e : float) (st : State) (iso : string) :
  toISOString date = Ok iso →
  connected (cacheResults toISOString [r] date e st).2
  = insert_or_ignore (connected st) (row_of r (split_T_head iso) e).
Proof.
  intros Hiso. rewrite cacheResults_state. unfold submitted. simpl.
  rewrite Hiso. reflexivity.
Qed.

(** C4.  Insert is first-writer-wins.  From a state holding nothing under
    the key [(id, date, elevation)], insert a result [a] and then a result
    [b] with the same [id] under the same date and elevation: the second
    insert leaves the table as it was, and a lookup of the key returns [a],
    before and after it. *)
Theorem cacheResults_first_writer_wins (st : State) (a b : Cached) (date : Date)
    (e : float) (iso : string) :
  toISOString date = Ok iso →
  is_finite e = true →
  plain_result a = true →
  plain_result b = true →
  id b = id a →
  (∀ row, row ∈ connected st → key_matches row (id a) (split_T_head iso) e = false) →
  let st1 := (cacheResults toISOString [a] date e st).2 in
  let st2 := (cacheResults toISOString [b] date e st1).2 in
  connected st2 = connected st1
  ∧ (getCachedResults toISOString [id a] date e st1).1 = Ok [a]
  ∧ (getCachedResults toISOString [id a] date e st2).1 = Ok [a].
Proof.
  intros Hiso Hfin _ _ Hid Hfree st1 st2.
  pose proof (FloatFacts.eqb_refl_finite e Hfin) as Hee.
  assert (H1 : connected st1 = connected st ++ [row_of a (split_T_head iso) e]).
  { subst st1. rewrite (cacheResults_one _ _ _ _ _ Hiso). unfold insert_or_ignore.
    simpl. rewrite (proj2 (existsb_false_elem _ _)); [ reflexivity |].
    exact Hfree. }
  assert (H2 : connected st2 = connected st1).
  { subst st2. rewrite (cacheResults_one _ _ _ _ _ Hiso). unfold insert_or_ignore.
    rewrite (proj2 (existsb_true_elem _ _)); [ reflexivity |].
    exists (row_of a (split_T_head iso) e). split.
    - rewrite H1. apply elem_of_app. right. left.
    - simpl. rewrite Hid. apply key_matches_spec. auto. }
  assert (Hlook : select_chunk (connected st1) [id a] (split_T_head iso) e = [a]).
  { rewrite H1, select_chunk_app, filter_no_match.
    - change [id a] with [row_id (row_of a (split_T_head iso) e)].
      rewrite select_chunk_one. simpl. rewrite String.eqb_refl, Hee.
      destruct a; reflexivity.
    - intros row Hin Hrow. apply list_elem_of_singleton in Hrow.
      rewrite Hrow. apply Hfree. exact Hin. }
  split; [ exact H2 |].
  rewrite !(getCachedResults_one _ _ _ _ _ Hiso), H2, Hlook. auto.
Qed.






(** C7, as the module has it.  The elevation is part of the key as the
    number it is.  From a state with no row for an identifier, insert a
    result under elevation [e1] and look the identifier up under [e2]: the
    result is found exactly when [e1] and [e2] are equal as numbers. *)
Theorem cache_key_elevation_is_exact (st : State) (a : Cached) (date : Date)
    (e1 e2 : float) (iso : string) :
  toISOString date = Ok iso →
  is_finite e1 = true →
  is_finite e2 = true →
  plain_result a = true →
  (∀ row, row ∈ connected st → row_id row ≠ id a) →
  (getCachedResults toISOString [id a] date e2
     (cacheResults toISOString [a] date e1 st).2).1
  = Ok (if e1 =? e2 then [a] else []).
Proof.
  intros Hiso _ _ _ Hfresh.
  rewrite (getCachedResults_one _ _ _ _ _ Hiso), (cacheResults_one _ _ _ _ _ Hiso).
  unfold insert_or_ignore.
  rewrite (proj2 (existsb_false_elem _ _)).
  - rewrite select_chunk_app, filter_no_match.
    + change [id a] with [row_id (row_of a (split_T_head iso) e1)].
      rewrite select_chunk_one. simpl. rewrite String.eqb_refl. simpl.
      destruct (e1 =? e2); [ destruct a |]; reflexivity.
    + intros row Hin Hrow. apply list_elem_of_singleton in Hrow.
      exfalso. exact (Hfresh row Hin Hrow).
  - intros row Hin. simpl. unfold key_matches.
    destruct (String.eqb (row_id row) (id a)) eqn:Heq; [| reflexivity ].
    apply String.eqb_eq in Heq. exfalso. exact (Hfresh row Hin Heq).
Qed.

End WithDate.
End DbFacts.

Module DbExamples.
Import Db Sample.

Local Open Scope float_scope.

Lemma cacheResults_first_writer_wins_witness :
  let st1 := (cacheResults iso_text [result_A] noon 100 None).2 in
  let st2 := (cacheResults iso_text [result_B] noon 100 st1).2 in
  connected st2 = connected st1
  ∧ (getCachedResults iso_text [id result_A] noon 100 st1).1 = Ok [result_A]
  ∧ (getCachedResults iso_text [id result_A] noon 100 st2).1 = Ok [result_A].
Proof.
  apply (DbFacts.cacheResults_first_writer_wins iso_text None result_A result_B
           noon 100 noon);
    try reflexivity.
  intros row Hin. inversion Hin.
Defined.


(** The lookup of the witness, evaluated: the first result is the one
    returned, and the identifier never inserted has no entry. *)
Example lookup_after_two_inserts :
  (getCachedResults iso_text ["8175bffffffffff"; "81033ffffffffff"] noon 100
     (replay iso_text two_inserts None)).1 = Ok [result_A].
Proof. vm_compute. reflexivity. Qed.

(** A lookup of 551 identifiers, the cached one in the second chunk. *)
Example lookup_across_chunks :
  (getCachedResults iso_text (many_ids ++ ["8175bffffffffff"]) noon 100
     (replay iso_text two_inserts None)).1 = Ok [result_A]
  ∧ chunk_starts (length (many_ids ++ ["8175bffffffffff"])) = [0; 500]%nat.
Proof. split; vm_compute; reflexivity. Qed.

(** C7 as stated fails for the elevations 100.2 and 100.4, which both round
    to 100: a result inserted under the first is not found under the
    second, and an insert under the second adds a second row. *)
Lemma same_rounding_different_entries :
  rounds_to 100.2 100 = true
  ∧ rounds_to 100.4 100 = true
  ∧ (getCachedResults iso_text [id result_A] noon 100.2
       (cacheResults iso_text [result_A] noon 100.2 None).2).1 = Ok [result_A]
  ∧ (getCachedResults iso_text [id result_A] noon 100.4
       (cacheResults iso_text [result_A] noon 100.2 None).2).1 = Ok []
  ∧ length (connected
              (cacheResults iso_text [result_B] noon 100.4
                 (cacheResults iso_text [result_A] noon 100.2 None).2).2) = 2%nat.
Proof. repeat split; vm_compute; reflexivity. Qed.

Lemma cache_key_elevation_is_exact_witness :
  (getCachedResults iso_text [id result_A] noon 100.4
     (cacheResults iso_text [result_A] noon 100.2 None).2).1
  = Ok (if 100.2 =? 100.4 then [result_A] else []).
Proof.
  apply (DbFacts.cache_key_elevation_is_exact iso_text None result_A noon
           100.2 100.4 noon);
    try reflexivity.
  intros row Hin. inversion Hin.
Defined.

End DbExamples.

(** ** The shape of results, the ladder and the worker, continued *)

Module ShapeFacts.
Import Astronomy Calculate Shape.

(** Read a field off a literal chain of assignments. *)
Ltac read_code :=
  repeat first [ rewrite lookup_insert_eq | rewrite lookup_insert_ne by discriminate ].

Section WithLibrary.
Context (A : Lib) (M : JsMath).
Local Open Scope float_scope.

Lemma calculate_searched latitude longitude altitude baseTime options d :
  calculate A M latitude longitude altitude baseTime options = Ok d →
  ∃ observer s m,
    rise_set_search A latitude longitude altitude baseTime options = Ok (observer, s, m).
Proof.
  intros Hd.
  unfold calculate, mbind, result_bind in Hd.
  unfold rise_set_search, mbind, result_bind.
  cbv zeta in *.
  do 5 CalculateFacts.next_call Hd.
  eauto.
Qed.

(** The code of a returned object. *)
Lemma calculate_code latitude longitude altitude baseTime options d :
  calculate A M latitude longitude altitude baseTime options = Ok d →
  ∃ letter, In letter ["A"; "B"; "C"; "D"; "E"; "F"; "H"]
            ∧ d !! "qcode" = Some (VStr letter).
Proof.
  intros Hd.
  destruct (calculate_searched _ _ _ _ _ _ Hd) as (observer & s & m & Hs).
  destruct s as [s |]; [ destruct m as [m |] |].
  2, 3: pose proof (CalculateFacts.calculate_no_event A M _ _ _ _ _ _ _ _ Hs) as Hn;
    rewrite Hn in Hd by auto; injection Hd as <-; exists "H";
    split; [ simpl; auto 8 | apply lookup_singleton_eq ].
  destruct (CalculateFacts.calculate_found A M _ _ _ _ _ _ _ _ _ Hs Hd)
    as (_ & _ & _ & ARCV & WTopo & _ & _ & _ & _ & _ & _ & _ & Hq).
  eexists. split; [| exact Hq ].
  pose proof (CalculateFacts.geometric_result_range (yallop_of options)
                (geometric_value M (yallop_of options) ARCV WTopo)) as Hr.
  simpl in Hr. simpl.
  repeat match goal with
         | H : _ ∨ _ |- _ => destruct H as [H | H]
         end; auto 8; contradiction.
Qed.

(** What [ARCL] is in either mode: the elongation under the Yallop
    criterion, [undefined] otherwise. *)
Lemma arcl_shape (yallop : bool) (bestTime : Flex (Date A) (AstroTime A))
    (sun moon : Vector A) (ARCL : option float) :
  (if yallop then Some <$> Elongation_elongation A Moon bestTime
   else _ ← AngleBetween A sun moon; Ok None) = Ok ARCL →
  if yallop then ∃ x, ARCL = Some x else ARCL = None.
Proof.
  destruct yallop; unfold fmap, result_fmap, mbind, result_bind.
  - destruct (Elongation_elongation A Moon bestTime); [| discriminate ].
    intros [= <-]. eauto.
  - destruct (AngleBetween A sun moon); [| discriminate ].
    intros [= <-]. reflexivity.
Qed.

(** X1.  An object returned by [calculate] has one of two shapes, and
    nothing in between.  Either it is [{ qcode: 'H' }] alone, or it has a
    letter from A to F as [qcode] together with every diagnostic field: a
    number in each of eighteen numeric fields, a date in each of the four
    time fields, a date or a time object as [bestTime], and as [arcl] a
    number under the Yallop criterion and [undefined] otherwise, since the
    source reads [.angle] off the number [AngleBetween] returns; and it has
    no other field.  No returned object carries G, I or J. *)
Theorem calculate_result_shape latitude longitude altitude baseTime options d :
  calculate A M latitude longitude altitude baseTime options = Ok d →
  (d = {[ "qcode" := VStr "H" ]})
  ∨ ((∃ letter, In letter ["A"; "B"; "C"; "D"; "E"; "F"]
                ∧ d !! "qcode" = Some (VStr letter))
     ∧ Forall (λ k, ∃ x, d !! k = Some (VNum x)) number_fields
     ∧ (if yallop_of options then ∃ x, d !! "arcl" = Some (VNum x)
        else d !! "arcl" = Some VUndefined)
     ∧ Forall (λ k, ∃ t, d !! k = Some (VDate t)) date_fields
     ∧ ((∃ t, d !! "bestTime" = Some (VDate t)) ∨ (∃ t, d !! "bestTime" = Some (VTime t)))
     ∧ ∀ k, k ∉ all_fields → d !! k = None).
Proof.
  intros Hd.
  destruct (calculate_searched _ _ _ _ _ _ Hd) as (observer & s & m & Hs).
  destruct s as [s |]; [ destruct m as [m |] |].
  2, 3: left; pose proof (CalculateFacts.calculate_no_event A M _ _ _ _ _ _ _ _ Hs) as Hn;
    rewrite Hn in Hd by auto; injection Hd as <-; reflexivity.
  right.
  unfold rise_set_search, mbind, result_bind in Hs.
  unfold calculate, mbind, result_bind in Hd.
  cbv zeta in *.
  repeat CalculateFacts.next_call Hs.
  injection Hs as -> -> ->.
  repeat CalculateFacts.next_call Hd.
  injection Hd as <-.
  split; [| split; [| split; [| split; [| split]]]].
  - eexists. split; [ apply CalculateFacts.geometric_result_range |].
    read_code. reflexivity.
  - (unfold number_fields; repeat (apply Forall_cons; split; [ eexists; read_code;
      repeat match goal with
             | |- context [if ?c then _ else _] => destruct c
             end; read_code; reflexivity |]); apply Forall_nil; exact I).
  - match goal with
    | H : _ = Ok ?o |- context [number_or_undefined _ ?o] =>
      apply arcl_shape in H; revert H
    end.
    unfold yallop_of.
    destruct (default true (opt_yallop (default no_options options))).
    + intros [elongation ->]. exists elongation. read_code. reflexivity.
    + intros ->. read_code. reflexivity.
  - (unfold date_fields; repeat (apply Forall_cons; split; [ eexists; read_code;
      repeat match goal with
             | |- context [if ?c then _ else _] => destruct c
             end; read_code; reflexivity |]); apply Forall_nil; exact I).
  - read_code.
    match goal with |- context [flex_value _ ?b] => destruct b end; simpl; eauto.
  - intros k Hk.
    assert (Hall : Forall (λ k', k' ≠ k) all_fields).
    { apply Forall_forall. intros k' Hk' ->. exact (Hk Hk'). }
    unfold all_fields, number_fields, date_fields in Hall. simpl in Hall.
    repeat (apply Forall_cons in Hall as [? Hall]).
    (repeat (rewrite lookup_insert_ne by assumption);
    repeat match goal with
           | |- context [if ?c then _ else _] => destruct c
           end;
    repeat (rewrite lookup_insert_ne by assumption);
    apply lookup_empty).
Qed.

End WithLibrary.
End ShapeFacts.

Module FloatOrder.
Import FloatKey.

Local Open Scope Z_scope.

Lemma SFcompare_key f g :
  SFcompare f g
  = match sf_key f, sf_key g with
    | Some a, Some b => Some (key_compare a b)
    | _, _ => None
    end.
Proof.
  destruct f as [sf | sf | | sf mf ef], g as [sg | sg | | sg mg eg];
    try destruct sf; try destruct sg; try reflexivity.
  simpl. unfold key_compare. simpl.
  rewrite Pos.compare_cont_spec, Z.compare_opp, (Z.compare_antisym ef eg). simpl.
  destruct (ef ?= eg); simpl; try reflexivity;
    destruct (mf ?= mg)%positive; reflexivity.
Qed.

Lemma key_compare_Lt a b :
  key_compare a b = Lt
  ↔ a.1.1 < b.1.1
    ∨ (a.1.1 = b.1.1 ∧ (a.1.2 < b.1.2 ∨ (a.1.2 = b.1.2 ∧ a.2 < b.2))).
Proof.
  unfold key_compare.
  destruct (Z.compare_spec a.1.1 b.1.1); [ destruct (Z.compare_spec a.1.2 b.1.2);
    [ destruct (Z.compare_spec a.2 b.2) | | ] | | ];
    split; try discriminate; try reflexivity; lia.
Qed.

Lemma key_compare_Eq a b : key_compare a b = Eq ↔ a = b.
Proof.
  unfold key_compare. destruct a as [[a1 a2] a3], b as [[b1 b2] b3]. simpl.
  destruct (Z.compare_spec a1 b1); [ destruct (Z.compare_spec a2 b2);
    [ destruct (Z.compare_spec a3 b3) | | ] | | ];
    split; try discriminate; try reflexivity; try (intros [= ]; lia);
    intros; subst; reflexivity.
Qed.

Lemma key_compare_not_Gt a b : key_compare a b ≠ Gt ↔ key_compare a b = Lt ∨ a = b.
Proof.
  rewrite <- key_compare_Eq. destruct (key_compare a b); split; try tauto; try congruence.
  intros [|]; discriminate.
Qed.

Local Open Scope float_scope.

Lemma ltb_key (x y : float) :
  (x <? y) = true
  ↔ ∃ a b, sf_key (Prim2SF x) = Some a ∧ sf_key (Prim2SF y) = Some b
           ∧ key_compare a b = Lt.
Proof.
  rewrite ltb_spec. unfold SFltb. rewrite SFcompare_key.
  destruct (sf_key (Prim2SF x)) as [a |], (sf_key (Prim2SF y)) as [b |]; split;
    try discriminate; try (intros (? & ? & ? & ? & ?); discriminate).
  - destruct (key_compare a b) eqn:Hc; try discriminate. eauto.
  - intros (a' & b' & [= <-] & [= <-] & ->). reflexivity.
Qed.

Lemma leb_key (x y : float) :
  (x <=? y) = true
  ↔ ∃ a b, sf_key (Prim2SF x) = Some a ∧ sf_key (Prim2SF y) = Some b
           ∧ key_compare a b ≠ Gt.
Proof.
  rewrite leb_spec. unfold SFleb. rewrite SFcompare_key.
  destruct (sf_key (Prim2SF x)) as [a |], (sf_key (Prim2SF y)) as [b |]; split;
    try discriminate; try (intros (? & ? & ? & ? & ?); discriminate).
  - destruct (key_compare a b) eqn:Hc; try discriminate;
      intros _; exists a, b; rewrite Hc; auto.
  - intros (a' & b' & [= <-] & [= <-] & Hc). destruct (key_compare a b); congruence.
Qed.

(** What lies below [x] lies below everything [x] does not exceed. *)
Lemma ltb_leb_trans (c x y : float) :
  (c <? x) = true → (x <=? y) = true → (c <? y) = true.
Proof.
  rewrite !ltb_key, leb_key.
  intros (a & b & Ha & Hb & Hab) (b' & d & Hb' & Hd & Hbd).
  rewrite Hb in Hb'. injection Hb' as <-.
  exists a, d. split; [ exact Ha |]. split; [ exact Hd |].
  apply key_compare_not_Gt in Hbd as [Hlt | <-]; [| exact Hab ].
  apply key_compare_Lt in Hab, Hlt. apply key_compare_Lt. lia.
Qed.

Lemma ltb_trans (x y z : float) :
  (x <? y) = true → (y <? z) = true → (x <? z) = true.
Proof.
  rewrite !ltb_key.
  intros (a & b & Ha & Hb & Hab) (b' & d & Hb' & Hd & Hbd).
  rewrite Hb in Hb'. injection Hb' as <-.
  exists a, d. split; [ exact Ha |]. split; [ exact Hd |].
  apply key_compare_Lt in Hab, Hbd. apply key_compare_Lt. lia.
Qed.

Lemma leb_trans (x y z : float) :
  (x <=? y) = true → (y <=? z) = true → (x <=? z) = true.
Proof.
  rewrite !leb_key.
  intros (a & b & Ha & Hb & Hab) (b' & d & Hb' & Hd & Hbd).
  rewrite Hb in Hb'. injection Hb' as <-.
  exists a, d. split; [ exact Ha |]. split; [ exact Hd |].
  apply key_compare_not_Gt. apply key_compare_not_Gt in Hab, Hbd.
  destruct Hab as [Hab | <-]; [| exact Hbd ].
  destruct Hbd as [Hbd | <-]; [| left; exact Hab ].
  left. apply key_compare_Lt in Hab, Hbd. apply key_compare_Lt. lia.
Qed.

End FloatOrder.

Module LadderFacts.
Import Astronomy Calculate Shape.

Local Open Scope float_scope.

Section WithLibrary.
Context (A : Lib) (M : JsMath).

(** X2.  The argument handed to [Math.acos] in the alternate branch is
    never below -1 nor above 1: it is -1 or 1 when the cosine ratio lies
    beyond, and the ratio itself otherwise, NaN included. *)
Theorem arcv_from_arcl_clamped (ARCL DAZ : float) :
  let ratio := Math_cos M (ARCL * DEG2RAD A) / Math_cos M (DAZ * DEG2RAD A) in
  ∃ c,
    arcv_from_arcl A M ARCL DAZ = Math_acos M c * RAD2DEG A
    ∧ (c <? -1) = false
    ∧ (1 <? c) = false
    ∧ ((ratio <? -1) = true → c = -1)
    ∧ ((1 <? ratio) = true → c = 1)
    ∧ ((ratio <? -1) = false → (1 <? ratio) = false → c = ratio).
Proof.
  intros ratio. unfold arcv_from_arcl. fold ratio.
  destruct (ratio <? -1) eqn:Hlow; [| destruct (1 <? ratio) eqn:Hhigh ].
  - exists (-1). repeat split; try reflexivity; try discriminate.
    intros Hhigh. exfalso.
    pose proof (FloatOrder.ltb_trans _ _ _ Hhigh Hlow) as Habs.
    vm_compute in Habs. discriminate Habs.
  - exists 1. repeat split; try reflexivity; discriminate.
  - exists ratio. repeat split; try assumption; try reflexivity; discriminate.
Qed.

End WithLibrary.

(** X3.  A larger value never gets a worse letter, under either
    criterion: on the scale from A down to F, the letter is monotone in the
    value. *)
Theorem geometric_result_monotone (yallop : bool) (v1 v2 : float) :
  (v1 <=? v2) = true →
  (letter_rank (geometric_result yallop v2) ≤ letter_rank (geometric_result yallop v1))%nat.
Proof.
  intros Hle. unfold geometric_result.
  destruct yallop.
  - repeat match goal with
           | |- context [if ?c <? v1 then _ else _] =>
             let H := fresh "H" in
             destruct (c <? v1) eqn:H;
             [ rewrite (FloatOrder.ltb_leb_trans c v1 v2 H Hle) |]
           end;
      repeat match goal with
             | |- context [if ?c then _ else _] => destruct c
             end; vm_compute; lia.
  - repeat match goal with
           | |- context [if ?c <=? v1 then _ else _] =>
             let H := fresh "H" in
             destruct (c <=? v1) eqn:H;
             [ rewrite (FloatOrder.leb_trans c v1 v2 H Hle) |]
           end;
      repeat match goal with
             | |- context [if ?c then _ else _] => destruct c
             end; vm_compute; lia.
Qed.

End LadderFacts.

Module WorkerMore.
Import Astronomy Worker.

Section WithLibrary.
Context (A : Lib) (M : JsMath).

(** X4.  The two copies of [getCellColor] agree on every argument, up to
    what they return when no branch matches: [null] in calculate.js, a
    transparent colour in the worker. *)
Theorem getCellColor_copies_agree (q : option (Calculate.value A)) :
  getCellColor A q = default "rgba(0,0,0,0)" (Calculate.getCellColor A q).
Proof.
  destruct q as [[x | s | d | t |] |]; try reflexivity.
  destruct s as [| [[] [] [] [] [] [] [] []] [| c s]]; reflexivity.
Qed.

(** The entries of a posted array are the evaluations of the points. *)
Lemma onmessage_entries (msg : Message A) (results : list (CellResult A)) :
  onmessage A M msg = Ok results →
  Forall2 (λ p r, evaluate A M msg p = Ok r) (points msg) results.
Proof. rewrite WorkerFacts.onmessage_mapM. apply WorkerFacts.mapM_Ok. Qed.

(** X5.  A posted array answers the points one for one: same length, same
    identifiers, same order. *)
Theorem onmessage_keeps_ids (msg : Message A) (results : list (CellResult A)) :
  onmessage A M msg = Ok results →
  map id results = map pt_id (points msg).
Proof.
  intros Hok. apply onmessage_entries in Hok.
  induction Hok as [| p r ps rs Hp _ IH]; [ reflexivity |].
  simpl. rewrite IH.
  apply WorkerFacts.evaluate_Ok in Hp as (d & _ & -> & _). reflexivity.
Qed.

(** X6.  Every entry of a posted array carries a code from A to F or H and
    the colour [getCellColor] gives that code; the colours of G and I are
    never posted. *)
Theorem onmessage_codes_and_colours (msg : Message A) (results : list (CellResult A)) :
  onmessage A M msg = Ok results →
  Forall (λ r, ∃ letter,
            In letter ["A"; "B"; "C"; "D"; "E"; "F"; "H"]
            ∧ qcode r = Some (Calculate.VStr letter)
            ∧ Calculate.getCellColor A (qcode r) = Some (color r)
            ∧ color r ≠ "#a855f7" ∧ color r ≠ "#ef4444")
    results.
Proof.
  intros Hok. apply onmessage_entries in Hok.
  induction Hok as [| p r ps rs Hp _ IH]; constructor; [| exact IH ].
  apply WorkerFacts.evaluate_Ok in Hp as (d & Hd & _ & Hq & Hc).
  rewrite Hq, Hc. clear Hq Hc.
  destruct (ShapeFacts.calculate_code A M _ _ _ _ _ _ Hd) as (letter & Hin & Hl).
  exists letter. rewrite Hl. split; [ exact Hin |]. simpl in Hin.
  repeat match goal with
         | H : _ ∨ _ |- _ => destruct H
         | H : False |- _ => destruct H
         end; subst; simpl; repeat split; discriminate.
Qed.

End WithLibrary.
End WorkerMore.

(** ** The cache, continued *)

Module DbMore.
Import Db DbInvariant.

Local Open Scope float_scope.

Lemma key_matches_sym (r r' : Row) :
  key_matches r (row_id r') (row_date r') (row_elevation r') = true →
  key_matches r' (row_id r) (row_date r) (row_elevation r) = true.
Proof.
  rewrite !DbFacts.key_matches_spec. intros (-> & -> & He).
  repeat split. apply FloatFacts.eqb_sym. exact He.
Qed.

(** *** INSERT OR IGNORE only ever appends *)

Lemma insert_or_ignore_grows (table : list Row) (r : Row) :
  insert_or_ignore table r = table ∨ insert_or_ignore table r = table ++ [r].
Proof. unfold insert_or_ignore. destruct (existsb _ table); auto. Qed.

Lemma foldl_insert_grows (rows table : list Row) :
  ∃ extra, foldl insert_or_ignore table rows = table ++ extra
           ∧ ∀ r, r ∈ extra → r ∈ rows.
Proof.
  revert table. induction rows as [| r rows IH]; intros table; simpl.
  - exists []. split; [ symmetry; apply app_nil_r | intros r Hr; inversion Hr ].
  - destruct (IH (insert_or_ignore table r)) as (extra & -> & Hsub).
    destruct (insert_or_ignore_grows table r) as [-> | ->].
    + exists extra. split; [ reflexivity |]. intros x Hx. right. auto.
    + exists (r :: extra). split; [ rewrite <- app_assoc; reflexivity |].
      intros x Hx. apply elem_of_cons in Hx as [-> | Hx]; [ left | right; auto ].
Qed.

Lemma insert_or_ignore_unique (table : list Row) (r : Row) :
  keys_unique table → keys_unique (insert_or_ignore table r).
Proof.
  intros Huniq. unfold insert_or_ignore.
  destruct (existsb _ table) eqn:Hex; [ exact Huniq |].
  pose proof (proj1 (DbFacts.existsb_false_elem _ _) Hex) as Hfree.
  intros i j ri rj Hi Hj Hk.
  destruct (decide (i < length table)) as [Hil | Hil],
           (decide (j < length table)) as [Hjl | Hjl].
  - rewrite lookup_app_l in Hi, Hj by assumption. eauto.
  - rewrite lookup_app_l in Hi by assumption.
    rewrite lookup_app_r in Hj by lia.
    apply list_lookup_singleton_Some in Hj as [_ <-].
    rewrite (Hfree ri) in Hk; [ discriminate |].
    apply list_elem_of_lookup. eauto.
  - rewrite lookup_app_l in Hj by assumption.
    rewrite lookup_app_r in Hi by lia.
    apply list_lookup_singleton_Some in Hi as [_ <-].
    apply key_matches_sym in Hk.
    rewrite (Hfree rj) in Hk; [ discriminate |].
    apply list_elem_of_lookup. eauto.
  - rewrite lookup_app_r in Hi, Hj by lia.
    apply list_lookup_singleton_Some in Hi as [Hi _].
    apply list_lookup_singleton_Some in Hj as [Hj _]. lia.
Qed.

Lemma foldl_insert_unique (rows table : list Row) :
  keys_unique table → keys_unique (foldl insert_or_ignore table rows).
Proof.
  revert table. induction rows as [| r rows IH]; intros table Huniq; simpl.
  - exact Huniq.
  - apply IH, insert_or_ignore_unique, Huniq.
Qed.

Section WithDate.
Context {Date : Type} (toISOString : Date → result string).

(** X7.  The primary key holds in every state the module can reach: after
    any sequence of inserts, no two rows of the table have the same
    identifier, day and elevation. *)
Theorem reachable_keys_unique (history : list (Insert (Date:=Date))) :
  Forall plain_insert history →
  keys_unique (connected (replay toISOString history None)).
Proof.
  intros _. rewrite DbFacts.replay_connected. apply foldl_insert_unique.
  intros i j ri rj Hi. inversion Hi.
Qed.

(** *** Errors and empty inputs *)

(** X8.  An invalid date makes both operations throw what [toISOString]
    throws, after the connection is set up, before any statement is sent and
    with the table left as it was. *)
Theorem invalid_date_throws (ids : list string) (results : list Cached) (date : Date)
    (e : float) (st : State) (err : exn) :
  toISOString date = Throw err →
  getCachedResults toISOString ids date e st = (Throw err, initDB st)
  ∧ cacheResults toISOString results date e st = (Throw err, initDB st)
  ∧ connected (initDB st) = connected st.
Proof.
  intros Herr. unfold getCachedResults, cacheResults, mbind, result_bind.
  rewrite Herr. repeat split. apply DbFacts.connected_initDB.
Qed.

Lemma foldl_append_nil {X Y : Type} (f : X → list Y) (l : list X) :
  (∀ i, i ∈ l → f i = []) → foldl (λ acc i, acc ++ f i) [] l = [].
Proof.
  induction l as [| i l IH]; intros Hnil; simpl; [ reflexivity |].
  rewrite (Hnil i) by left. apply IH. intros j Hj. apply Hnil. right. exact Hj.
Qed.

(** X9.  On a date with an ISO form: a lookup of no identifiers returns
    the empty array; an insert of no results returns normally and leaves the
    table as it was, the connection being set up if it was not; a lookup on
    an empty table returns the empty array. *)
Theorem empty_requests (ids : list string) (date : Date) (e : float) (st : State)
    (iso : string) :
  toISOString date = Ok iso →
  (getCachedResults toISOString [] date e st).1 = Ok []
  ∧ cacheResults toISOString [] date e st = (Ok (), initDB st)
  ∧ connected (initDB st) = connected st
  ∧ (connected st = [] → is_finite e = true → Forall (λ i, sql_plain i = true) ids →
     (getCachedResults toISOString ids date e st).1 = Ok []).
Proof.
  intros Hiso. unfold getCachedResults, cacheResults, mbind, result_bind.
  rewrite Hiso. simpl. split; [ reflexivity |]. split; [ reflexivity |].
  split; [ apply DbFacts.connected_initDB |].
  rewrite DbFacts.connected_initDB. intros -> _ _.
  rewrite foldl_append_nil; reflexivity.
Qed.

(** *** Lookups in terms of the history *)

Lemma lookup_history (history : list (Insert (Date:=Date))) (ids : list string)
    (date : Date) (e : float) (iso : string) :
  toISOString date = Ok iso →
  ∃ found,
    (getCachedResults toISOString ids date e (replay toISOString history None)).1
      = Ok found
    ∧ ∀ x, x ∈ found
           ↔ id x ∈ ids
             ∧ first_inserted toISOString history (id x) (split_T_head iso) e = Some x.
Proof.
  intros Hiso.
  destruct (DbFacts.getCachedResults_spec toISOString ids date e
              (replay toISOString history None) iso Hiso)
    as (found & Hfound & Hspec).
  exists found. split; [ exact Hfound |].
  assert (Hfirst : ∀ i row,
             (row ∈ connected (replay toISOString history None)
              ∧ key_matches row i (split_T_head iso) e = true)
             ↔ List.find (λ row, key_matches row i (split_T_head iso) e)
                 (concat (map (submitted toISOString) history)) = Some row).
  { intros i. rewrite DbFacts.replay_connected.
    apply (DbFacts.foldl_insert_holds _ [] i (split_T_head iso) e None).
    intros row. split; [ intros [Hin _]; inversion Hin | discriminate ]. }
  intros x. rewrite Hspec. unfold first_inserted. split.
  - intros (Hid & row & Hin & Hkey & ->). split; [ exact Hid |].
    rewrite (proj1 (Hfirst _ row) (conj Hin Hkey)). reflexivity.
  - intros (Hid & Hx). split; [ exact Hid |].
    destruct (List.find _ _) as [row |] eqn:Hfind; [| discriminate ].
    injection Hx as <-. apply Hfirst in Hfind as [Hin Hkey].
    exists row. auto.
Qed.

Lemma find_app_Some {T : Type} (p : T → bool) (l k : list T) (x : T) :
  List.find p l = Some x → List.find p (l ++ k) = Some x.
Proof.
  induction l as [| y l IH]; simpl; [ discriminate |].
  destruct (p y); auto.
Qed.

Lemma first_inserted_app (history more : list (Insert (Date:=Date))) (i d : string)
    (e : float) (x : Cached) :
  first_inserted toISOString history i d e = Some x →
  first_inserted toISOString (history ++ more) i d e = Some x.
Proof.
  unfold first_inserted. rewrite map_app, concat_app.
  destruct (List.find _ (concat (map _ history))) as [row |] eqn:Hfind; [| discriminate ].
  rewrite (find_app_Some _ _ _ _ Hfind). auto.
Qed.

(** X10.  Nothing is ever evicted or overwritten.  Whatever a lookup
    returns it returns again after any further inserts, and an identifier
    that had an entry keeps that very entry. *)
Theorem cached_results_persist (history more : list (Insert (Date:=Date)))
    (ids : list string) (date : Date) (e : float) (iso : string)
    (found found' : list Cached) :
  toISOString date = Ok iso →
  is_finite e = true →
  Forall (λ i, sql_plain i = true) ids →
  Forall plain_insert (history ++ more) →
  (getCachedResults toISOString ids date e (replay toISOString history None)).1
    = Ok found →
  (getCachedResults toISOString ids date e
     (replay toISOString (history ++ more) None)).1 = Ok found' →
  (∀ x, x ∈ found → x ∈ found')
  ∧ (∀ x y, x ∈ found → y ∈ found' → id y = id x → y = x).
Proof.
  intros Hiso _ _ _ Hfound Hfound'.
  destruct (lookup_history history ids date e iso Hiso) as (f & Hf & Hchar).
  destruct (lookup_history (history ++ more) ids date e iso Hiso) as (f' & Hf' & Hchar').
  rewrite Hfound in Hf. injection Hf as <-.
  rewrite Hfound' in Hf'. injection Hf' as <-.
  split.
  - intros x Hx. apply Hchar in Hx as [Hid Hx]. apply Hchar'.
    split; [ exact Hid | apply first_inserted_app; exact Hx ].
  - intros x y Hx Hy Hid.
    apply Hchar in Hx as [_ Hx]. apply Hchar' in Hy as [_ Hy].
    apply (first_inserted_app _ more) in Hx. rewrite Hid in Hy. congruence.
Qed.

(** *** Batches *)

Lemma submitted_app (rs1 rs2 : list Cached) (date : Date) (e : float) :
  submitted toISOString {| ins_results := rs1 ++ rs2; ins_date := date; ins_elevation := e |}
  = submitted toISOString {| ins_results := rs1; ins_date := date; ins_elevation := e |}
    ++ submitted toISOString {| ins_results := rs2; ins_date := date; ins_elevation := e |}.
Proof.
  unfold submitted. simpl. destruct (toISOString date); [ apply map_app | reflexivity ].
Qed.

(** X11.  One insert of a batch leaves the table as the inserts of its
    parts do, one after the other. *)
Theorem cacheResults_batch_splits (rs1 rs2 : list Cached) (date : Date) (e : float)
    (st : State) :
  is_finite e = true →
  Forall (λ r, plain_result r = true) (rs1 ++ rs2) →
  connected (cacheResults toISOString (rs1 ++ rs2) date e st).2
  = connected (cacheResults toISOString rs2 date e
                 (cacheResults toISOString rs1 date e st).2).2.
Proof.
  intros _ _. rewrite !DbFacts.cacheResults_state. simpl.
  rewrite submitted_app, foldl_app. reflexivity.
Qed.

Lemma foldl_insert_present (rows table : list Row) :
  (∀ r, r ∈ rows →
        existsb (λ r', key_matches r' (row_id r) (row_date r) (row_elevation r)) table
        = true) →
  foldl insert_or_ignore table rows = table.
Proof.
  induction rows as [| r rows IH]; intros Hall; simpl; [ reflexivity |].
  unfold insert_or_ignore at 2. rewrite (Hall r) by left.
  apply IH. intros x Hx. apply Hall. right. exact Hx.
Qed.

Lemma existsb_app_l {T : Type} (p : T → bool) (l k : list T) :
  existsb p l = true → existsb p (l ++ k) = true.
Proof. intros H. rewrite existsb_app, H. reflexivity. Qed.

Lemma foldl_insert_covers (rows table : list Row) (r : Row) :
  r ∈ rows →
  key_matches r (row_id r) (row_date r) (row_elevation r) = true →
  existsb (λ r', key_matches r' (row_id r) (row_date r) (row_elevation r))
    (foldl insert_or_ignore table rows) = true.
Proof.
  revert table. induction rows as [| x rows IH]; intros table Hin Hself.
  - inversion Hin.
  - simpl. apply elem_of_cons in Hin as [<- | Hin]; [| apply IH; assumption ].
    destruct (foldl_insert_grows rows (insert_or_ignore table r)) as (extra & -> & _).
    apply existsb_app_l. unfold insert_or_ignore.
    destruct (existsb _ table) eqn:Hex; [ exact Hex |].
    rewrite existsb_app. simpl. rewrite Hself. apply orb_true_r.
Qed.

(** X12.  Inserting a batch a second time changes nothing, in whatever
    state the first insert was made. *)
Theorem cacheResults_idempotent (results : list Cached) (date : Date) (e : float)
    (st : State) :
  is_finite e = true →
  Forall (λ r, plain_result r = true) results →
  connected (cacheResults toISOString results date e
               (cacheResults toISOString results date e st).2).2
  = connected (cacheResults toISOString results date e st).2.
Proof.
  intros Hfin _. rewrite !DbFacts.cacheResults_state. simpl.
  apply foldl_insert_present. intros r Hr.
  apply foldl_insert_covers; [ exact Hr |].
  unfold submitted in Hr. simpl in Hr.
  destruct (toISOString date) as [iso |]; [| inversion Hr ].
  apply list_elem_of_fmap in Hr as (res & -> & _).
  apply DbFacts.key_matches_spec. simpl.
  repeat split. apply FloatFacts.eqb_refl_finite. exact Hfin.
Qed.

(** *** Other keys *)

Lemma foldl_ext_elem {X Y : Type} (f g : Y → X → Y) (l : list X) (a : Y) :
  (∀ b x, x ∈ l → f b x = g b x) → foldl f a l = foldl g a l.
Proof.
  revert a. induction l as [| x l IH]; intros a Hext; simpl; [ reflexivity |].
  rewrite (Hext a x) by left. apply IH. intros b y Hy. apply Hext. right. exact Hy.
Qed.

(** X13.  An insert under another day, or under an elevation that is not
    the same number, leaves every lookup as it was. *)
Theorem other_key_untouched (results : list Cached) (ids : list string)
    (date date' : Date) (e e' : float) (st : State) (iso iso' : string) :
  toISOString date = Ok iso →
  toISOString date' = Ok iso' →
  is_finite e = true →
  is_finite e' = true →
  Forall (λ i, sql_plain i = true) ids →
  Forall (λ r, plain_result r = true) results →
  split_T_head iso' ≠ split_T_head iso ∨ (e' =? e) = false →
  (getCachedResults toISOString ids date e
     (cacheResults toISOString results date' e' st).2).1
  = (getCachedResults toISOString ids date e st).1.
Proof.
  intros Hiso Hiso' _ _ _ _ Hother.
  unfold getCachedResults, mbind, result_bind. simpl. rewrite Hiso.
  rewrite !DbFacts.connected_initDB, DbFacts.cacheResults_state.
  change (connected (Some ?t)) with t.
  destruct (foldl_insert_grows
              (submitted toISOString
                 {| ins_results := results; ins_date := date'; ins_elevation := e' |})
              (connected st)) as (extra & -> & Hsub).
  f_equal. apply foldl_ext_elem. intros acc i _. f_equal.
  rewrite DbFacts.select_chunk_app.
  rewrite (DbFacts.filter_no_match extra); [ apply app_nil_r |].
  intros row Hrow _. apply Hsub in Hrow.
  unfold submitted in Hrow. simpl in Hrow. rewrite Hiso' in Hrow.
  apply list_elem_of_fmap in Hrow as (res & -> & _).
  unfold key_matches. simpl.
  destruct Hother as [Hday | He].
  - apply String.eqb_neq in Hday. rewrite Hday, andb_false_r. reflexivity.
  - rewrite He. apply andb_false_r.
Qed.

End WithDate.

End DbMore.

(** ** The grid on the map *)

Module GridFacts.
Import Astronomy Grid.

Local Open Scope float_scope.

(** X14.  The grid gets no coarser as the map zooms in: the resolution
    chosen from the zoom level is one of 1 to 5 and is monotone in the
    zoom. *)
Theorem auto_resolution_monotone (zoom1 zoom2 : float) :
  (zoom1 <=? zoom2) = true →
  (auto_resolution zoom1 <=? auto_resolution zoom2) = true
  ∧ In (auto_resolution zoom1) [1; 2; 3; 4; 5]
  ∧ In (auto_resolution zoom2) [1; 2; 3; 4; 5].
Proof.
  intros Hle. unfold auto_resolution. cbv zeta.
  repeat match goal with
         | |- context [if ?c <? zoom1 then _ else _] =>
           let H := fresh "H" in
           destruct (c <? zoom1) eqn:H;
           [ rewrite (FloatOrder.ltb_leb_trans c zoom1 zoom2 H Hle) |]
         end;
    repeat match goal with
           | |- context [if ?c then _ else _] => destruct c
           end;
    (split; [ vm_compute; reflexivity | simpl; auto 10 ]).
Qed.

Lemma missing_spec (hexes : list string) (cached : list Db.Cached) (h : string) :
  h ∈ missing hexes cached ↔ h ∈ hexes ∧ h ∉ map Db.id cached.
Proof.
  unfold missing. rewrite !list_elem_of_In, filter_In, negb_true_iff.
  rewrite <- !list_elem_of_In.
  split; intros [Hin Hno]; (split; [ exact Hin |]).
  - intros Hc. apply DbFacts.existsb_eqb_elem in Hc. congruence.
  - destruct (existsb _ _) eqn:Hex; [| reflexivity ].
    apply DbFacts.existsb_eqb_elem in Hex. contradiction.
Qed.

Section WithLibrary.
Context (A : Lib) (M : JsMath).
Context (toISOString : Date A → result string).
Context (text_of : Calculate.value A → string).
Context (polygonToCells : list (float * float) → float → result (list string)).
Context (cellToLatLng : string → result (float * float)).
Context (cellToBoundary : string → list (float * float)).

Local Abbreviation updateH3Grid :=
  (updateH3Grid A toISOString polygonToCells cellToLatLng cellToBoundary).
Local Abbreviation onWorkerMessage := (onWorkerMessage A toISOString text_of cellToBoundary).
Local Abbreviation points_of := (points_of cellToLatLng).

(** *** The JavaScript Map *)

Lemma map_get_set (k k' : string) (v : Entry A) (m : list (string * Entry A)) :
  map_get A k (map_set A k' v m) = if String.eqb k' k then Some v else map_get A k m.
Proof.
  induction m as [| [k0 v0] m IH]; simpl.
  - reflexivity.
  - destruct (String.eqb k0 k') eqn:H0; simpl.
    + apply String.eqb_eq in H0 as ->. destruct (String.eqb k' k); reflexivity.
    + rewrite IH. destruct (String.eqb k0 k) eqn:H1; [| reflexivity ].
      apply String.eqb_eq in H1 as ->. rewrite String.eqb_sym, H0. reflexivity.
Qed.

Lemma foldl_set_cached (cached : list Db.Cached) (m : list (string * Entry A)) (k : string) :
  (k ∈ map Db.id cached →
   ∃ c, c ∈ cached ∧ Db.id c = k
        ∧ map_get A k (foldl (λ m c, map_set A (Db.id c) (FromCache c) m) m cached)
          = Some (FromCache c))
  ∧ (k ∉ map Db.id cached →
     map_get A k (foldl (λ m c, map_set A (Db.id c) (FromCache c) m) m cached)
     = map_get A k m).
Proof.
  revert m. induction cached as [| c cached IH] using rev_ind; intros m.
  - split; [ intros Hk; inversion Hk | reflexivity ].
  - rewrite foldl_app. simpl. rewrite map_get_set, map_app. simpl.
    destruct (String.eqb (Db.id c) k) eqn:Hc.
    + apply String.eqb_eq in Hc. split.
      * intros _. exists c. split; [ apply elem_of_app; right; left | auto ].
      * intros Hno. exfalso. apply Hno. apply elem_of_app. right. rewrite Hc. left.
    + apply String.eqb_neq in Hc. destruct (IH m) as [IHin IHout]. split.
      * intros Hk. apply elem_of_app in Hk as [Hk | Hk].
        -- destruct (IHin Hk) as (c' & Hc' & Hid & Hget).
           exists c'. split; [ apply elem_of_app; left; exact Hc' | auto ].
        -- apply list_elem_of_singleton in Hk. congruence.
      * intros Hno. apply IHout. intros Hk. apply Hno. apply elem_of_app. left. exact Hk.
Qed.

(** *** The points posted *)

Lemma points_of_ids (hs : list string) (points : list Worker.Point) :
  points_of hs = Ok points → map Worker.pt_id points = hs.
Proof.
  unfold Grid.points_of. rewrite WorkerFacts.mapM_Ok.
  induction 1 as [| h p hs ps Hp _ IH]; [ reflexivity |].
  simpl. rewrite IH. unfold mbind, result_bind in Hp.
  destruct (cellToLatLng h); [| discriminate ]. injection Hp as <-. reflexivity.
Qed.

Lemma points_of_Ok (hs : list string) :
  (∀ h, h ∈ hs → ∃ p, cellToLatLng h = Ok p) →
  ∃ points, points_of hs = Ok points.
Proof.
  intros Hall.
  destruct (points_of hs) as [points | e] eqn:Hp; [ eauto |].
  unfold Grid.points_of in Hp. apply WorkerFacts.mapM_Throw in Hp
    as (before & h & after & -> & _ & Hh).
  destruct (Hall h) as [p Hok]; [ apply elem_of_app; right; left |].
  unfold mbind, result_bind in Hh. rewrite Hok in Hh. discriminate.
Qed.

(** *** Which cells are looked for in the cache *)

Lemma missing_uncached (hexes : list string) (date : Date A) (e : float) (st : Db.State)
    (iso : string) (cached : list Db.Cached) :
  toISOString date = Ok iso →
  (Db.getCachedResults toISOString hexes date e st).1 = Ok cached →
  missing hexes cached
  = List.filter (uncached (Db.connected st) (Db.split_T_head iso) e) hexes.
Proof.
  intros Hiso Hcached.
  destruct (DbFacts.getCachedResults_spec toISOString hexes date e st iso Hiso)
    as (found & Hfound & Hspec).
  rewrite Hcached in Hfound. injection Hfound as <-.
  unfold missing. apply filter_ext_in. intros h Hh. apply list_elem_of_In in Hh.
  unfold uncached. f_equal.
  destruct (existsb (λ row, Db.key_matches row h _ e) _) eqn:Hex.
  - apply DbFacts.existsb_true_elem in Hex as (row & Hrow & Hkey).
    apply DbFacts.existsb_eqb_elem. apply list_elem_of_fmap.
    exists (Db.project row). split.
    + apply DbFacts.key_matches_spec in Hkey as (<- & _). reflexivity.
    + apply Hspec. split.
      * apply DbFacts.key_matches_spec in Hkey as (Hid & _). simpl. rewrite Hid. exact Hh.
      * exists row. split; [ exact Hrow |]. split; [| reflexivity ].
        simpl. pose proof Hkey as Hk.
        apply DbFacts.key_matches_spec in Hk as (<- & _). exact Hkey.
  - destruct (existsb (String.eqb h) _) eqn:Hin; [| reflexivity ].
    apply DbFacts.existsb_eqb_elem in Hin. apply list_elem_of_fmap in Hin as (x & -> & Hx).
    apply Hspec in Hx as (_ & row & Hrow & Hkey & _).
    pose proof (proj1 (DbFacts.existsb_false_elem _ _) Hex row Hrow) as Hno.
    simpl in Hno. congruence.
Qed.

(** What [updateH3Grid] does once the cells of the viewport are known and
    the cache has answered. *)
Lemma updateH3Grid_run (env : Env A) (st : AppState A) (hexes : list string)
    (iso : string) :
  ready A env →
  polygonToCells (polygon A env) (resolution (manualRes A env) (zoom A env)) = Ok hexes →
  toISOString (date A env) = Ok iso →
  (∀ h, h ∈ hexes → ∃ p, cellToLatLng h = Ok p) →
  ∃ cached points shown,
    (Db.getCachedResults toISOString hexes (date A env) (elevation A env) (conn A st)).1
      = Ok cached
    ∧ points_of (missing hexes cached) = Ok points
    ∧ displayedResults A (updateH3Grid env st) = shown
    ∧ (∀ k, (k ∈ map Db.id cached →
             ∃ c, c ∈ cached ∧ Db.id c = k ∧ map_get A k shown = Some (FromCache c)))
    ∧ Db.connected (conn A (updateH3Grid env st)) = Db.connected (conn A st)
    ∧ console_errors A (updateH3Grid env st) = console_errors A st
    ∧ (if (0 <? length (missing hexes cached))%nat
       then posted A (updateH3Grid env st)
            = posted A st
              ++ [ {| Worker.points := points;
                      Worker.elevation := Some (elevation A env);
                      Worker.date := date A env;
                      Worker.options :=
                        Some {| Calculate.opt_evening := None;
                                Calculate.opt_yallop := Some true |} |} ]
            ∧ recalculating A (updateH3Grid env st) = true
            ∧ grid_source A (updateH3Grid env st) = grid_source A st
       else posted A (updateH3Grid env st) = posted A st
            ∧ recalculating A (updateH3Grid env st) = recalculating A st
            ∧ grid_source A (updateH3Grid env st)
              = Some (features A cellToBoundary (values A shown))).
Proof.
  intros (Hmap & Hloaded & Hdb) Hcells Hiso Hcentroids.
  destruct (DbFacts.getCachedResults_spec toISOString hexes (date A env)
              (elevation A env) (conn A st) iso Hiso) as (cached & Hcached & _).
  destruct (points_of_Ok (missing hexes cached)) as [points Hpoints].
  { intros h Hh. apply missing_spec in Hh as [Hh _]. auto. }
  unfold Grid.updateH3Grid. rewrite Hmap, Hloaded, Hdb. simpl negb. simpl orb.
  cbv iota. rewrite Hcells. cbv zeta.
  set (st0 := if negb (currentResolution A st =? _) then _ else st).
  assert (Hconn0 : conn A st0 = conn A st) by (subst st0; destruct (negb _); reflexivity).
  assert (Hposted0 : posted A st0 = posted A st) by (subst st0; destruct (negb _); reflexivity).
  assert (Hsrc0 : grid_source A st0 = grid_source A st)
    by (subst st0; destruct (negb _); reflexivity).
  assert (Hrec0 : recalculating A st0 = recalculating A st)
    by (subst st0; destruct (negb _); reflexivity).
  assert (Herr0 : console_errors A st0 = console_errors A st)
    by (subst st0; destruct (negb _); reflexivity).
  clearbody st0. rewrite Hconn0, Hcached. simpl displayedResults.
  exists cached, points. eexists.
  split; [ reflexivity |]. split; [ exact Hpoints |].
  rewrite Hpoints.
  assert (Hconn : Db.connected
                    (Db.getCachedResults toISOString hexes (date A env) (elevation A env)
                       (conn A st)).2 = Db.connected (conn A st)).
  { unfold Db.getCachedResults. simpl. apply DbFacts.connected_initDB. }
  destruct (0 <? length (missing hexes cached))%nat eqn:Hmissing.
  - split; [ reflexivity |]. simpl.
    split; [ intros k Hk; exact (proj1 (foldl_set_cached cached _ k) Hk) |].
    rewrite Hposted0, Hsrc0, Herr0. auto.
  - unfold Grid.updateMapWithResults. rewrite Hmap, Hloaded. simpl.
    split; [ reflexivity |].
    split; [ intros k Hk; exact (proj1 (foldl_set_cached cached _ k) Hk) |].
    rewrite Hposted0, Hrec0, Herr0. auto.
Qed.

Lemma length_pos_nil {T : Type} (l : list T) : (0 <? length l)%nat = false ↔ l = [].
Proof.
  rewrite Nat.ltb_ge. destruct l; simpl; split; intros H; try reflexivity; try lia.
  discriminate H.
Qed.

(** X15.  Only what the cache lacks is computed.  With the viewport's
    cells known and a date with an ISO form, [updateH3Grid] posts one message
    whose points are exactly the cells with no row under their key, in the
    order of the viewport's cells, and marks the grid as recalculating;
    when no cell lacks a row it posts nothing and draws the displayed
    results.  Every cell that has a row is displayed with the entry read
    from a row under its key: the cell's identifier with the code and the
    colour of that row. *)
Theorem updateH3Grid_posts_uncached (env : Env A) (st : AppState A)
    (hexes : list string) (iso : string) :
  ready A env →
  polygonToCells (polygon A env) (resolution (manualRes A env) (zoom A env)) = Ok hexes →
  toISOString (date A env) = Ok iso →
  is_finite (elevation A env) = true →
  Forall (λ h, Db.sql_plain h = true) hexes →
  (∀ h, h ∈ hexes → ∃ p, cellToLatLng h = Ok p) →
  let need :=
    List.filter
      (uncached (Db.connected (conn A st)) (Db.split_T_head iso) (elevation A env))
      hexes in
  let st' := updateH3Grid env st in
  (need = [] →
   posted A st' = posted A st
   ∧ grid_source A st'
     = Some (features A cellToBoundary (values A (displayedResults A st'))))
  ∧ (need ≠ [] →
     ∃ msg, posted A st' = posted A st ++ [msg]
            ∧ map Worker.pt_id (Worker.points msg) = need
            ∧ Worker.elevation msg = Some (elevation A env)
            ∧ Worker.date msg = date A env
            ∧ recalculating A st' = true)
  ∧ (∀ h, h ∈ hexes →
          uncached (Db.connected (conn A st)) (Db.split_T_head iso) (elevation A env) h
          = false →
          ∃ row,
            row ∈ Db.connected (conn A st)
            ∧ Db.key_matches row h (Db.split_T_head iso) (elevation A env) = true
            ∧ map_get A h (displayedResults A st')
              = Some (FromCache {| Db.id := h; Db.qcode := Db.row_qcode row;
                                   Db.color := Db.row_color row |})).
Proof.
  intros Hready Hcells Hiso _ _ Hcentroids need st'.
  destruct (updateH3Grid_run env st hexes iso Hready Hcells Hiso Hcentroids)
    as (cached & points & shown & Hcached & Hpoints & Hshown & Hget & _ & _ & Hcase).
  destruct (DbFacts.getCachedResults_spec toISOString hexes (date A env)
              (elevation A env) (conn A st) iso Hiso) as (found & Hfound & Hrows).
  rewrite Hcached in Hfound. injection Hfound as <-.
  pose proof (missing_uncached hexes _ _ _ iso cached Hiso Hcached) as Hmiss.
  fold need in Hmiss. fold st' in Hshown, Hcase. rewrite Hmiss in Hcase, Hpoints.
  split; [| split ].
  - intros Hnil. rewrite Hnil in Hcase. simpl in Hcase.
    destruct Hcase as (Hp & _ & Hsrc). rewrite Hshown. auto.
  - intros Hsome.
    destruct (0 <? length need)%nat eqn:Hlen;
      [| apply length_pos_nil in Hlen; contradiction ].
    destruct Hcase as (Hp & Hrec & _).
    eexists. split; [ exact Hp |]. simpl.
    split; [ apply (points_of_ids _ _ Hpoints) | auto ].
  - intros h Hh Hcachedh.
    destruct (Hget h) as (c & Hin & Hid & Hc).
    + destruct (decide (h ∈ map Db.id cached)) as [Hin | Hout]; [ exact Hin |].
      assert (Hm : h ∈ missing hexes cached) by (apply missing_spec; auto).
      rewrite Hmiss in Hm. subst need.
      apply list_elem_of_In, filter_In in Hm as [_ Hu]. congruence.
    + apply Hrows in Hin as (_ & row & Hrow & Hkey & ->).
      simpl in Hid, Hkey. exists row. split; [ exact Hrow |].
      rewrite <- Hid at 1. split; [ exact Hkey |].
      rewrite Hshown, Hc. unfold Db.project. rewrite Hid. reflexivity.
Qed.

(** X16.  A failure inside the [try] is logged and nothing else: when the
    grid library cannot give the cells, when the date is invalid, or when
    the centre of a cell to compute cannot be had, the error goes to the
    console, no message is posted and the drawn grid stays as it was.  In
    the last case the grid has already been marked as recalculating, and
    stays so. *)
Theorem updateH3Grid_failure_logged (env : Env A) (st : AppState A) (e : exn) :
  ready A env →
  let res := resolution (manualRes A env) (zoom A env) in
  let st' := updateH3Grid env st in
  let logged :=
    console_errors A st' = console_errors A st ++ [e]
    ∧ posted A st' = posted A st
    ∧ grid_source A st' = grid_source A st in
  (polygonToCells (polygon A env) res = Throw e →
   logged ∧ recalculating A st' = recalculating A st)
  ∧ (∀ hexes,
       polygonToCells (polygon A env) res = Ok hexes →
       toISOString (date A env) = Throw e →
       logged ∧ recalculating A st' = recalculating A st)
  ∧ (∀ hexes iso,
       polygonToCells (polygon A env) res = Ok hexes →
       toISOString (date A env) = Ok iso →
       is_finite (elevation A env) = true →
       Forall (λ h, Db.sql_plain h = true) hexes →
       points_of
         (List.filter
            (uncached (Db.connected (conn A st)) (Db.split_T_head iso)
               (elevation A env))
            hexes) = Throw e →
       logged ∧ recalculating A st' = true).
Proof.
  intros (Hmap & Hloaded & Hdb) res st' logged. subst logged st'.
  unfold Grid.updateH3Grid. rewrite Hmap, Hloaded, Hdb. simpl negb. simpl orb.
  cbv iota. fold res. cbv zeta.
  set (st0 := if negb (currentResolution A st =? res) then _ else st).
  assert (Hconn0 : conn A st0 = conn A st) by (subst st0; destruct (negb _); reflexivity).
  assert (Hposted0 : posted A st0 = posted A st) by (subst st0; destruct (negb _); reflexivity).
  assert (Hsrc0 : grid_source A st0 = grid_source A st)
    by (subst st0; destruct (negb _); reflexivity).
  assert (Hrec0 : recalculating A st0 = recalculating A st)
    by (subst st0; destruct (negb _); reflexivity).
  assert (Herr0 : console_errors A st0 = console_errors A st)
    by (subst st0; destruct (negb _); reflexivity).
  clearbody st0.
  split; [| split ].
  - intros ->. simpl. rewrite Herr0, Hposted0, Hsrc0, Hrec0. auto.
  - intros hexes -> Hthrow.
    unfold Db.getCachedResults, mbind, result_bind. rewrite Hthrow. simpl.
    rewrite Herr0, Hposted0, Hsrc0, Hrec0. auto.
  - intros hexes iso -> Hiso _ _ Hpoints.
    destruct (DbFacts.getCachedResults_spec toISOString hexes (date A env)
                (elevation A env) (conn A st0) iso Hiso) as (cached & Hcached & _).
    pose proof (missing_uncached hexes _ _ _ iso cached Hiso Hcached) as Hmiss.
    rewrite Hconn0 in Hmiss. rewrite Hcached. rewrite Hmiss.
    destruct (0 <? length _)%nat eqn:Hlen.
    + rewrite Hpoints. simpl. rewrite Herr0, Hposted0, Hsrc0. auto.
    + apply length_pos_nil in Hlen. rewrite Hlen in Hpoints. discriminate Hpoints.
Qed.


(** The identifiers of the worker's answer are those of the points. *)
Lemma answer_ids (msg : Worker.Message A) (ps : list Worker.Point)
    (rs : list (Worker.CellResult A)) :
  Forall2 (λ p r, Worker.evaluate A M msg p = Ok r) ps rs →
  map Worker.id rs = map Worker.pt_id ps.
Proof.
  induction 1 as [| p r ps rs Hp _ IH]; [ reflexivity |].
  simpl. rewrite IH.
  apply WorkerFacts.evaluate_Ok in Hp as (d & _ & -> & _). reflexivity.
Qed.

(** What the handler of the worker's reply does on a date with an ISO
    form. *)
Lemma onWorkerMessage_run (env : Env A) (results : list (Worker.CellResult A))
    (st : AppState A) (iso : string) :
  toISOString (date A env) = Ok iso →
  let st' := onWorkerMessage env results st in
  posted A st' = posted A st
  ∧ recalculating A st' = false
  ∧ console_errors A st' = console_errors A st
  ∧ Db.connected (conn A st')
    = foldl Db.insert_or_ignore (Db.connected (conn A st))
        (map (λ res, Db.row_of (as_cached A text_of res) (Db.split_T_head iso)
                       (elevation A env))
           results)
  ∧ (∀ r, r ∈ results → is_Some (map_get A (Worker.id r) (displayedResults A st'))).
Proof.
  intros Hiso st'. subst st'. unfold Grid.onWorkerMessage. cbv zeta.
  assert (Hins : (Db.cacheResults toISOString (map (as_cached A text_of) results)
                    (date A env) (elevation A env) (conn A st)).1 = Ok ()).
  { unfold Db.cacheResults. rewrite Hiso. destruct (_ =? _)%nat; reflexivity. }
  rewrite Hins.
  assert (Hfold : ∀ m (r : Worker.CellResult A), r ∈ results →
            is_Some (map_get A (Worker.id r)
                       (foldl (λ m res, map_set A (Worker.id res) (FromWorker res) m)
                          m results))).
  { clear. induction results as [| x results IH] using rev_ind; intros m r Hr.
    - inversion Hr.
    - rewrite foldl_app. simpl. rewrite map_get_set.
      destruct (String.eqb (Worker.id x) (Worker.id r)) eqn:Hx; [ eauto |].
      apply elem_of_app in Hr as [Hr | Hr]; [ apply IH; exact Hr |].
      apply list_elem_of_singleton in Hr as ->. rewrite String.eqb_refl in Hx.
      discriminate. }
  assert (Hconn : Db.connected
                    (Db.cacheResults toISOString (map (as_cached A text_of) results)
                       (date A env) (elevation A env) (conn A st)).2
                  = foldl Db.insert_or_ignore (Db.connected (conn A st))
                      (map (λ res, Db.row_of (as_cached A text_of res)
                                     (Db.split_T_head iso) (elevation A env))
                         results)).
  { rewrite DbFacts.cacheResults_state. unfold Db.submitted. simpl.
    rewrite Hiso, map_map. reflexivity. }
  unfold Grid.updateMapWithResults.
  destruct (mapRef_current A env), (mapLoaded A env); simpl;
    (repeat split; [ exact Hconn | intros r Hr; apply Hfold; exact Hr ]).
Qed.

Lemma app_tail_self {T : Type} (l : list T) (x : T) : l ≠ l ++ [x].
Proof.
  intros H. apply (f_equal length) in H. rewrite length_app in H. simpl in H. lia.
Qed.

(** X17.  A cell is computed once.  After a pass of [updateH3Grid] has posted a
    message, the worker has answered it and the handler has stored the
    answer, a second pass over the same viewport, date and elevation posts
    nothing more: it draws the grid, with an entry for every cell of the
    viewport. *)
Theorem computed_cells_are_not_recomputed (env : Env A) (st : AppState A)
    (hexes : list string) (iso : string) (msg : Worker.Message A)
    (results : list (Worker.CellResult A)) :
  ready A env →
  polygonToCells (polygon A env) (resolution (manualRes A env) (zoom A env)) = Ok hexes →
  toISOString (date A env) = Ok iso →
  (∀ h, h ∈ hexes → ∃ p, cellToLatLng h = Ok p) →
  is_finite (elevation A env) = true →
  Forall (λ h, Db.sql_plain h = true) hexes →
  posted A (updateH3Grid env st) = posted A st ++ [msg] →
  Worker.onmessage A M msg = Ok results →
  let st2 := onWorkerMessage env results (updateH3Grid env st) in
  let st3 := updateH3Grid env st2 in
  posted A st3 = posted A st ++ [msg]
  ∧ recalculating A st3 = false
  ∧ grid_source A st3
    = Some (features A cellToBoundary (values A (displayedResults A st3)))
  ∧ (∀ h, h ∈ hexes → ∃ c, map_get A h (displayedResults A st3) = Some (FromCache c)
                            ∧ Db.id c = h).
Proof.
  intros Hready Hcells Hiso Hcentroids Hfin _ Hposted Hworker st2 st3.
  set (st1 := updateH3Grid env st) in *.
  pose proof (FloatFacts.eqb_refl_finite _ Hfin) as Hee.
  (* the first pass *)
  destruct (updateH3Grid_run env st hexes iso Hready Hcells Hiso Hcentroids)
    as (cached & points & shown & Hcached & Hpoints & _ & _ & Hconn1 & _ & Hcase).
  fold st1 in Hconn1, Hcase.
  pose proof (missing_uncached hexes _ _ _ iso cached Hiso Hcached) as Hmiss.
  destruct (0 <? length (missing hexes cached))%nat.
  2: { destruct Hcase as (Hsame & _). rewrite Hposted in Hsame.
       symmetry in Hsame. destruct (app_tail_self _ _ Hsame). }
  destruct Hcase as (Hp & _ & _). rewrite Hposted in Hp.
  apply app_inj_tail in Hp as [_ ->].
  (* the worker's answer *)
  pose proof (answer_ids _ _ _ (WorkerMore.onmessage_entries A M _ _ Hworker)) as Hids.
  simpl in Hids. rewrite (points_of_ids _ _ Hpoints) in Hids.
  (* the handler *)
  destruct (onWorkerMessage_run env results st1 iso Hiso)
    as (Hposted2 & Hrec2 & _ & Hconn2 & _).
  fold st2 in Hposted2, Hrec2, Hconn2. rewrite Hconn1 in Hconn2.
  (* the second pass *)
  assert (Hnone : List.filter
                    (uncached (Db.connected (conn A st2)) (Db.split_T_head iso)
                       (elevation A env)) hexes = []).
  { assert (Hall : ∀ h, h ∈ hexes →
               uncached (Db.connected (conn A st2)) (Db.split_T_head iso)
                 (elevation A env) h = false).
    { intros h Hh. unfold uncached. apply negb_false_iff. rewrite Hconn2.
      destruct (uncached (Db.connected (conn A st)) (Db.split_T_head iso)
                  (elevation A env) h) eqn:Hu.
      - assert (Hm : h ∈ missing hexes cached).
        { rewrite Hmiss. apply list_elem_of_In, filter_In.
          split; [ apply list_elem_of_In; exact Hh | exact Hu ]. }
        rewrite <- Hids in Hm. apply list_elem_of_fmap in Hm as (r & -> & Hr).
        apply (DbMore.foldl_insert_covers _ _
                 (Db.row_of (as_cached A text_of r) (Db.split_T_head iso)
                    (elevation A env))).
        + apply list_elem_of_fmap. exists r. auto.
        + apply DbFacts.key_matches_spec. simpl. auto.
      - unfold uncached in Hu. apply negb_false_iff in Hu.
        destruct (DbMore.foldl_insert_grows
                    (map (λ res, Db.row_of (as_cached A text_of res) (Db.split_T_head iso)
                                   (elevation A env)) results)
                    (Db.connected (conn A st))) as (extra & -> & _).
        apply DbMore.existsb_app_l. exact Hu. }
    clear -Hall. induction hexes as [| h hexes IH]; [ reflexivity |].
    simpl. rewrite (Hall h) by left. apply IH. intros x Hx. apply Hall. right. exact Hx. }
  destruct (updateH3Grid_run env st2 hexes iso Hready Hcells Hiso Hcentroids)
    as (cached3 & points3 & shown3 & Hcached3 & _ & Hshown3 & Hget3 & _ & _ & Hcase3).
  pose proof (missing_uncached hexes _ _ _ iso cached3 Hiso Hcached3) as Hmiss3.
  rewrite Hnone in Hmiss3. rewrite Hmiss3 in Hcase3. simpl in Hcase3.
  destruct Hcase3 as (Hposted3 & Hrec3 & Hsrc3).
  fold st3 in Hshown3, Hposted3, Hrec3, Hsrc3.
  split; [ rewrite Hposted3, Hposted2; exact Hposted |].
  split; [ rewrite Hrec3; exact Hrec2 |].
  split; [ rewrite Hshown3; exact Hsrc3 |].
  intros h Hh. rewrite Hshown3.
  destruct (Hget3 h) as (c & _ & Hid & Hc); [| eauto ].
  destruct (decide (h ∈ map Db.id cached3)) as [Hin | Hout]; [ exact Hin |].
  assert (Hm : h ∈ missing hexes cached3) by (apply missing_spec; auto).
  rewrite Hmiss3 in Hm. inversion Hm.
Qed.

End WithLibrary.
End GridFacts.

(** ** Moon images and the calendar *)

Module MoonNowFacts.
Import MoonNow.
Local Open Scope Z_scope.

Lemma getYearId_Some (y : Z) :
  2022 ≤ y → ∃ info, getYearId (Some y) = Some info.
Proof.
  intros Hy. unfold getYearId.
  destruct (MOON_YEAR_INFO y) as [info|] eqn:Htab; [eauto|].
  destruct (Z.leb_spec 2027 y) as [_|Hlt]; [eauto|].
  exfalso. revert Htab. unfold MOON_YEAR_INFO.
  repeat match goal with
  | |- context [?a =? ?b] => destruct (Z.eqb_spec a b); [discriminate|]
  end.
  lia.
Qed.

Lemma getYearId_None (y : Z) : y < 2022 → getYearId (Some y) = None.
Proof.
  intros Hy. unfold getYearId, MOON_YEAR_INFO.
  repeat match goal with
  | |- context [?a =? ?b] => destruct (Z.eqb_spec a b); [lia|]
  end.
  destruct (Z.leb_spec 2027 y); [lia|reflexivity].
Qed.

(** The table and the formula, as one function of the year. *)
Lemma getYearId_cases (y : Z) (info : YearInfo) :
  getYearId (Some y) = Some info →
  nimages info = 8760 ∧ id_south info = id_north info + 1 ∧
  ((y = 2022 ∧ id_north info = 4955) ∨ (y = 2023 ∧ id_north info = 5048) ∨
   (y = 2024 ∧ id_north info = 5187) ∨ (y = 2025 ∧ id_north info = 5415) ∨
   (y = 2026 ∧ id_north info = 5587) ∨
   (2027 ≤ y ∧ id_north info = 5587 + (y - 2026) * 130)).
Proof.
  unfold getYearId, MOON_YEAR_INFO.
  repeat match goal with
  | |- context [?a =? ?b] =>
      destruct (Z.eqb_spec a b);
      [intros [= <-]; cbn; repeat split; auto 8 with lia|]
  end.
  destruct (Z.leb_spec 2027 y); [|discriminate].
  intros [= <-]; cbn. repeat split; auto 8 with lia.
Qed.

(** X18.  Images are available exactly for valid dates whose local year is
    2022 or later; there is no last year. *)
Theorem getMoonImageURLs_available (date : option DateReading)
    (southern : option bool) :
  (∃ urls, getMoonImageURLs date southern = Ok urls) ↔
  (∃ d, date = Some d ∧ 2022 ≤ getFullYear d).
Proof.
  unfold getMoonImageURLs. split.
  - intros [urls Hrun]. destruct date as [d|]; [|discriminate].
    exists d. split; [reflexivity|].
    destruct (Z.le_gt_cases 2022 (getFullYear d)) as [|Hlt]; [assumption|].
    cbn [fmap option_fmap option_map] in Hrun.
    rewrite (getYearId_None _ Hlt) in Hrun. discriminate.
  - intros (d & -> & Hy). cbn [fmap option_fmap option_map].
    destruct (getYearId_Some _ Hy) as [info ->]. eauto.
Qed.

(** X19.  For an invalid date, and for a date whose local year is before
    2022, the call throws, and the message names the year read, NaN for an
    invalid date. *)
Theorem getMoonImageURLs_unavailable (date : option DateReading)
    (southern : option bool) :
  (∀ d, date = Some d → getFullYear d < 2022) →
  getMoonImageURLs date southern =
    Throw (Thrown ("Moon images not available for year "
                   +:+ String_of (getFullYear <$> date))).
Proof.
  intros Hy. unfold getMoonImageURLs. destruct date as [d|]; [|reflexivity].
  cbn [fmap option_fmap option_map].
  rewrite (getYearId_None _ (Hy d eq_refl)). reflexivity.
Qed.

(** X20.  Each year and hemisphere has an image set of its own: the
    southern identifier is the northern one plus one, and the identifiers of
    a later year lie above both, in the table and beyond it. *)
Theorem getYearId_sets_distinct (y1 y2 : Z) (i1 i2 : YearInfo) :
  getYearId (Some y1) = Some i1 →
  getYearId (Some y2) = Some i2 →
  y1 < y2 →
  id_south i1 = id_north i1 + 1 ∧ id_south i1 < id_north i2.
Proof.
  intros H1 H2 Hlt.
  destruct (getYearId_cases _ _ H1) as (_ & Hs1 & Hc1).
  destruct (getYearId_cases _ _ H2) as (_ & _ & Hc2).
  split; [assumption|]. rewrite Hs1.
  destruct Hc1 as [[? ->]|[[? ->]|[[? ->]|[[? ->]|[[? ->]|[? ->]]]]]];
  destruct Hc2 as [[? ->]|[[? ->]|[[? ->]|[[? ->]|[[? ->]|[? ->]]]]]];
  lia.
Qed.

Lemma append_assoc (s1 s2 s3 : string) :
  (s1 +:+ s2) +:+ s3 = s1 +:+ (s2 +:+ s3).
Proof.
  induction s1 as [|c s1 IH]; [reflexivity|].
  change (String c ((s1 +:+ s2) +:+ s3) = String c (s1 +:+ (s2 +:+ s3))).
  congruence.
Qed.

Lemma round_div_bounds (n d : Z) :
  0 < d →
  2 * d * round_div n d ≤ 2 * n + d < 2 * d * round_div n d + 2 * d.
Proof.
  intros Hd. unfold round_div.
  pose proof (Z.div_mod (2 * n + d) (2 * d) ltac:(lia)).
  pose proof (Z.mod_pos_bound (2 * n + d) (2 * d) ltac:(lia)).
  lia.
Qed.

Lemma moon_imagenum_range (d : DateReading) (janone : Z) :
  Date_UTC_jan1 (getUTCFullYear d) = Some janone →
  ∃ n, moon_imagenum d 8760 = Some n ∧ 1 ≤ n ≤ 8760.
Proof.
  intros Hj. unfold moon_imagenum. rewrite Hj.
  eexists. split; [reflexivity|]. cbv zeta.
  repeat match goal with
  | |- context [?a <? ?b] => destruct (Z.ltb_spec a b)
  end; lia.
Qed.

Lemma frames_four_digits : forallb four_digits (seqZ 1 8760) = true.
Proof. vm_compute. reflexivity. Qed.

Lemma padStart_four (n : Z) :
  1 ≤ n ≤ 8760 → String.length (padStart (pretty n) 4) = 4%nat.
Proof.
  intros Hn. pose proof frames_four_digits as Hall.
  rewrite forallb_forall in Hall.
  apply Nat.eqb_eq. apply (Hall n).
  apply list_elem_of_In, elem_of_seqZ. lia.
Qed.

(** X21.  The file asked for is always one of the 8760 hourly frames of
    a year: the frame number lies between 1 and 8760, is written with four
    digits, and is the same in both addresses; the rest of an address is the
    same for all dates of one local year and one hemisphere. *)
Theorem getMoonImageURLs_frame (d : DateReading) (southern : option bool)
    (janone : Z) (urls : MoonImageURLs) :
  Date_UTC_jan1 (getUTCFullYear d) = Some janone →
  getMoonImageURLs (Some d) southern = Ok urls →
  ∃ (n : Z) (dir : string),
    1 ≤ n ≤ 8760 ∧
    String.length (padStart (pretty n) 4) = 4%nat ∧
    (∀ d' urls', getFullYear d' = getFullYear d →
       getMoonImageURLs (Some d') southern = Ok urls' →
       ∀ m, moon_imagenum d' 8760 = Some m →
       jpg urls' = dir +:+ "/frames/730x730_1x1_30p/moon."
                     +:+ padStart (pretty m) 4 +:+ ".jpg") ∧
    jpg urls = dir +:+ "/frames/730x730_1x1_30p/moon."
                 +:+ padStart (pretty n) 4 +:+ ".jpg" ∧
    tif urls = dir +:+ "/frames/5760x3240_16x9_30p/plain/moon."
                 +:+ padStart (pretty n) 4 +:+ ".tif".
Proof.
  intros Hj Hrun. unfold getMoonImageURLs in Hrun.
  cbn [fmap option_fmap option_map] in Hrun.
  destruct (getYearId (Some (getFullYear d))) as [info|] eqn:Hinfo;
    [|discriminate].
  destruct (getYearId_cases _ _ Hinfo) as (Hn & _ & _).
  destruct (moon_imagenum_range d janone Hj) as (n & Hnum & Hrange).
  rewrite Hn, Hnum in Hrun. injection Hrun as <-.
  set (id := if default false southern then id_south info else id_north info).
  exists n, ("https://svs.gsfc.nasa.gov/vis/a000000/a"
             +:+ padStart (pretty (id / 100 * 100)) 6
             +:+ "/a" +:+ padStart (pretty id) 6).
  split; [assumption|]. split; [apply padStart_four; assumption|].
  split; [|split].
  - intros d' urls' Hyear Hrun' m Hm.
    unfold getMoonImageURLs in Hrun'.
    cbn [fmap option_fmap option_map] in Hrun'.
    rewrite Hyear, Hinfo, Hn, Hm in Hrun'. injection Hrun' as <-.
    cbn [jpg String_of]. fold id.
    rewrite !append_assoc. reflexivity.
  - cbn [jpg String_of]. rewrite !append_assoc. reflexivity.
  - cbn [tif String_of]. rewrite !append_assoc. reflexivity.
Qed.

(** X22.  Within the first 8759 hours of the year, the frame is the one
    of the nearest whole hour since the first of January, UTC, counted from
    1; a half hour goes to the later frame. *)
Theorem moon_imagenum_nearest_hour (d : DateReading) (janone : Z) :
  Date_UTC_jan1 (getUTCFullYear d) = Some janone →
  0 ≤ getTime d - janone ≤ 8759 * 3600000 →
  ∃ n, moon_imagenum d 8760 = Some n ∧
       3600000 * (n - 1) - 1800000 ≤ getTime d - janone
         < 3600000 * (n - 1) + 1800000.
Proof.
  intros Hj Hrange. unfold moon_imagenum. rewrite Hj.
  pose proof (round_div_bounds (getTime d - janone) 3600000 ltac:(lia)) as Hr.
  set (q := round_div (getTime d - janone) 3600000) in *.
  assert (0 ≤ q ≤ 8759) as Hq by lia.
  eexists. split; [reflexivity|]. cbv zeta.
  destruct (Z.ltb_spec 8760 (1 + q));
  match goal with
  | |- context [?a <? ?b] => destruct (Z.ltb_spec a b)
  end; lia.
Qed.

(** X23.  From the 8759th hour after the first of January, UTC, on, the
    frame is the last one, 8760, so that the last day of a leap year has one
    frame; for a time before that first of January it is the first. *)
Theorem moon_imagenum_clamped (d : DateReading) (janone : Z) :
  Date_UTC_jan1 (getUTCFullYear d) = Some janone →
  (8759 * 3600000 ≤ getTime d - janone → moon_imagenum d 8760 = Some 8760) ∧
  (getTime d - janone < 0 → moon_imagenum d 8760 = Some 1).
Proof.
  intros Hj. unfold moon_imagenum. rewrite Hj.
  pose proof (round_div_bounds (getTime d - janone) 3600000 ltac:(lia)) as Hr.
  set (q := round_div (getTime d - janone) 3600000) in *.
  cbv zeta. split; intros Hrange; f_equal;
  destruct (Z.ltb_spec 8760 (1 + q));
  match goal with
  | |- context [?a <? ?b] => destruct (Z.ltb_spec a b)
  end; lia.
Qed.

End MoonNowFacts.

Module CalendarFacts.
Import Calendar.
Local Open Scope Z_scope.

Section WithIntl.
Context (getIslamicNumeric : option Z → result IslamicNumeric).

Local Abbreviation seen := (seen getIslamicNumeric).
Local Abbreviation hit := (hit getIslamicNumeric).
Local Abbreviation miss := (miss getIslamicNumeric).

Lemma first_of_ramadan_true (islamic : IslamicNumeric) :
  first_of_ramadan islamic = true ↔
  month islamic = Some 9 ∧ day islamic = Some 1.
Proof.
  unfold first_of_ramadan.
  rewrite andb_true_iff, !bool_decide_eq_true. reflexivity.
Qed.

Lemma probe_from_seqZ (time : option Z) (n : nat) (a : Z)
    (r : result (option Z)) :
  probe_from getIslamicNumeric time (seqZ a (Z.of_nat n)) = r →
  match r with
  | Ok (Some i) =>
      a ≤ i < a + Z.of_nat n ∧ hit time i ∧ ∀ j, a ≤ j < i → miss time j
  | Ok None => ∀ j, a ≤ j < a + Z.of_nat n → miss time j
  | Throw e =>
      ∃ i, a ≤ i < a + Z.of_nat n ∧ seen time i = Throw e ∧
           ∀ j, a ≤ j < i → miss time j
  end.
Proof.
  revert a r. induction n as [|n IH]; intros a r <-.
  - cbn. intros j Hj. lia.
  - rewrite seqZ_cons by lia.
    replace (Z.pred (Z.of_nat (S n))) with (Z.of_nat n) by lia.
    cbn [probe_from]. fold (seen time a).
    destruct (seen time a) as [islamic|e] eqn:Hseen; cbn.
    + destruct (first_of_ramadan islamic) eqn:Hfirst.
      * split; [lia|]. split.
        -- exists islamic. split; [assumption|].
           apply first_of_ramadan_true. assumption.
        -- intros j Hj. lia.
      * assert (miss time a) as Hmiss.
        { exists islamic. split; [assumption|].
          rewrite <- first_of_ramadan_true, Hfirst. discriminate. }
        specialize (IH (Z.succ a) _ eq_refl).
        destruct (probe_from _ _ _) as [[i|]|e].
        -- destruct IH as (Hi & Hhit & Hbefore).
           split; [lia|]. split; [assumption|].
           intros j Hj. destruct (Z.eq_dec j a) as [->|]; [assumption|].
           apply Hbefore. lia.
        -- intros j Hj. destruct (Z.eq_dec j a) as [->|]; [assumption|].
           apply IH. lia.
        -- destruct IH as (i & Hi & Hthrow & Hbefore).
           exists i. split; [lia|]. split; [assumption|].
           intros j Hj. destruct (Z.eq_dec j a) as [->|]; [assumption|].
           apply Hbefore. lia.
    + exists a. split; [lia|]. split; [exact Hseen|]. intros j Hj. lia.
Qed.

(** X24.  The number returned is the first day, counted from the date
    and at most 420, that the calendar gives as 1 Ramadan: every earlier day
    was read without error and is another day of the calendar. *)
Theorem getDaysUntilRamadan_first (time : option Z) (i : Z) :
  getDaysUntilRamadan getIslamicNumeric time = Ok (Some i) →
  0 ≤ i ≤ 420 ∧ hit time i ∧ ∀ j, 0 ≤ j < i → miss time j.
Proof.
  intros Hrun. apply (probe_from_seqZ time 421 0) in Hrun.
  destruct Hrun as (Hi & Hhit & Hbefore). split; [lia|]. auto.
Qed.

(** X25.  Null is returned only when each of the 421 days from the date
    on was read without error and none is 1 Ramadan. *)
Theorem getDaysUntilRamadan_null (time : option Z) :
  getDaysUntilRamadan getIslamicNumeric time = Ok None →
  ∀ j, 0 ≤ j ≤ 420 → miss time j.
Proof.
  intros Hrun j Hj. apply (probe_from_seqZ time 421 0) in Hrun.
  apply Hrun. lia.
Qed.

End WithIntl.
End CalendarFacts.

(** ** Examples *)

Module ShapeExamples.
Import Astronomy Calculate Sample Shape.

Local Open Scope float_scope.

Lemma calculate_result_shape_witness :
  let A := library young_crescent in
  (∃ d, calculate A math 0 0 (Some 0) 100.5 (Some yallop_options) = Ok d
        ∧ (d = {[ "qcode" := VStr "H" ]}
           ∨ ((∃ letter, In letter ["A"; "B"; "C"; "D"; "E"; "F"]
                         ∧ d !! "qcode" = Some (VStr letter))
              ∧ Forall (λ k, ∃ x, d !! k = Some (VNum x)) number_fields
              ∧ (∃ x, d !! "arcl" = Some (VNum x))
              ∧ Forall (λ k, ∃ t, d !! k = Some (VDate t)) date_fields
              ∧ ((∃ t, d !! "bestTime" = Some (VDate t))
                 ∨ (∃ t, d !! "bestTime" = Some (VTime t)))
              ∧ ∀ k, k ∉ all_fields → d !! k = None)))
  ∧ (∃ d, calculate A math 0 0 (Some 0) 100.5 (Some alternate_options) = Ok d
          ∧ (d = {[ "qcode" := VStr "H" ]}
             ∨ ((∃ letter, In letter ["A"; "B"; "C"; "D"; "E"; "F"]
                           ∧ d !! "qcode" = Some (VStr letter))
                ∧ Forall (λ k, ∃ x, d !! k = Some (VNum x)) number_fields
                ∧ d !! "arcl" = Some VUndefined
                ∧ Forall (λ k, ∃ t, d !! k = Some (VDate t)) date_fields
                ∧ ((∃ t, d !! "bestTime" = Some (VDate t))
                   ∨ (∃ t, d !! "bestTime" = Some (VTime t)))
                ∧ ∀ k, k ∉ all_fields → d !! k = None))).
Proof.
  cbv zeta. split.
  - assert (Hran : returned (calculate (library young_crescent) math 0 0 (Some 0) 100.5
                               (Some yallop_options)) = true)
      by (vm_compute; reflexivity).
    destruct (calculate (library young_crescent) math 0 0 (Some 0) 100.5
                (Some yallop_options)) as [d | ?] eqn:Hd; [| discriminate Hran ].
    exists d. split; [ reflexivity |].
    exact (ShapeFacts.calculate_result_shape (library young_crescent) math 0 0 (Some 0)
             100.5 (Some yallop_options) d Hd).
  - assert (Hran : returned (calculate (library young_crescent) math 0 0 (Some 0) 100.5
                               (Some alternate_options)) = true)
      by (vm_compute; reflexivity).
    destruct (calculate (library young_crescent) math 0 0 (Some 0) 100.5
                (Some alternate_options)) as [d | ?] eqn:Hd; [| discriminate Hran ].
    exists d. split; [ reflexivity |].
    exact (ShapeFacts.calculate_result_shape (library young_crescent) math 0 0 (Some 0)
             100.5 (Some alternate_options) d Hd).
Defined.

Lemma geometric_result_monotone_witness :
  (0.1 <=? 0.3) = true
  ∧ (letter_rank (geometric_result true 0.3) ≤ letter_rank (geometric_result true 0.1))%nat.
Proof.
  split; [ reflexivity |].
  apply (LadderFacts.geometric_result_monotone true 0.1 0.3). reflexivity.
Defined.

End ShapeExamples.

Module WorkerMoreExamples.
Import Astronomy Worker Sample Scenes.

Local Open Scope float_scope.

Lemma onmessage_keeps_ids_witness :
  Worker.onmessage (library young_crescent) math first_message = Ok first_answer
  ∧ map id first_answer = map pt_id (points first_message).
Proof.
  assert (Hok : Worker.onmessage (library young_crescent) math first_message
                = Ok first_answer) by (vm_compute; reflexivity).
  split; [ exact Hok |].
  exact (WorkerMore.onmessage_keeps_ids (library young_crescent) math first_message
           first_answer Hok).
Defined.

Lemma onmessage_codes_and_colours_witness :
  Worker.onmessage (library young_crescent) math first_message = Ok first_answer
  ∧ Forall (λ r, ∃ letter,
              In letter ["A"; "B"; "C"; "D"; "E"; "F"; "H"]
              ∧ qcode r = Some (Calculate.VStr letter)
              ∧ Calculate.getCellColor (library young_crescent) (qcode r) = Some (color r)
              ∧ color r ≠ "#a855f7" ∧ color r ≠ "#ef4444")
      first_answer.
Proof.
  assert (Hok : Worker.onmessage (library young_crescent) math first_message
                = Ok first_answer) by (vm_compute; reflexivity).
  split; [ exact Hok |].
  exact (WorkerMore.onmessage_codes_and_colours (library young_crescent) math
           first_message first_answer Hok).
Defined.

End WorkerMoreExamples.

Module DbMoreExamples.
Import Db DbInvariant Sample Scenes.

Local Open Scope float_scope.

Lemma reachable_keys_unique_witness :
  keys_unique (connected (replay iso_text (two_inserts ++ later_inserts) None))
  ∧ length (connected (replay iso_text (two_inserts ++ later_inserts) None)) = 2%nat.
Proof.
  split; [| vm_compute; reflexivity ].
  apply (DbMore.reachable_keys_unique iso_text (two_inserts ++ later_inserts)).
  repeat constructor.
Defined.

Lemma invalid_date_throws_witness :
  iso_of None = Throw (Thrown "Invalid time value")
  ∧ getCachedResults iso_of [id result_A] None 100 None
    = (Throw (Thrown "Invalid time value"), initDB None)
  ∧ cacheResults iso_of [result_A] None 100 None
    = (Throw (Thrown "Invalid time value"), initDB None)
  ∧ connected (initDB None) = connected None.
Proof.
  split; [ reflexivity |].
  apply (DbMore.invalid_date_throws iso_of [id result_A] [result_A] None 100 None
           (Thrown "Invalid time value")).
  reflexivity.
Defined.

Lemma empty_requests_witness :
  (getCachedResults iso_text [] noon 100 None).1 = Ok []
  ∧ cacheResults iso_text [] noon 100 None = (Ok (), initDB None)
  ∧ connected (initDB None) = connected None
  ∧ (getCachedResults iso_text [id result_A] noon 100 None).1 = Ok [].
Proof.
  destruct (DbMore.empty_requests iso_text [id result_A] noon 100 None noon eq_refl)
    as (Hnone & Hinsert & Hsame & Hempty).
  split; [ exact Hnone |]. split; [ exact Hinsert |]. split; [ exact Hsame |].
  apply Hempty; [ reflexivity | reflexivity | repeat constructor ].
Defined.

Lemma cached_results_persist_witness :
  let ids := [ "8175bffffffffff"; "817f3ffffffffff" ] in
  (getCachedResults iso_text ids noon 100 (replay iso_text two_inserts None)).1
    = Ok [result_A]
  ∧ (getCachedResults iso_text ids noon 100
       (replay iso_text (two_inserts ++ later_inserts) None)).1
    = Ok [result_A; result_C]
  ∧ (∀ x, x ∈ [result_A] → x ∈ [result_A; result_C])
  ∧ (∀ x y, x ∈ [result_A] → y ∈ [result_A; result_C] → id y = id x → y = x).
Proof.
  cbv zeta.
  split; [ vm_compute; reflexivity |]. split; [ vm_compute; reflexivity |].
  apply (DbMore.cached_results_persist iso_text two_inserts later_inserts
           [ "8175bffffffffff"; "817f3ffffffffff" ] noon 100 noon
           [result_A] [result_A; result_C]);
    first [ solve [ vm_compute; reflexivity ] | repeat constructor ].
Defined.

Lemma cacheResults_batch_splits_witness :
  connected (cacheResults iso_text ([result_A] ++ [result_B; result_C]) noon 100 None).2
  = connected (cacheResults iso_text [result_B; result_C] noon 100
                 (cacheResults iso_text [result_A] noon 100 None).2).2.
Proof.
  apply (DbMore.cacheResults_batch_splits iso_text [result_A] [result_B; result_C] noon
           100 None);
    [ reflexivity | repeat constructor ].
Defined.

Lemma cacheResults_idempotent_witness :
  is_finite 100 = true
  ∧ connected (cacheResults iso_text [result_A; result_C] noon 100
                 (cacheResults iso_text [result_A; result_C] noon 100 None).2).2
    = connected (cacheResults iso_text [result_A; result_C] noon 100 None).2.
Proof.
  split; [ reflexivity |].
  apply (DbMore.cacheResults_idempotent iso_text [result_A; result_C] noon 100 None);
    [ reflexivity | repeat constructor ].
Defined.

Lemma other_key_untouched_witness :
  let st := replay iso_text two_inserts None in
  (getCachedResults iso_text [id result_A] noon 100
     (cacheResults iso_text [result_B] next_day 100 st).2).1
  = (getCachedResults iso_text [id result_A] noon 100 st).1
  ∧ (getCachedResults iso_text [id result_A] noon 100
       (cacheResults iso_text [result_B] noon 100.4 st).2).1
    = (getCachedResults iso_text [id result_A] noon 100 st).1.
Proof.
  cbv zeta. split.
  - apply (DbMore.other_key_untouched iso_text [result_B] [id result_A] noon next_day
             100 100 (replay iso_text two_inserts None) noon next_day);
      [ reflexivity | reflexivity | reflexivity | reflexivity | repeat constructor
      | repeat constructor |].
    left. vm_compute. discriminate.
  - apply (DbMore.other_key_untouched iso_text [result_B] [id result_A] noon noon
             100 100.4 (replay iso_text two_inserts None) noon noon);
      [ reflexivity | reflexivity | reflexivity | reflexivity | repeat constructor
      | repeat constructor |].
    right. reflexivity.
Defined.

End DbMoreExamples.

Module GridExamples.
Import Astronomy Grid Sample Scenes.

Local Open Scope float_scope.

Lemma auto_resolution_monotone_witness :
  (4 <=? 7) = true
  ∧ (auto_resolution 4 <=? auto_resolution 7) = true
  ∧ In (auto_resolution 4) [1; 2; 3; 4; 5]
  ∧ In (auto_resolution 7) [1; 2; 3; 4; 5].
Proof.
  split; [ reflexivity |].
  apply (GridFacts.auto_resolution_monotone 4 7). reflexivity.
Defined.

Lemma viewport_ready : ready (library young_crescent) viewport.
Proof. repeat split. Qed.

Lemma viewport_centres (h : string) :
  h ∈ viewport_cells → ∃ p, centre_of h = Ok p.
Proof. intros _. unfold centre_of. destruct (String.eqb _ _); eauto. Qed.

Lemma viewport_plain : Forall (λ h, Db.sql_plain h = true) viewport_cells.
Proof. repeat constructor. Qed.

Lemma updateH3Grid_posts_uncached_witness :
  let A := library young_crescent in
  let pass := updateH3Grid A day_of cells_of centre_of sample_grid viewport in
  (* one of the two cells has a row *)
  (∃ msg, posted A (pass half_cached) = [msg]
          ∧ map Worker.pt_id (Worker.points msg) = [ "817f3ffffffffff" ]
          ∧ recalculating A (pass half_cached) = true)
  ∧ map_get A "8175bffffffffff" (displayedResults A (pass half_cached))
    = Some (FromCache result_A)
  (* both have *)
  ∧ posted A (pass all_cached) = []
  ∧ grid_source A (pass all_cached)
    = Some (features A sample_grid (values A (displayedResults A (pass all_cached)))).
Proof.
  cbv zeta.
  pose proof (GridFacts.updateH3Grid_posts_uncached (library young_crescent) day_of
                cells_of centre_of sample_grid viewport half_cached viewport_cells noon
                viewport_ready eq_refl eq_refl eq_refl viewport_plain viewport_centres)
    as Hhalf.
  pose proof (GridFacts.updateH3Grid_posts_uncached (library young_crescent) day_of
                cells_of centre_of sample_grid viewport all_cached viewport_cells noon
                viewport_ready eq_refl eq_refl eq_refl viewport_plain viewport_centres)
    as Hall.
  cbv zeta in Hhalf, Hall.
  match type of Hhalf with
  | context [List.filter ?f ?l] =>
    assert (Hneed : List.filter f l = [ "817f3ffffffffff" ]) by (vm_compute; reflexivity);
    rewrite Hneed in Hhalf
  end.
  match type of Hall with
  | context [List.filter ?f ?l] =>
    assert (Hnone : List.filter f l = []) by (vm_compute; reflexivity);
    rewrite Hnone in Hall
  end.
  destruct Hhalf as (_ & Hpost & Hshown). destruct Hall as (Hquiet & _ & _).
  destruct (Hpost ltac:(discriminate)) as (msg & Hmsg & Hids & _ & _ & Hrec).
  destruct (Hquiet eq_refl) as (Hsame & Hsource).
  split; [ exists msg; auto |].
  split; [| split; [ exact Hsame | exact Hsource ] ].
  destruct (Hshown "8175bffffffffff") as (row & Hrow & _ & Hget).
  - left.
  - vm_compute. reflexivity.
  - change (row ∈ [row_A]) in Hrow. apply list_elem_of_singleton in Hrow as ->.
    exact Hget.
Defined.

Lemma updateH3Grid_failure_logged_witness :
  let A := library young_crescent in
  let e := Thrown "Cell argument was not valid" in
  let st' := updateH3Grid A day_of cells_of no_centre sample_grid viewport mounted in
  (console_errors A st' = console_errors A mounted ++ [e]
   ∧ posted A st' = posted A mounted
   ∧ grid_source A st' = grid_source A mounted)
  ∧ recalculating A st' = true.
Proof.
  cbv zeta.
  apply (proj2 (proj2 (GridFacts.updateH3Grid_failure_logged (library young_crescent)
                         day_of cells_of no_centre sample_grid viewport mounted
                         (Thrown "Cell argument was not valid") viewport_ready))
           viewport_cells noon).
  - reflexivity.
  - reflexivity.
  - reflexivity.
  - repeat constructor.
  - vm_compute. reflexivity.
Defined.

Lemma computed_cells_are_not_recomputed_witness :
  let A := library young_crescent in
  let st1 := updateH3Grid A day_of cells_of centre_of sample_grid viewport mounted in
  let st2 := onWorkerMessage A day_of text sample_grid viewport first_answer st1 in
  let st3 := updateH3Grid A day_of cells_of centre_of sample_grid viewport st2 in
  posted A st1 = posted A mounted ++ [first_message]
  ∧ Worker.onmessage A math first_message = Ok first_answer
  ∧ posted A st3 = posted A mounted ++ [first_message]
  ∧ recalculating A st3 = false
  ∧ grid_source A st3
    = Some (features A sample_grid (values A (displayedResults A st3)))
  ∧ (∀ h, h ∈ viewport_cells →
          ∃ c, map_get A h (displayedResults A st3) = Some (FromCache c)
               ∧ Db.id c = h).
Proof.
  cbv zeta.
  assert (Hposted :
            posted (library young_crescent)
              (updateH3Grid (library young_crescent) day_of cells_of centre_of
                 sample_grid viewport mounted)
            = posted (library young_crescent) mounted ++ [first_message])
    by (vm_compute; reflexivity).
  assert (Hok : Worker.onmessage (library young_crescent) math first_message
                = Ok first_answer) by (vm_compute; reflexivity).
  split; [ exact Hposted |]. split; [ exact Hok |].
  apply (GridFacts.computed_cells_are_not_recomputed (library young_crescent) math
           day_of text cells_of centre_of sample_grid viewport mounted viewport_cells
           noon first_message first_answer).
  - exact viewport_ready.
  - reflexivity.
  - reflexivity.
  - exact viewport_centres.
  - reflexivity.
  - repeat constructor.
  - exact Hposted.
  - exact Hok.
Defined.

End GridExamples.

Module MoonNowExamples.
Import MoonNow Scenes.

Local Open Scope Z_scope.

Lemma getMoonImageURLs_unavailable_witness :
  getMoonImageURLs (Some year_2021) None
  = Throw (Thrown "Moon images not available for year 2021").
Proof.
  apply (MoonNowFacts.getMoonImageURLs_unavailable (Some year_2021) None).
  intros d [= <-]. reflexivity.
Defined.

Lemma getYearId_sets_distinct_witness :
  let i1 := {| id_north := 5587; id_south := 5588; nimages := 8760 |} in
  let i2 := {| id_north := 5717; id_south := 5718; nimages := 8760 |} in
  getYearId (Some 2026) = Some i1
  ∧ getYearId (Some 2027) = Some i2
  ∧ id_south i1 = id_north i1 + 1
  ∧ id_south i1 < id_north i2.
Proof.
  cbv zeta. split; [ reflexivity |]. split; [ reflexivity |].
  apply (MoonNowFacts.getYearId_sets_distinct 2026 2027
           {| id_north := 5587; id_south := 5588; nimages := 8760 |}
           {| id_north := 5717; id_south := 5718; nimages := 8760 |});
    reflexivity.
Defined.

Lemma getMoonImageURLs_frame_witness :
  let urls :=
    {| jpg := "https://svs.gsfc.nasa.gov/vis/a000000/a005400/a005415/frames/730x730_1x1_30p/moon.0100.jpg";
       tif := "https://svs.gsfc.nasa.gov/vis/a000000/a005400/a005415/frames/5760x3240_16x9_30p/plain/moon.0100.tif" |} in
  getMoonImageURLs (Some early_january) None = Ok urls
  ∧ ∃ (n : Z) (dir : string),
      1 ≤ n ≤ 8760 ∧
      String.length (padStart (pretty n) 4) = 4%nat ∧
      (∀ d' urls', getFullYear d' = getFullYear early_january →
         getMoonImageURLs (Some d') None = Ok urls' →
         ∀ m, moon_imagenum d' 8760 = Some m →
         jpg urls' = dir +:+ "/frames/730x730_1x1_30p/moon."
                       +:+ padStart (pretty m) 4 +:+ ".jpg") ∧
      jpg urls = dir +:+ "/frames/730x730_1x1_30p/moon."
                   +:+ padStart (pretty n) 4 +:+ ".jpg" ∧
      tif urls = dir +:+ "/frames/5760x3240_16x9_30p/plain/moon."
                   +:+ padStart (pretty n) 4 +:+ ".tif".
Proof.
  cbv zeta. split; [ vm_compute; reflexivity |].
  apply (MoonNowFacts.getMoonImageURLs_frame early_january None 1735689600000);
    vm_compute; reflexivity.
Defined.

Lemma moon_imagenum_nearest_hour_witness :
  ∃ n, moon_imagenum early_january 8760 = Some n ∧
       3600000 * (n - 1) - 1800000 ≤ getTime early_january - 1735689600000
         < 3600000 * (n - 1) + 1800000.
Proof.
  apply (MoonNowFacts.moon_imagenum_nearest_hour early_january 1735689600000).
  - vm_compute. reflexivity.
  - vm_compute. split; discriminate.
Defined.

Lemma moon_imagenum_clamped_witness :
  (8759 * 3600000 ≤ getTime leap_year_end - 1704067200000 →
   moon_imagenum leap_year_end 8760 = Some 8760) ∧
  (getTime leap_year_end - 1704067200000 < 0 →
   moon_imagenum leap_year_end 8760 = Some 1).
Proof.
  apply (MoonNowFacts.moon_imagenum_clamped leap_year_end 1704067200000).
  vm_compute. reflexivity.
Defined.

End MoonNowExamples.

Module CalendarExamples.
Import Calendar Scenes.

Local Open Scope Z_scope.

Lemma getDaysUntilRamadan_first_witness :
  getDaysUntilRamadan tabular (Some 0) = Ok (Some 236)
  ∧ 0 ≤ 236 ≤ 420
  ∧ hit tabular (Some 0) 236
  ∧ ∀ j, 0 ≤ j < 236 → miss tabular (Some 0) j.
Proof.
  assert (Hrun : getDaysUntilRamadan tabular (Some 0) = Ok (Some 236))
    by (vm_compute; reflexivity).
  split; [ exact Hrun |].
  exact (CalendarFacts.getDaysUntilRamadan_first tabular (Some 0) 236 Hrun).
Defined.

Lemma getDaysUntilRamadan_null_witness :
  getDaysUntilRamadan no_parts (Some 0) = Ok None
  ∧ ∀ j, 0 ≤ j ≤ 420 → miss no_parts (Some 0) j.
Proof.
  assert (Hrun : getDaysUntilRamadan no_parts (Some 0) = Ok None)
    by (vm_compute; reflexivity).
  split; [ exact Hrun |].
  exact (CalendarFacts.getDaysUntilRamadan_null no_parts (Some 0) Hrun).
Defined.

End CalendarExamples.
